(** * freezeyt: the Frozen-Flask compatibility layer, the progress plugins
      and the command-line entry point

    A shallow embedding of [freezeyt/flask_frozen.py],
    [freezeyt/progressbar.py] and [freezeyt/cli.py].

    Conventions.
    - A Python [str] is a Rocq [string] holding its UTF-8 encoding, one
      [ascii] per byte.  Every character the code searches for
      ([':'], ['/'], ['?'], ['#'], ['%'], ['['], [']']) is ASCII, so searching
      bytes and searching code points agree.
    - A Python call that may raise returns a [result]; [Raise e] carries the
      exception.  An exception raised while another one is being handled (in
      an [except] block, or in a [finally] suite that an exception passes
      through) carries that one as its [__context__]: [WithContext e c].
    - Python integers are [Z]. *)

From Stdlib Require Import ZArith Lia Bool Ascii String List DecimalString.
From stdpp Require Import base option list strings gmap sets.

Local Open Scope string_scope.
Set Warnings "-clear-no-such-hyp".

(** ** Exceptions and results *)

Inductive exn : Type :=
  | AssertionError
  | ValueError (msg : string)
  | SyntaxError (msg : string)
  | TypeError
  | ZeroDivisionError
  | OverflowError
  | BuildError
  | ExternalURLError
  | RelativeURLError
  | UnexpectedStatus (url status : string)
  | FileNotFoundError
  | FileExistsError
  | NotADirectoryError
  | IsADirectoryError
  | OtherError (name : string)
  | WithContext (e : exn) (context : exn).

(** The exception itself, which an [except] clause tests the class of. *)
Fixpoint without_context (e : exn) : exn :=
  match e with
  | WithContext e' _ => without_context e'
  | _ => e
  end.

(** [e.__context__] *)
Definition __context__ (e : exn) : option exn :=
  match e with
  | WithContext _ c => Some c
  | _ => None
  end.

Inductive result (A : Type) : Type :=
  | Ok (a : A)
  | Raise (e : exn).
Arguments Ok {A} a.
Arguments Raise {A} e.

#[global] Instance result_ret : MRet result := fun A a => Ok a.
#[global] Instance result_bind : MBind result := fun A B k r =>
  match r with
  | Ok a => k a
  | Raise e => Raise e
  end.

(** ** Python string operations *)

Module PyStr.

(** [s.startswith(p)] *)
Fixpoint startswith (s p : string) {struct p} : bool :=
  match p, s with
  | EmptyString, _ => true
  | String a p', String b s' => if Ascii.eqb a b then startswith s' p' else false
  | String _ _, EmptyString => false
  end.

(** [s[n:]] *)
Fixpoint drop (n : nat) (s : string) : string :=
  match n, s with
  | O, _ => s
  | S n', String _ s' => drop n' s'
  | S _, EmptyString => EmptyString
  end.

(** [s[:n]] *)
Fixpoint take (n : nat) (s : string) : string :=
  match n, s with
  | O, _ => EmptyString
  | S n', String c s' => String c (take n' s')
  | S _, EmptyString => EmptyString
  end.

(** [s.find(c)]: the index of the first [c], [None] for Python's [-1]. *)
Fixpoint find (c : ascii) (s : string) : option nat :=
  match s with
  | EmptyString => None
  | String b s' => if Ascii.eqb b c then Some O else S <$> find c s'
  end.

(** [s.find(c, start)] *)
Definition find_from (c : ascii) (start : nat) (s : string) : option nat :=
  (fun i => start + i) <$> find c (drop start s).

(** [c in s] *)
Definition contains (c : ascii) (s : string) : bool :=
  match find c s with Some _ => true | None => false end.

(** [s.split(c, 1)] for an [s] that contains [c]: the text before the first
    [c] and the text after it. *)
Definition split1 (c : ascii) (s : string) : string * string :=
  match find c s with
  | Some i => (take i s, drop (S i) s)
  | None => (s, EmptyString)
  end.

Fixpoint forallb (f : ascii -> bool) (s : string) : bool :=
  match s with
  | EmptyString => true
  | String c s' => f c && forallb f s'
  end.

Definition is_empty (s : string) : bool :=
  match s with EmptyString => true | _ => false end.

Definition in_range (lo hi : nat) (c : ascii) : bool :=
  (lo <=? nat_of_ascii c)%nat && (nat_of_ascii c <=? hi)%nat.

Definition is_digit (c : ascii) : bool := in_range 48 57 c.

Definition lower_char (c : ascii) : ascii :=
  if in_range 65 90 c then ascii_of_nat (nat_of_ascii c + 32) else c.

(** [s.lower()] on the ASCII letters. *)
Fixpoint lower (s : string) : string :=
  match s with
  | EmptyString => EmptyString
  | String c s' => String (lower_char c) (lower s')
  end.

(** [needle in s] for a string needle. *)
Fixpoint contains_str (needle s : string) : bool :=
  startswith s needle ||
  match s with
  | EmptyString => false
  | String _ s' => contains_str needle s'
  end.

End PyStr.

(** ** [werkzeug.urls]: [url_parse], [URL.replace], [URL.to_url]

    Library code used by [make_relative_url]; transcribed from Werkzeug's
    [url_parse] and [url_unparse]. *)

Module Werkzeug.
Import PyStr.

Record URL : Type := mkURL {
  scheme : string;
  netloc : string;
  path : string;
  query : string;
  fragment : string
}.

(** One character of the class [[a-zA-Z0-9+-.]]; the range [+-.] is the
    four characters from ['+'] to ['.']. *)
Definition scheme_char (c : ascii) : bool :=
  in_range 97 122 c || in_range 65 90 c || in_range 48 57 c || in_range 43 46 c.

(** [_scheme_re.match(s)] for [_scheme_re = ^[a-zA-Z0-9+-.]+$]; [$] also
    matches before one final newline. *)
Fixpoint scheme_re_match (s : string) : bool :=
  match s with
  | EmptyString => false
  | String c s' =>
      scheme_char c &&
      match s' with
      | EmptyString => true
      | String "010"%char EmptyString => true
      | _ => scheme_re_match s'
      end
  end.

(** The [scheme, url] pair after the scheme test of [url_parse]. *)
Definition split_scheme (url : string) : string * string :=
  match find ":" url with
  | Some i =>
      if (0 <? i)%nat && scheme_re_match (take i url) then
        let rest := drop (S i) url in
        if is_empty rest || negb (forallb is_digit rest)
        then (lower (take i url), rest)
        else (EmptyString, url)
      else (EmptyString, url)
  | None => (EmptyString, url)
  end.

(** The end of the authority part: the least index from 2 on of ['/'],
    ['?'] or ['#'], else the length. *)
Definition netloc_delim (url : string) : nat :=
  foldl (fun delim c =>
           match find_from c 2 url with
           | Some wdelim => Nat.min delim wdelim
           | None => delim
           end)
        (String.length url) ["/"%char; "?"%char; "#"%char].

Definition split_netloc (url : string) : result (string * string) :=
  if String.eqb (take 2 url) "//" then
    let delim := netloc_delim url in
    let nl := drop 2 (take delim url) in
    let url := drop delim url in
    if (contains "[" nl && negb (contains "]" nl))
       || (contains "]" nl && negb (contains "[" nl))
    then Raise (ValueError "Invalid IPv6 URL")
    else Ok (nl, url)
  else Ok (EmptyString, url).

Definition split_fragment (url : string) : string * string :=
  if contains "#" url then split1 "#" url else (url, EmptyString).

Definition split_query (url : string) : string * string :=
  if contains "?" url then split1 "?" url else (url, EmptyString).

Definition url_parse (url : string) : result URL :=
  let '(sch, url) := split_scheme url in
  '(nl, url) ← split_netloc url;
  let '(url, frag) := split_fragment url in
  let '(url, q) := split_query url in
  Ok (mkURL sch nl url q frag).

(** [parsed.replace(query='', fragment='')] *)
Definition replace_query_fragment (u : URL) (q frag : string) : URL :=
  mkURL (scheme u) (netloc u) (path u) q frag.

(** [url_unparse], which [URL.to_url] calls. *)
Definition to_url (u : URL) : string :=
  let url :=
    if negb (is_empty (netloc u))
       || (negb (is_empty (scheme u)) && startswith (path u) "/")
    then
      let p := if negb (is_empty (path u)) && negb (startswith (path u) "/")
               then "/" +:+ path u else path u in
      "//" +:+ netloc u +:+ p
    else path u in
  let url := if negb (is_empty (scheme u)) then scheme u +:+ ":" +:+ url else url in
  let url := if negb (is_empty (query u)) then url +:+ "?" +:+ query u else url in
  if negb (is_empty (fragment u)) then url +:+ "#" +:+ fragment u else url.

End Werkzeug.

(** ** [urllib.parse.unquote]

    Library code: [unquote(string)] with its defaults
    [encoding='utf-8', errors='replace'].  Every maximal run of ASCII
    characters is percent-decoded to bytes and those bytes are decoded as
    UTF-8, an ill-formed sequence giving U+FFFD; the characters between the
    runs are copied. *)

Module Urllib.
Import PyStr.

Definition hexval (c : ascii) : option nat :=
  let n := nat_of_ascii c in
  if in_range 48 57 c then Some (n - 48)
  else if in_range 97 102 c then Some (n - 87)
  else if in_range 65 70 c then Some (n - 55)
  else None.

(** [unquote_to_bytes]: [%XY] with two hexadecimal digits becomes one byte,
    any other ['%'] stays. *)
Fixpoint unquote_to_bytes (s : string) : string :=
  match s with
  | EmptyString => EmptyString
  | String c s' =>
      if Ascii.eqb c "%" then
        match s' with
        | String h (String l r) =>
            match hexval h, hexval l with
            | Some a, Some b => String (ascii_of_nat (16 * a + b)) (unquote_to_bytes r)
            | _, _ => String c (unquote_to_bytes s')
            end
        | _ => String c (unquote_to_bytes s')
        end
      else String c (unquote_to_bytes s')
  end.

(** U+FFFD REPLACEMENT CHARACTER, in UTF-8. *)
Definition replacement : string := String "239" (String "191" (String "189" EmptyString)).

(** The bounds of the second byte after the lead byte [n] of a three- or
    four-byte sequence. *)
Definition second_bounds (n : nat) : nat * nat :=
  if (n =? 224)%nat then (160, 191)
  else if (n =? 237)%nat then (128, 159)
  else if (n =? 240)%nat then (144, 191)
  else if (n =? 244)%nat then (128, 143)
  else (128, 191).

(** [bytes.decode('utf-8', 'replace')], the result again in UTF-8: a
    well-formed sequence is copied, a maximal ill-formed part is replaced
    by U+FFFD. *)
Fixpoint decode_utf8_replace (s : string) : string :=
  match s with
  | EmptyString => EmptyString
  | String b0 s1 =>
      let n := nat_of_ascii b0 in
      let '(lo, hi) := second_bounds n in
      if (n <? 128)%nat then String b0 (decode_utf8_replace s1)
      else if in_range 194 223 b0 then
        match s1 with
        | EmptyString => replacement
        | String b1 s2 =>
            if in_range 128 191 b1
            then String b0 (String b1 (decode_utf8_replace s2))
            else replacement +:+ decode_utf8_replace s1
        end
      else if in_range 224 239 b0 then
        match s1 with
        | EmptyString => replacement
        | String b1 s2 =>
            if in_range lo hi b1 then
              match s2 with
              | EmptyString => replacement
              | String b2 s3 =>
                  if in_range 128 191 b2
                  then String b0 (String b1 (String b2 (decode_utf8_replace s3)))
                  else replacement +:+ decode_utf8_replace s2
              end
            else replacement +:+ decode_utf8_replace s1
        end
      else if in_range 240 244 b0 then
        match s1 with
        | EmptyString => replacement
        | String b1 s2 =>
            if in_range lo hi b1 then
              match s2 with
              | EmptyString => replacement
              | String b2 s3 =>
                  if in_range 128 191 b2 then
                    match s3 with
                    | EmptyString => replacement
                    | String b3 s4 =>
                        if in_range 128 191 b3
                        then String b0 (String b1 (String b2 (String b3
                               (decode_utf8_replace s4))))
                        else replacement +:+ decode_utf8_replace s3
                    end
                  else replacement +:+ decode_utf8_replace s2
              end
            else replacement +:+ decode_utf8_replace s1
        end
      else replacement +:+ decode_utf8_replace s1
  end.

Definition is_ascii (c : ascii) : bool := (nat_of_ascii c <? 128)%nat.

(** One match of [[\x00-\x7f]+]: the run is percent-decoded and decoded. *)
Definition unquote_run (run : string) : string :=
  decode_utf8_replace (unquote_to_bytes run).

(** [_generate_unquoted_parts], joined; [run] is the ASCII run read so far. *)
Fixpoint unquoted_parts (run s : string) : string :=
  match s with
  | EmptyString => unquote_run run
  | String c s' =>
      if is_ascii c then unquoted_parts (run +:+ String c EmptyString) s'
      else unquote_run run +:+ String c (unquoted_parts EmptyString s')
  end.

Definition unquote (s : string) : string :=
  if negb (contains "%" s) then s else unquoted_parts EmptyString s.

End Urllib.

(** ** [flask_frozen.make_relative_url] *)

Definition make_relative_url (prefix url : string) : result string :=
  (* assert url.startswith(prefix), (url, prefix) *)
  if negb (PyStr.startswith url prefix) then Raise AssertionError else
  let url := "/" +:+ PyStr.drop (String.length prefix) url in
  (* Remove query & fragment *)
  parsed ← Werkzeug.url_parse url;
  let parsed := Werkzeug.replace_query_fragment parsed "" "" in
  Ok (Urllib.unquote (Werkzeug.to_url parsed)).

Definition PREFIX : string := "http://localhost:80/".


(** The result the specification describes: ['/'] followed by the part of
    [url] after the prefix, cut before its query and fragment,
    percent-decoded. *)
Fixpoint strip_query_fragment (s : string) : string :=
  match s with
  | EmptyString => EmptyString
  | String c s' =>
      if Ascii.eqb c "?" || Ascii.eqb c "#" then EmptyString
      else String c (strip_query_fragment s')
  end.

(** [take_until c s]: the text before the first [c], all of [s] without one. *)
Fixpoint take_until (c : ascii) (s : string) : string :=
  match s with
  | EmptyString => EmptyString
  | String b s' => if Ascii.eqb b c then EmptyString else String b (take_until c s')
  end.

Definition relative_url_spec (prefix url : string) : string :=
  Urllib.unquote ("/" +:+ strip_query_fragment (PyStr.drop (String.length prefix) url)).

Definition returns {A} (r : result A) : Prop :=
  match r with Ok _ => True | Raise _ => False end.

(** ** The engine's observer payloads *)

(** Modelled from the spec: the engine's [FreezeInfo], of which the plugins
    read the three counters. *)
Record FreezeInfo : Type := mkFreezeInfo {
  total_task_count : Z;
  done_task_count : Z;
  failed_task_count : Z
}.

(** Modelled from the spec: the engine's [TaskInfo], the payload of the
    [page_frozen] and [page_failed] hooks. *)
Record TaskInfo : Type := mkTaskInfo {
  freeze_info : FreezeInfo;
  (** what [task_info.get_a_url()] returns *)
  a_url : string;
  path : string;
  exception : option exn
}.

(** ** [progressbar.ProgressBarPlugin] *)

Module ProgressBar.

(** The [enlighten] counter and its ['cyan'] subcounter;
    [failure_counter] is the main counter itself. *)
Record ProgressBarPlugin : Type := mkBar {
  counter_total : Z;
  counter_count : Z;
  success_counter_count : Z
}.

(** [Counter.update(incr)] adds [incr] to the count and redraws. *)
Definition counter_update (incr : Z) (self : ProgressBarPlugin) : ProgressBarPlugin :=
  mkBar (counter_total self) (counter_count self + incr) (success_counter_count self).

Definition update_bar (self : ProgressBarPlugin) (task_info : TaskInfo)
  : ProgressBarPlugin :=
  let fi := freeze_info task_info in
  let self := mkBar (total_task_count fi) (counter_count self)
                    (success_counter_count self) in
  let self := mkBar (counter_total self) (done_task_count fi)
                    (success_counter_count self) in
  let self := mkBar (counter_total self) (counter_count self)
                    (done_task_count fi - failed_task_count fi) in
  counter_update 0 self.

(** The hook bus calls [update_bar] once per [page_frozen] or [page_failed]
    event, in order. *)
Definition run_hooks (self : ProgressBarPlugin) (events : list TaskInfo)
  : ProgressBarPlugin :=
  foldl update_bar self events.

End ProgressBar.

(** ** [progressbar.LogPlugin] *)

Module LogPlugin.

(** [str(n)] for an integer. *)
Definition str (n : Z) : string :=
  DecimalString.NilZero.string_of_int (Z.to_int n).

Fixpoint spaces (n : nat) : string :=
  match n with
  | O => EmptyString
  | S n' => String " " (spaces n')
  end.

(** [f'{n:{width}d}']: right-aligned in [width] columns. *)
Definition format_d (n : Z) (width : nat) : string :=
  let s := str n in
  spaces (width - String.length s) +:+ s.

(** [a / b] on integers: the quotient as a float.  The model keeps the
    exact fraction and reports the two errors of the operation: a zero
    divisor, and a quotient that rounds beyond the largest float. *)
Definition true_div (a b : Z) : result (Z * Z) :=
  if (b =? 0)%Z then Raise ZeroDivisionError
  else if ((2 ^ 1024 - 2 ^ 970) * Z.abs b <=? Z.abs a)%Z then Raise OverflowError
  else Ok (a, b).

Section Summary.

(** [f'{progress:3.0%}'] for the float quotient of the given fraction;
    floating-point rendering is left to the caller of the model. *)
Variable format_percent : Z * Z -> string.

Definition _summary (freeze_info : FreezeInfo) : result string :=
  let total := total_task_count freeze_info in
  let failed := failed_task_count freeze_info in
  let done := done_task_count freeze_info in
  progress ← true_div done total;
  let result :=
    ["[" +:+ format_d done (String.length (str total)) +:+ "/" +:+ str total
         +:+ ", ~" +:+ format_percent progress] in
  let result :=
    if (failed =? 0)%Z then result
    else (result ++ [", " +:+ str failed +:+ " errors"])%list in
  let result := (result ++ ["]"])%list in
  Ok (String.concat "" result).

End Summary.

(** A rendering of the percentage with exact arithmetic, rounding half up;
    it stands in for the float rendering in examples. *)
Definition percent_exact (q : Z * Z) : string :=
  format_d ((200 * q.1 + q.2) / (2 * q.2)) 2 +:+ "%".

End LogPlugin.

(** ** [cli.main] *)

Module Cli.

(** Python objects as [yaml.safe_load] builds them and as [main] stores them
    in [cli_params].  A [PyDict] lists its items in insertion order, each key
    once. *)
#[warnings="-register-all"]
Inductive pyobj : Type :=
  | PyNone
  | PyBool (b : bool)
  | PyInt (n : Z)
  | PyFloat (repr : string)
  | PyStr (s : string)
  | PyList (items : list pyobj)
  | PyDict (items : list (pyobj * pyobj)).

(** [x != None] *)
Definition not_none (x : pyobj) : bool :=
  match x with PyNone => false | _ => true end.

Definition is_key (k : string) (x : pyobj) : bool :=
  match x with PyStr s => String.eqb s k | _ => false end.

(** [d.get(k, None)] for a string key. *)
Fixpoint dict_get (d : list (pyobj * pyobj)) (k : string) : pyobj :=
  match d with
  | [] => PyNone
  | (key, v) :: d' => if is_key k key then v else dict_get d' k
  end.

(** The characters of a string, each with its UTF-8 continuation bytes. *)
Fixpoint chars (s : string) : list string :=
  match s with
  | EmptyString => []
  | String c s' =>
      match chars s' with
      | next :: tl =>
          match next with
          | String d _ =>
              if PyStr.in_range 128 191 d then (String c next) :: tl
              else String c EmptyString :: next :: tl
          | EmptyString => String c EmptyString :: tl
          end
      | [] => [String c EmptyString]
      end
  end.

(** What iterating over [x] yields; a scalar is not iterable. *)
Definition py_iter (x : pyobj) : result (list pyobj) :=
  match x with
  | PyList items => Ok items
  | PyStr s => Ok (PyStr <$> chars s)
  | PyDict items => Ok (fst <$> items)
  | _ => Raise TypeError
  end.

(** The call [freeze(app, dest_path, cli_params)] that ends [main]; an
    application object is given by a name. *)
Record freeze_call : Type := mkCall {
  call_app : string;
  call_dest_path : string;
  call_params : gmap string pyobj
}.

(** [module.app]: a module is given by the value of its attribute [app],
    [None] when it has none. *)
Definition module_app (module : option string) : result string :=
  match module with
  | Some app => Ok app
  | None => Raise (OtherError "AttributeError")
  end.

(** [cli_params['extra_pages'].extend(more)] *)
Definition extend_extra_pages (cli_params : gmap string pyobj) (more : pyobj)
  : result (gmap string pyobj) :=
  match cli_params !! "extra_pages" with
  | Some (PyList pages) =>
      items ← py_iter more;
      Ok (<["extra_pages" := PyList (pages ++ items)]> cli_params)
  | _ => Raise (OtherError "KeyError")
  end.

(** [main], up to its call of [freeze].  [import_module] is
    [importlib.import_module]: the module a name is imported as, or the
    error the import raises ([ModuleNotFoundError] for a name that is no
    module).  [config] is the name of the opened file and what
    [yaml.safe_load] makes of it: the document, or the error it raises.
    The line [main] prints is left out. *)
Definition main (import_module : string -> result (option string))
    (module_name dest_path : string) (prefix : option string)
    (extra_page : list string) (config : option (string * result pyobj))
  : result freeze_call :=
  let cli_params : gmap string pyobj :=
    {[ "extra_pages" := PyList (PyStr <$> extra_page) ]} in
  let cli_params :=
    match prefix with
    | Some p => <["prefix" := PyStr p]> cli_params
    | None => cli_params
    end in
  cli_params ←
    match config with
    | Some (name, loaded) =>
        file_config ← loaded;
        match file_config with
        | PyDict d =>
            let cli_params :=
              if not_none (dict_get d "prefix") && bool_decide (prefix = None)
              then <["prefix" := dict_get d "prefix"]> cli_params
              else cli_params in
            cli_params ←
              (if not_none (dict_get d "extra_pages")
               then extend_extra_pages cli_params (dict_get d "extra_pages")
               else Ok cli_params);
            Ok (<["extra_files" := dict_get d "extra_files"]> cli_params)
        | _ =>
            Raise (SyntaxError
                     ("File " +:+ name +:+ " is not prepared as YAML dictionary."))
        end
    | None => Ok cli_params
    end;
  module ← import_module module_name;
  app ← module_app module;
  Ok (mkCall app dest_path cli_params).

(** The prefix [main] is to pass on: the command line's, else the file's. *)
Definition expected_prefix (prefix : option string)
    (config : option (string * result pyobj)) : option pyobj :=
  match prefix with
  | Some p => Some (PyStr p)
  | None =>
      match config with
      | Some (_, Ok (PyDict d)) =>
          if not_none (dict_get d "prefix") then Some (dict_get d "prefix") else None
      | _ => None
      end
  end.

(** The file's [extra_pages] entry, [PyNone] without a file or without the
    key. *)
Definition file_extra_pages (config : option (string * result pyobj)) : pyobj :=
  match config with
  | Some (_, Ok (PyDict d)) => dict_get d "extra_pages"
  | _ => PyNone
  end.

(** The entries a file's [extra_pages] value contributes. *)
Definition entries (x : pyobj) : list pyobj :=
  match x with
  | PyNone => []
  | _ => match py_iter x with Ok l => l | Raise _ => [] end
  end.

(** A configuration [main] can use: no file, or a file that loads as a
    dictionary whose [extra_pages] is absent, null or iterable. *)
Definition usable (config : option (string * result pyobj)) : Prop :=
  match config with
  | None => True
  | Some (_, Ok (PyDict d)) =>
      match dict_get d "extra_pages" with
      | PyNone | PyList _ | PyStr _ | PyDict _ => True
      | _ => False
      end
  | Some _ => False
  end.

End Cli.

(** ** The destination directory

    The files under the destination root, keyed by their root-relative
    path as [walk_directory] yields it (['a/b.html']), with their content.
    A directory is present where a file lies below it. *)

Module Fs.

Abbreviation tree := (gmap string string).

(** [q] names a directory on the way to [p]. *)
Definition is_ancestor (q p : string) : bool := PyStr.startswith p (q +:+ "/").

Definition is_file (t : tree) (p : string) : bool :=
  match t !! p with Some _ => true | None => false end.

Definition is_dir (t : tree) (p : string) : bool :=
  existsb (fun f => is_ancestor p f.1) (map_to_list t).

(** A regular file lies on the way to [p]. *)
Definition blocked (t : tree) (p : string) : bool :=
  existsb (fun f => is_ancestor f.1 p) (map_to_list t).

(** [Path.exists()] *)
Definition path_exists (t : tree) (p : string) : bool := is_file t p || is_dir t p.

(** No file lies below another file. *)
Definition well_formed (t : tree) : Prop :=
  forall p q, is_file t p = true -> is_file t q = true -> is_ancestor p q = false.

(** [Path(filename).name] *)
Fixpoint basename (s : string) : string :=
  match s with
  | EmptyString => EmptyString
  | String c s' =>
      if PyStr.contains "/" s' then basename s'
      else if Ascii.eqb c "/" then s' else s
  end.

(** [str(Path(filename).parent)] for a path with a directory part. *)
Fixpoint dirname (s : string) : string :=
  match s with
  | EmptyString => EmptyString
  | String c s' => if PyStr.contains "/" s' then String c (dirname s') else EmptyString
  end.

(** The destination root as the file system has it. *)
Inductive dest : Type :=
  | NoParent           (** the directory that is to hold the root is missing *)
  | Missing            (** the root is missing, its parent is a directory *)
  | NotDir             (** the root exists and is not a directory *)
  | Dir (t : tree).    (** the root is a directory holding [t] *)

(** [Path(root).exists()] *)
Definition root_exists (d : dest) : bool :=
  match d with NoParent | Missing => false | NotDir | Dir _ => true end.

(** [shutil.rmtree(root)] on an existing root. *)
Definition rmtree (d : dest) : result dest :=
  match d with
  | Dir _ => Ok Missing
  | NotDir => Raise NotADirectoryError
  | NoParent | Missing => Raise FileNotFoundError
  end.

(** [Path(root).mkdir(exist_ok=True)] *)
Definition mkdir_exist_ok (d : dest) : result tree :=
  match d with
  | Dir t => Ok t
  | Missing => Ok ∅
  | NotDir => Raise FileExistsError
  | NoParent => Raise FileNotFoundError
  end.

(** [walk_directory(root)]: the files under the root, none when the root is
    not a directory. *)
Definition walk_directory (d : dest) : list (string * string) :=
  match d with
  | Dir t => map_to_list t
  | _ => []
  end.

(** The files of the destination. *)
Definition files (d : dest) : gset string :=
  match d with
  | Dir t => dom t
  | _ => ∅
  end.

(** [dest.parent.mkdir(parents=True, exist_ok=True)] followed by
    [shutil.copyfile(src, dest)], [content] being what [src] holds. *)
Definition copy_into (t : tree) (filename content : string) : result tree :=
  if blocked t filename then
    Raise (if is_file t (dirname filename) then FileExistsError else NotADirectoryError)
  else if is_dir t filename then Raise IsADirectoryError
  else Ok (<[filename := content]> t).

End Fs.

(** ** [flask_frozen.Freezer.freeze] and the kept files *)

Module FlaskFrozen.
Import Fs.

(** The keys of [app.config] that decide which files are kept; [None] is a
    key that is not set. *)
Record app_config : Type := mkConfig {
  FREEZER_REMOVE_EXTRA_FILES : option bool;
  FREEZER_DESTINATION_IGNORE : option (list string);
  FREEZER_SKIP_EXISTING : option bool
}.

(** Modelled from the spec: the engine's [freeze(app, config)], seen from
    its caller as the hook events it fires, in order, the destination as it
    leaves it, and the error it raises, if any. *)
Inductive hook_event : Type :=
  | Start (new_freeze_info : FreezeInfo)
  | PageFrozen (task_info : TaskInfo)
  | PageFailed (task_info : TaskInfo).

Record engine_run : Type := mkRun {
  events : list hook_event;
  out : dest;
  outcome : option exn
}.

(** [s.strip('/')] *)
Fixpoint lstrip_slash (s : string) : string :=
  match s with
  | String c s' => if Ascii.eqb c "/" then lstrip_slash s' else s
  | EmptyString => EmptyString
  end.

Fixpoint rstrip_slash (s : string) : string :=
  match s with
  | EmptyString => EmptyString
  | String c s' =>
      let r := rstrip_slash s' in
      if PyStr.is_empty r && Ascii.eqb c "/" then EmptyString else String c r
  end.

Definition strip_slash (s : string) : string := rstrip_slash (lstrip_slash s).

Section Freeze.

(** [fnmatch.fnmatch(name, pattern)], library code. *)
Variable fnmatch : string -> string -> bool.

(** The test in the loop of [save_kept_files]. *)
Definition keeps (kept_file_patterns : list string) (filename : string) : bool :=
  let basename_kept :=
    List.filter (fun n => negb (PyStr.contains "/" n)) kept_file_patterns in
  let path_kept :=
    strip_slash <$> List.filter (fun n => PyStr.contains "/" n) kept_file_patterns in
  let name := basename filename in
  if existsb (fun pattern => fnmatch name pattern) basename_kept then true
  else existsb (fun pattern => fnmatch filename pattern) path_kept.

(** [save_kept_files]: the temporary directory it fills. *)
Definition save_kept_files (root : dest) (kept_file_patterns : list string) : tree :=
  foldl (fun temp f =>
           if keeps kept_file_patterns f.1 then <[f.1 := f.2]> temp else temp)
        ∅ (walk_directory root).

(** One turn of the loop of [restore_kept_files]. *)
Definition restore_one (restore_all : bool) (t : tree) (f : string * string)
  : result tree :=
  if restore_all || negb (path_exists t f.1) then copy_into t f.1 f.2 else Ok t.

(** The loop of [restore_kept_files]: the tree it reaches and the error that
    stopped it, if any. *)
Fixpoint restore_loop (restore_all : bool) (saved : list (string * string)) (t : tree)
  : tree * option exn :=
  match saved with
  | [] => (t, None)
  | f :: rest =>
      match restore_one restore_all t f with
      | Ok t' => restore_loop restore_all rest t'
      | Raise e => (t, Some e)
      end
  end.

(** The saved files are walked in the order of [map_to_list]; the order of
    [Path.glob] decides nothing but which file a restore that raises stops
    at. *)
Definition restore_kept_files (kept_file_dir : tree) (root : tree) (restore_all : bool)
  : tree * option exn :=
  restore_loop restore_all (map_to_list kept_file_dir) root.

Definition kept_file_patterns (config : app_config) : list string :=
  let patterns :=
    if negb (default true (FREEZER_REMOVE_EXTRA_FILES config)) then ["*"]
    else default [] (FREEZER_DESTINATION_IGNORE config) in
  if default false (FREEZER_SKIP_EXISTING config) then ["*"] else patterns.

(** The [page_frozen] hook. *)
Definition record_url (recorded_urls : gset string) (task_info : TaskInfo)
  : result (gset string) :=
  url ← make_relative_url PREFIX (a_url task_info);
  Ok ({[url]} ∪ recorded_urls).

(** Modelled from the spec: the engine's hook bus, which calls the hooks of
    an event synchronously as the event occurs.  [freeze] registers
    [record_url] for [page_frozen] and [start_hook], which only arms the
    [url_for] handler, for [start]; [page_failed] has no hook. *)
Fixpoint call_hooks (evs : list hook_event) (recorded_urls : gset string)
  : result (gset string) :=
  match evs with
  | [] => Ok recorded_urls
  | PageFrozen task_info :: rest =>
      recorded_urls ← record_url recorded_urls task_info;
      call_hooks rest recorded_urls
  | _ :: rest => call_hooks rest recorded_urls
  end.

(** The events left when every [page_failed] event is dropped. *)
Definition without_failed (evs : list hook_event) : list hook_event :=
  List.filter (fun ev => match ev with PageFailed _ => false | _ => true end) evs.

(** The call [freeze(self.app, config)]: an error of a hook leaves the
    engine as the engine's own error does. *)
Definition engine_freeze (run : engine_run) : result (gset string) :=
  recorded_urls ← call_hooks (events run) ∅;
  match outcome run with
  | Some e => Raise e
  | None => Ok recorded_urls
  end.

(** The [try] suite. *)
Definition try_suite (engine : dest -> engine_run) (root : dest)
  : dest * result (gset string) :=
  if root_exists root then
    match rmtree root with
    | Ok root' => let run := engine root' in (out run, engine_freeze run)
    | Raise e => (root, Raise e)
    end
  else let run := engine root in (out run, engine_freeze run).

(** The [except] clauses.  What they raise is raised while the engine's
    error [e] is being handled, without [from None]. *)
Definition except_clauses (body : result (gset string)) : result (gset string) :=
  match body with
  | Raise e =>
      match without_context e with
      | ExternalURLError | RelativeURLError =>
          Raise (WithContext (ValueError "External URLs not supported") e)
      | UnexpectedStatus url status =>
          match make_relative_url PREFIX url with
          | Ok relative_url =>
              Raise (WithContext
                       (ValueError ("Unexpected status '" +:+ status +:+ "' on URL "
                                    +:+ relative_url)) e)
          | Raise e' => Raise (WithContext e' e)
          end
      | _ => body
      end
  | Ok _ => body
  end.

(** An error [e] of the [finally] suite: the error on its way out of the
    [try] statement, if there is one, becomes its [__context__]. *)
Definition raise_over {A : Type} (pending : result A) (e : exn) : result A :=
  match pending with
  | Raise p => Raise (WithContext e p)
  | Ok _ => Raise e
  end.

(** The [finally] suite; [pending] is the result it lets through when it
    completes. *)
Definition finally_suite (config : app_config) (kept_file_dir : option tree)
    (root : dest) (pending : result (gset string)) : dest * result (gset string) :=
  match mkdir_exist_ok root with
  | Raise e => (root, raise_over pending e)
  | Ok t =>
      match kept_file_dir with
      | Some temp =>
          let '(t', err) :=
            restore_kept_files temp t (default false (FREEZER_SKIP_EXISTING config)) in
          (Dir t', match err with Some e => raise_over pending e | None => pending end)
      | None => (Dir t, pending)
      end
  end.

(** [Freezer.freeze]: the destination afterwards and the returned set of
    URLs or the raised error. *)
Definition freeze (config : app_config) (engine : dest -> engine_run) (root : dest)
  : dest * result (gset string) :=
  let patterns := kept_file_patterns config in
  let kept_file_dir :=
    match patterns with
    | [] => None
    | _ => Some (save_kept_files root patterns)
    end in
  let '(root', body) := try_suite engine root in
  finally_suite config kept_file_dir root' (except_clauses body).

(** The destination the engine is started on. *)
Definition cleared (root : dest) : dest :=
  match root with
  | Dir _ => Missing
  | _ => root
  end.

(** The error the [finally] suite raises, if it does. *)
Definition finally_error (config : app_config) (kept_file_dir : option tree)
    (root : dest) : option exn :=
  match mkdir_exist_ok root with
  | Raise e => Some e
  | Ok t =>
      match kept_file_dir with
      | Some temp =>
          (restore_kept_files temp t (default false (FREEZER_SKIP_EXISTING config))).2
      | None => None
      end
  end.

(** The temporary directory of one call of [freeze], if it makes one. *)
Definition kept_file_dir_of (config : app_config) (root : dest) : option tree :=
  match kept_file_patterns config with
  | [] => None
  | _ => Some (save_kept_files root (kept_file_patterns config))
  end.

Definition freeze_finally_error (config : app_config) (engine : dest -> engine_run)
    (root : dest) : option exn :=
  finally_error config (kept_file_dir_of config root) (try_suite engine root).1.

End Freeze.

(** The tree under the root once the [try] suite is over and the root is
    re-created, and the tree a destination holds. *)
Definition tree_of (d : dest) : tree :=
  match d with Dir t => t | _ => ∅ end.

Definition crawl_tree (engine : dest -> engine_run) (root : dest) : tree :=
  tree_of (try_suite engine root).1.

(** The statement that every kept file is back after [freeze]: with its
    saved content under [FREEZER_SKIP_EXISTING] or where the crawl wrote
    nothing, with the crawl's content otherwise. *)
Definition kept_files_as_specified (fnmatch : string -> string -> bool)
    (config : app_config) (engine : dest -> engine_run) (t0 : tree) : Prop :=
  forall p c,
    t0 !! p = Some c ->
    keeps fnmatch (kept_file_patterns config) p = true ->
    tree_of (freeze fnmatch config engine (Dir t0)).1 !! p
    = Some (if default false (FREEZER_SKIP_EXISTING config) then c
            else default c (crawl_tree engine (Dir t0) !! p)).

(** A decision procedure for [well_formed]. *)
Definition well_formedb (t : tree) : bool :=
  forallb (fun f => negb (blocked t f.1)) (map_to_list t).

(** The statement that [freeze] turns the engine's errors into
    [ValueError]s that carry the message and no reference to the engine's
    error. *)
Definition errors_translated_as_specified (fnmatch : string -> string -> bool)
    (config : app_config) (engine : dest -> engine_run) (root : dest) : Prop :=
  let body := (try_suite engine root).2 in
  let result := (freeze fnmatch config engine root).2 in
  forall e, body = Raise e ->
  (without_context e = ExternalURLError \/ without_context e = RelativeURLError ->
   exists raised,
     result = Raise raised
     /\ without_context raised = ValueError "External URLs not supported"
     /\ __context__ raised = None)
  /\ (forall url status relative_url,
        without_context e = UnexpectedStatus url status ->
        make_relative_url PREFIX url = Ok relative_url ->
        exists raised msg,
          result = Raise raised
          /\ without_context raised = ValueError msg
          /\ PyStr.contains_str status msg = true
          /\ PyStr.contains_str relative_url msg = true
          /\ __context__ raised = None).

Definition dest_well_formed (d : dest) : Prop :=
  match d with Dir t => well_formed t | _ => True end.

Definition is_directory (d : dest) : Prop :=
  match d with Dir _ => True | _ => False end.

(** [fnmatch] on patterns made of literal characters, [*] and [?]. *)
Fixpoint glob (pattern name : string) {struct pattern} : bool :=
  match pattern with
  | EmptyString => PyStr.is_empty name
  | String "*" pattern' =>
      (fix star (name : string) : bool :=
         glob pattern' name ||
         match name with
         | EmptyString => false
         | String _ name' => star name'
         end) name
  | String "?" pattern' =>
      match name with
      | EmptyString => false
      | String _ name' => glob pattern' name'
      end
  | String c pattern' =>
      match name with
      | EmptyString => false
      | String d name' => Ascii.eqb c d && glob pattern' name'
      end
  end.

Definition fnmatch_glob (name pattern : string) : bool := glob pattern name.

(** An application configuration with no key set. *)
Definition default_config : app_config := mkConfig None None None.

(** An engine that fires [evs], leaves [written] under the root and
    returns. *)
Definition engine_writing (evs : list hook_event) (written : tree) (root : dest)
  : engine_run :=
  mkRun evs (Dir written) None.

Definition sample_task (url : string) (exc : option exn) : TaskInfo :=
  mkTaskInfo (mkFreezeInfo 3 3 1) url "index.html" exc.

Definition sample_events : list hook_event :=
  [ Start (mkFreezeInfo 1 0 0);
    PageFrozen (sample_task "http://localhost:80/a?x=1" None);
    PageFailed (sample_task "http://localhost:80/missing" (Some (OtherError "NotFound")));
    PageFrozen (sample_task "http://localhost:80/a#top" None) ].

(** A destination with a file to keep and a configuration that keeps it. *)
Definition sample_root : tree :=
  <["CNAME" := "example.org"]> {[ "old.html" := "<html>old" ]}.

Definition sample_ignore : app_config := mkConfig None (Some ["CNAME"]) None.

(** An engine that leaves [written] under the root and raises [e]. *)
Definition engine_partial (written : tree) (e : exn) (root : dest) : engine_run :=
  mkRun [] (Dir written) (Some e).

(** A configuration that keeps every file. *)
Definition keep_everything : app_config := mkConfig (Some false) None None.

(** An engine that writes nothing and raises [e]. *)
Definition engine_raising (e : exn) (root : dest) : engine_run := mkRun [] root (Some e).

End FlaskFrozen.

(** ** The [url_for] handler of [Freezer.freeze] *)

Module UrlFor.

Abbreviation values := (gmap string Cli.pyobj).

(** The variables [handle_url_for] closes over, and the URLs
    [freeze_info.add_url] was called with, oldest first. *)
Record handler_state : Type := mkState {
  freeze_info_set : bool;
  handling_url_for : bool;
  add_url_log : list string
}.

(** [freeze] starts with [freeze_info = None], [handling_url_for = False]. *)
Definition initial : handler_state := mkState false false [].

Definition start_hook (st : handler_state) : handler_state :=
  mkState true true (add_url_log st).

Definition set_handling (b : bool) (st : handler_state) : handler_state :=
  mkState (freeze_info_set st) b (add_url_log st).

Section Handler.

(** The application's URL map: what [url_for] builds from an endpoint and
    its keyword arguments, [BuildError] included. *)
Variable build : string -> values -> result string.

(** Modelled from the spec: the engine's [FreezeInfo.add_url], given by the
    error it raises for a URL, if any, and the [url_for] calls it makes on
    the application meanwhile. *)
Variable add_url_error : string -> option exn.
Variable add_url_calls : string -> list (string * values).

Definition url_for_type : Type :=
  handler_state -> string -> values -> handler_state * result string.

(** Calls made one after the other until one raises. *)
Fixpoint nested_calls (url_for : url_for_type) (st : handler_state)
    (calls : list (string * values)) : handler_state * result unit :=
  match calls with
  | [] => (st, Ok ())
  | (endpoint, vals) :: rest =>
      match url_for st endpoint vals with
      | (st, Ok _) => nested_calls url_for st rest
      | (st, Raise e) => (st, Raise e)
      end
  end.

(** [freeze_info.add_url(url)] *)
Definition add_url (url_for : url_for_type) (st : handler_state) (url : string)
  : handler_state * result unit :=
  if negb (freeze_info_set st) then (st, Raise (OtherError "AttributeError")) else
  let st := mkState (freeze_info_set st) (handling_url_for st) (add_url_log st ++ [url]) in
  match nested_calls url_for st (add_url_calls url) with
  | (st, Ok _) =>
      match add_url_error url with
      | Some e => (st, Raise e)
      | None => (st, Ok ())
      end
  | (st, Raise e) => (st, Raise e)
  end.

Definition handle_url_for (url_for : url_for_type) (st : handler_state)
    (endpoint : string) (vals : values) : handler_state * result unit :=
  if handling_url_for st then
    let st := set_handling false st in
    let vals := <["_external" := Cli.PyBool true]> vals in
    match url_for st endpoint vals with
    | (st, Ok url) =>
        match add_url url_for st url with
        | (st, Ok _) => (set_handling true st, Ok ())
        | (st, Raise e) => (st, Raise e)
        end
    | (st, Raise e) => (st, Raise e)
    end
  else (st, Ok ()).

(** Flask's [url_for(endpoint, **values)] during the first [freeze] of an
    application: [inject_url_defaults] runs the URL-default functions,
    [handle_url_for] in front and the only one of its kind, then the URL is
    built.  [fuel] bounds the depth of calls.  ([freeze] never takes its
    handler out again: [Handlers] below has the handlers of earlier calls
    of [freeze] as well.) *)
Fixpoint url_for (fuel : nat) (st : handler_state) (endpoint : string) (vals : values)
  : handler_state * result string :=
  match fuel with
  | O => (st, Raise (OtherError "RecursionError"))
  | S fuel' =>
      match handle_url_for (url_for fuel') st endpoint vals with
      | (st, Ok _) => (st, build endpoint vals)
      | (st, Raise e) => (st, Raise e)
      end
  end.

(** The [url_for] calls of the application's views, one after the other; a
    call that raises does not stop the later ones. *)
Definition serve (fuel : nat) (st : handler_state) (calls : list (string * values))
  : handler_state :=
  foldl (fun st call => (url_for fuel st call.1 call.2).1) st calls.

End Handler.

(** A URL map with the one endpoint ['index']. *)
Definition sample_build (endpoint : string) (vals : values) : result string :=
  if String.eqb endpoint "index" then
    match vals !! "_external" with
    | Some (Cli.PyBool true) => Ok "http://localhost/"
    | _ => Ok "/"
    end
  else Raise BuildError.

End UrlFor.

(** * Further parts of the three modules *)

(** The errors of the engine that the [except] clauses of [freeze] name. *)
Definition translated (e : exn) : bool :=
  match without_context e with
  | ExternalURLError | RelativeURLError | UnexpectedStatus _ _ => true
  | _ => false
  end.

(** ** [flask_frozen.Freezer]: the URL generators *)

Module Generators.

Abbreviation values := (gmap string Cli.pyobj).

(** What a URL generator yields: a URL, a mapping of values for the endpoint
    named like the generator, or a sequence that starts with an endpoint and
    its values; [more] holds what follows them, nothing in a pair and the
    last-modified stamp in a triple. *)
Inductive generated : Type :=
  | GenStr (url : string)
  | GenMapping (vals : values)
  | GenSeq (endpoint : string) (vals : values) (more : list Cli.pyobj).

(** A view function: Flask's [send_static_file] bound to an application or
    blueprint, given by the state of its static folder ([None] when it has
    none), or another view. *)
Inductive view : Type :=
  | SendStaticFile (static_folder : option Fs.dest)
  | OtherView.

Record rule : Type := mkRule {
  rule_endpoint : string;
  rule_arguments : list string;
  rule_methods : list string
}.

Record flask_app : Type := mkApp {
  url_map : list rule;
  view_functions : gmap string view
}.

(** The functions of [self.generators]: the two methods of [Freezer] and the
    functions registered by the user, each given by its [__name__] and what
    it yields. *)
Inductive generator : Type :=
  | static_files_urls_method
  | no_argument_rules_urls_method
  | UserGenerator (name : string) (yields : list generated).

(** A generator run to its end: what it yielded and the error that stopped
    it, if any. *)
Definition run (A : Type) : Type := (list A * option exn)%type.

Definition then_run {A} (first : list A) (r : run A) : run A :=
  ((first ++ r.1)%list, r.2).

(** [Freezer.__init__]: the list [self.generators]. *)
Definition __init__ (with_static_files with_no_argument_rules : bool) : list generator :=
  let generators := [] in
  let generators :=
    if with_static_files then (generators ++ [static_files_urls_method])%list
    else generators in
  if with_no_argument_rules then (generators ++ [no_argument_rules_urls_method])%list
  else generators.

(** [Freezer.register_generator] *)
Definition register_generator (generators : list generator) (function : generator)
  : list generator :=
  (generators ++ [function])%list.

(** [Freezer.init_app] on an application: the value of
    [app.config['FREEZER_STATIC_IGNORE']] afterwards, [None] being a key that
    is not set. *)
Definition init_app (static_ignore : option (list string)) : option (list string) :=
  Some (default [] static_ignore).

(** [Freezer._static_rules_endpoints]; [view_functions[rule.endpoint]]
    raises [KeyError] for an endpoint without a view. *)
Fixpoint _static_rules_endpoints_of (view_functions : gmap string view)
    (rules : list rule) : run string :=
  match rules with
  | [] => ([], None)
  | rule :: rest =>
      match view_functions !! rule_endpoint rule with
      | None => ([], Some (OtherError "KeyError"))
      | Some (SendStaticFile _) =>
          then_run [rule_endpoint rule] (_static_rules_endpoints_of view_functions rest)
      | Some OtherView => _static_rules_endpoints_of view_functions rest
      end
  end.

Definition _static_rules_endpoints (app : flask_app) : run string :=
  _static_rules_endpoints_of (view_functions app) (url_map app).

(** The names [walk_directory(root, ignore=ignore)] yields; the function
    does not read [ignore]. *)
Definition walk_directory (root : Fs.dest) (ignore : list string) : list string :=
  (Fs.walk_directory root).*1.

(** The body of the loop of [static_files_urls] for one endpoint, once
    [ignore] is read. *)
Definition static_files_of (app : flask_app) (ignore : list string) (endpoint : string)
  : list generated :=
  match view_functions app !! endpoint with
  | Some (SendStaticFile (Some root)) =>
      match root with
      | Fs.Dir _ =>
          (fun filename => GenSeq endpoint {[ "filename" := Cli.PyStr filename ]} [])
            <$> walk_directory root ignore
      | _ => []
      end
  | _ => []
  end.

(** [Freezer.static_files_urls]; [static_ignore] is
    [app.config['FREEZER_STATIC_IGNORE']], read for the first endpoint and
    [KeyError] when it is not set. *)
Definition static_files_urls (app : flask_app) (static_ignore : option (list string))
  : run generated :=
  let endpoints := _static_rules_endpoints app in
  match static_ignore with
  | Some ignore => (endpoints.1 ≫= static_files_of app ignore, endpoints.2)
  | None =>
      match endpoints.1 with
      | [] => ([], endpoints.2)
      | _ => ([], Some (OtherError "KeyError"))
      end
  end.

(** [Freezer.no_argument_rules_urls] *)
Definition no_argument_rules_urls (app : flask_app) : run generated :=
  ((fun rule => GenSeq (rule_endpoint rule) ∅ [])
     <$> List.filter
           (fun rule =>
              match rule_arguments rule with [] => true | _ => false end
              && existsb (String.eqb "GET") (rule_methods rule))
           (url_map app),
   None).

(** Calling a generator. *)
Definition call (app : flask_app) (static_ignore : option (list string)) (g : generator)
  : run generated :=
  match g with
  | static_files_urls_method => static_files_urls app static_ignore
  | no_argument_rules_urls_method => no_argument_rules_urls app
  | UserGenerator _ yields => (yields, None)
  end.

(** [generator.__name__] *)
Definition __name__ (g : generator) : string :=
  match g with
  | static_files_urls_method => "static_files_urls"
  | no_argument_rules_urls_method => "no_argument_rules_urls"
  | UserGenerator name _ => name
  end.

Section AllUrls.

(** Flask's [url_for(endpoint, **values)] in the request context that
    [all_urls] opens, with the state it works on. *)
Variable S : Type.
Variable url_for : S -> string -> values -> S * result string.

(** The body of the inner loop of [all_urls]: the URL one item gives.
    Unpacking a sequence of more than three raises [ValueError]. *)
Definition url_of_item (name : string) (item : generated) (st : S) : S * result string :=
  match item with
  | GenStr url => (st, Ok url)
  | GenMapping vals => url_for st name vals
  | GenSeq endpoint vals [] => url_for st endpoint vals
  | GenSeq endpoint vals [last_mod] => url_for st endpoint vals
  | GenSeq _ _ _ => (st, Raise (ValueError "too many values to unpack (expected 3)"))
  end.

(** The inner loop of [all_urls] over what one generator yields. *)
Fixpoint urls_of_items (name : string) (items : list generated) (st : S)
  : S * run string :=
  match items with
  | [] => (st, ([], None))
  | item :: rest =>
      match url_of_item name item st with
      | (st, Ok url) =>
          let '(st, r) := urls_of_items name rest st in (st, then_run [url] r)
      | (st, Raise e) => (st, ([], Some e))
      end
  end.

(** [Freezer.all_urls]: the URLs it yields and the error that ends it, if
    any. *)
Fixpoint all_urls (app : flask_app) (static_ignore : option (list string))
    (generators : list generator) (st : S) : S * run string :=
  match generators with
  | [] => (st, ([], None))
  | g :: rest =>
      let items := call app static_ignore g in
      match urls_of_items (__name__ g) items.1 st with
      | (st, (urls, Some e)) => (st, (urls, Some e))
      | (st, (urls, None)) =>
          match items.2 with
          | Some e => (st, (urls, Some e))
          | None =>
              let '(st, r) := all_urls app static_ignore rest st in (st, then_run urls r)
          end
      end
  end.

End AllUrls.

End Generators.

Module GeneratorsSpec.
Import Generators.

(** The items all the generators of a list yield. *)
Definition items_of (app : flask_app) (static_ignore : option (list string))
    (generators : list generator) : list (string * generated) :=
  generators ≫= fun g => (fun item => (__name__ g, item)) <$> (call app static_ignore g).1.

(** The URL of an item that is a string. *)
Definition string_of (item : generated) : option string :=
  match item with GenStr url => Some url | _ => None end.

(** A generator of the user that yields strings only. *)
Definition only_strings (g : generator) : Prop :=
  match g with
  | UserGenerator _ yields => Forall (fun item => is_Some (string_of item)) yields
  | _ => False
  end.

(** The [url_for] call an item leads to, if it leads to one. *)
Definition call_of (named : string * generated) : option (string * values) :=
  match named.2 with
  | GenStr _ => None
  | GenMapping vals => Some (named.1, vals)
  | GenSeq endpoint vals [] => Some (endpoint, vals)
  | GenSeq endpoint vals [_] => Some (endpoint, vals)
  | GenSeq _ _ _ => None
  end.

(** A small application: an index page, a page with an argument, a form
    target, and a static folder with two files. *)
Definition sample_app : flask_app :=
  mkApp [ mkRule "static" ["filename"] ["GET"];
          mkRule "index" [] ["GET"; "HEAD"];
          mkRule "page" ["name"] ["GET"];
          mkRule "submit" [] ["POST"] ]
        (<["static" := SendStaticFile
                         (Some (Fs.Dir (<["style.css" := "body{}"]> {[ "js/app.js" := "" ]})))]>
           (<["index" := OtherView]> (<["page" := OtherView]> {[ "submit" := OtherView ]}))).

(** [url_for] outside a freeze: the URL map alone. *)
Definition plain_url_for (build : string -> values -> result string)
    (st : unit) (endpoint : string) (vals : values) : unit * result string :=
  (st, build endpoint vals).

(** The URL the handler of [freeze] builds for a [url_for] call. *)
Definition external_url (build : string -> values -> result string)
    (c : string * values) : string :=
  match build c.1 (<["_external" := Cli.PyBool true]> c.2) with
  | Ok url => url
  | Raise _ => EmptyString
  end.

(** The handler of [freeze] between [start] and the end of the run. *)
Definition armed (st : UrlFor.handler_state) : Prop :=
  UrlFor.handling_url_for st = true /\ UrlFor.freeze_info_set st = true.

End GeneratorsSpec.

(** ** The [url_for] handlers of several calls of [freeze]

    Every call of [freeze] inserts its own [handle_url_for] at the front of
    [app.url_default_functions[None]] and none takes it out again: from the
    second [freeze] of an application on, a [url_for] call runs the handler
    of the running [freeze] and then those of the earlier ones, each with
    the variables it closes over. *)

Module Handlers.
Import UrlFor.

(** The handlers in [app.url_default_functions[None]], newest first: for
    each one its [freeze_info], its [handling_url_for] and the URLs its
    [freeze_info.add_url] was called with. *)
Definition handlers : Type := list handler_state.

Section Handlers.

Variable build : string -> values -> result string.

(** Modelled from the spec: [FreezeInfo.add_url] of the [freeze_info] of
    the handler at a position, as in [UrlFor]. *)
Variable add_url_error : nat -> string -> option exn.
Variable add_url_calls : nat -> string -> list (string * values).

Definition url_for_type : Type :=
  handlers -> string -> values -> handlers * result string.

Fixpoint nested_calls (url_for : url_for_type) (hs : handlers)
    (calls : list (string * values)) : handlers * result unit :=
  match calls with
  | [] => (hs, Ok ())
  | (endpoint, vals) :: rest =>
      match url_for hs endpoint vals with
      | (hs, Ok _) => nested_calls url_for hs rest
      | (hs, Raise e) => (hs, Raise e)
      end
  end.

(** [freeze_info.add_url(url)] in the handler at position [i]. *)
Definition add_url (url_for : url_for_type) (i : nat) (hs : handlers) (url : string)
  : handlers * result unit :=
  match hs !! i with
  | None => (hs, Ok ())
  | Some st =>
      if negb (freeze_info_set st) then (hs, Raise (OtherError "AttributeError")) else
      let hs :=
        <[i := mkState (freeze_info_set st) (handling_url_for st)
                 (add_url_log st ++ [url])]> hs in
      match nested_calls url_for hs (add_url_calls i url) with
      | (hs, Ok _) =>
          match add_url_error i url with
          | Some e => (hs, Raise e)
          | None => (hs, Ok ())
          end
      | (hs, Raise e) => (hs, Raise e)
      end
  end.

(** The handler at position [i]. *)
Definition handle_url_for (url_for : url_for_type) (i : nat) (hs : handlers)
    (endpoint : string) (vals : values) : handlers * result unit :=
  match hs !! i with
  | None => (hs, Ok ())
  | Some st =>
      if handling_url_for st then
        let hs := <[i := set_handling false st]> hs in
        let vals := <["_external" := Cli.PyBool true]> vals in
        match url_for hs endpoint vals with
        | (hs, Ok url) =>
            match add_url url_for i hs url with
            | (hs, Ok _) => (alter (set_handling true) i hs, Ok ())
            | (hs, Raise e) => (hs, Raise e)
            end
        | (hs, Raise e) => (hs, Raise e)
        end
      else (hs, Ok ())
  end.

(** Flask's [inject_url_defaults]: the functions of
    [url_default_functions[None]] one after the other. *)
Fixpoint inject_url_defaults (url_for : url_for_type) (positions : list nat)
    (hs : handlers) (endpoint : string) (vals : values) : handlers * result unit :=
  match positions with
  | [] => (hs, Ok ())
  | i :: rest =>
      match handle_url_for url_for i hs endpoint vals with
      | (hs, Ok _) => inject_url_defaults url_for rest hs endpoint vals
      | (hs, Raise e) => (hs, Raise e)
      end
  end.

(** Flask's [url_for(endpoint, **values)]; [fuel] bounds the depth of
    calls. *)
Fixpoint url_for (fuel : nat) (hs : handlers) (endpoint : string) (vals : values)
  : handlers * result string :=
  match fuel with
  | O => (hs, Raise (OtherError "RecursionError"))
  | S fuel' =>
      match inject_url_defaults (url_for fuel') (seq 0 (length hs)) hs endpoint vals with
      | (hs, Ok _) => (hs, build endpoint vals)
      | (hs, Raise e) => (hs, Raise e)
      end
  end.

End Handlers.

End Handlers.
(** * Properties *)

(** ** [make_relative_url] *)

Example make_relative_url_page :
  make_relative_url PREFIX "http://localhost:80/blog/a%20b.html?x=1#top"
  = Ok "/blog/a b.html".
Proof. reflexivity. Qed.

Example make_relative_url_utf8 :
  make_relative_url PREFIX "http://localhost:80/%C4%8Dau/%ff%41"
  = Ok ("/" +:+ String "196" (String "141" "au/") +:+ Urllib.replacement +:+ "A").
Proof. reflexivity. Qed.

Section StringFacts.
Import PyStr.

Lemma append_nil_l (s : string) : "" +:+ s = s.
Proof. reflexivity. Qed.

Lemma append_cons (a : ascii) (p s : string) :
  String a p +:+ s = String a (p +:+ s).
Proof. reflexivity. Qed.

Lemma append_nil_r (s : string) : s +:+ "" = s.
Proof. induction s as [|c s IH]; [done|]. by rewrite append_cons, IH. Qed.

Lemma append_assoc (a b c : string) : (a +:+ b) +:+ c = a +:+ b +:+ c.
Proof. induction a as [|x a IH]; [done|]. by rewrite !append_cons, IH. Qed.

Lemma startswith_app (p s : string) : startswith (p +:+ s) p = true.
Proof.
  induction p as [|a p IH]; [done|].
  rewrite append_cons. simpl. by rewrite Ascii.eqb_refl.
Qed.

Lemma drop_length_app (p s : string) : drop (String.length p) (p +:+ s) = s.
Proof.
  induction p as [|a p IH]; [by destruct s|].
  by rewrite append_cons.
Qed.

Lemma startswith_decompose (s p : string) :
  startswith s p = true -> s = p +:+ drop (String.length p) s.
Proof.
  revert s. induction p as [|a p IH]; intros s H; simpl in *.
  - by destruct s.
  - destruct s as [|b s]; [done|].
    destruct (Ascii.eqb_spec a b) as [->|]; [|done].
    rewrite append_cons. f_equal. by apply IH.
Qed.

Lemma split1_fst (c : ascii) (s : string) :
  (if contains c s then split1 c s else (s, EmptyString)).1 = take_until c s.
Proof.
  unfold contains, split1.
  induction s as [|b s IH]; simpl; [done|].
  destruct (Ascii.eqb b c); simpl; [done|].
  destruct (find c s) as [i|]; cbn in *; by f_equal.
Qed.

Lemma take_until_query_fragment (s : string) :
  take_until "?" (take_until "#" s) = strip_query_fragment s.
Proof.
  induction s as [|b s IH]; simpl; [done|].
  destruct (Ascii.eqb_spec b "#") as [->|Hh]; simpl; [done|].
  rewrite orb_false_r. destruct (Ascii.eqb b "?"); [done|]. by rewrite IH.
Qed.

End StringFacts.

Section UrlParse.
Import PyStr Werkzeug.

(** A URL that begins with ['/'] has no scheme: ['/'] is outside the class of
    scheme characters. *)
Lemma split_scheme_slash (rest : string) :
  split_scheme (String "/" rest) = (EmptyString, String "/" rest).
Proof.
  unfold split_scheme. simpl find.
  destruct (find ":" rest) as [i|]; simpl; done.
Qed.

(** Without a second ['/'] there is no authority part. *)
Lemma split_netloc_single (rest : string) :
  startswith rest "/" = false ->
  split_netloc (String "/" rest) = Ok (EmptyString, String "/" rest).
Proof.
  intros H. unfold split_netloc.
  destruct rest as [|c r]; [done|].
  cbn [startswith] in H. simpl take.
  assert ((String "/" (String c "") =? "//")%string = false) as ->; [|done].
  cbn [String.eqb]. rewrite Ascii.eqb_refl, (Ascii.eqb_sym c).
  by destruct (Ascii.eqb "/" c).
Qed.

Lemma url_parse_path_only (rest : string) :
  startswith rest "/" = false ->
  exists q frag,
    url_parse (String "/" rest)
    = Ok (mkURL "" "" (String "/" (strip_query_fragment rest)) q frag).
Proof.
  intros H. unfold url_parse.
  rewrite split_scheme_slash, (split_netloc_single _ H). cbn [mbind result_bind].
  pose proof (split1_fst "#" (String "/" rest)) as Hf.
  fold (split_fragment (String "/" rest)) in Hf.
  destruct (split_fragment (String "/" rest)) as [u frag]. simpl in Hf. subst u.
  pose proof (split1_fst "?" (take_until "#" (String "/" rest))) as Hq.
  fold (split_query (take_until "#" (String "/" rest))) in Hq.
  destruct (split_query _) as [u q]. simpl in Hq. subst u.
  rewrite take_until_query_fragment. by exists q, frag.
Qed.

Lemma to_url_path_only (p : string) : to_url (mkURL "" "" p "" "") = p.
Proof. reflexivity. Qed.

End UrlParse.

Lemma make_relative_url_outside (prefix url : string) :
  PyStr.startswith url prefix = false ->
  make_relative_url prefix url = Raise AssertionError.
Proof. intros H. unfold make_relative_url. by rewrite H. Qed.

Lemma make_relative_url_inside (prefix url : string) :
  PyStr.startswith url prefix = true ->
  PyStr.startswith (PyStr.drop (String.length prefix) url) "/" = false ->
  make_relative_url prefix url = Ok (relative_url_spec prefix url).
Proof.
  intros Hp Hs. unfold make_relative_url, relative_url_spec. rewrite Hp. simpl negb.
  cbv iota. rewrite append_cons, append_nil_l.
  destruct (url_parse_path_only _ Hs) as (q & frag & ->).
  cbn [mbind result_bind]. unfold Werkzeug.replace_query_fragment. simpl.
  by rewrite to_url_path_only, append_cons, append_nil_l.
Qed.

(** Outside the prefix [make_relative_url] fails its assertion; on a URL
    under the prefix whose remainder does not itself begin with ['/'] it
    returns ['/'] followed by the remainder cut before its query and
    fragment, percent-decoded. *)
Lemma make_relative_url_single_slash (prefix url : string) :
  (PyStr.startswith url prefix = false ->
   make_relative_url prefix url = Raise AssertionError)
  /\ (PyStr.startswith url prefix = true ->
      PyStr.startswith (PyStr.drop (String.length prefix) url) "/" = false ->
      make_relative_url prefix url = Ok (relative_url_spec prefix url)).
Proof.
  split; [apply make_relative_url_outside | apply make_relative_url_inside].
Qed.

(** C1: ['http://localhost:80//'] starts with the prefix and the part after
    the prefix is ['/'], so the relative URL is to be ['//'].  The two
    slashes of ['/' + remainder] open an authority part, here an empty one,
    and [make_relative_url] returns the empty string, which is no
    root-relative URL. *)
Theorem make_relative_url_double_slash :
  PyStr.startswith "http://localhost:80//" PREFIX = true
  /\ PyStr.drop (String.length PREFIX) "http://localhost:80//" = "/"
  /\ make_relative_url PREFIX "http://localhost:80//" = Ok "".
Proof. repeat split; reflexivity. Qed.

(** With an unmatched bracket in that authority part [url_parse] raises, so
    the function is not defined on every URL under the prefix. *)
Example make_relative_url_bracket :
  make_relative_url PREFIX "http://localhost:80//[x/"
  = Raise (ValueError "Invalid IPv6 URL").
Proof. reflexivity. Qed.

(** ** [ProgressBarPlugin.update_bar] *)

Section ProgressBarFacts.
Import ProgressBar.

Lemma update_bar_fields (self : ProgressBarPlugin) (ti : TaskInfo) :
  update_bar self ti
  = mkBar (total_task_count (freeze_info ti))
          (done_task_count (freeze_info ti))
          (done_task_count (freeze_info ti) - failed_task_count (freeze_info ti)).
Proof. unfold update_bar, counter_update. simpl. f_equal. lia. Qed.

Lemma run_hooks_snoc (self : ProgressBarPlugin) (events : list TaskInfo) (ti : TaskInfo) :
  run_hooks self (events ++ [ti]) = update_bar (run_hooks self events) ti.
Proof. unfold run_hooks. by rewrite foldl_app. Qed.

(** C6: after any sequence of hook invocations, the last of them with
    counters [failed <= done <= total], the main counter has
    [count <= total] and the success subcounter holds [done - failed],
    which is not negative. *)
Theorem update_bar_invariant
    (self : ProgressBarPlugin) (events : list TaskInfo) (ti : TaskInfo) :
  (failed_task_count (freeze_info ti) <= done_task_count (freeze_info ti))%Z ->
  (done_task_count (freeze_info ti) <= total_task_count (freeze_info ti))%Z ->
  let bar := run_hooks self (events ++ [ti]) in
  (counter_count bar <= counter_total bar)%Z
  /\ success_counter_count bar
     = (done_task_count (freeze_info ti) - failed_task_count (freeze_info ti))%Z
  /\ (0 <= success_counter_count bar)%Z.
Proof.
  intros Hf Hd bar. subst bar.
  rewrite run_hooks_snoc, update_bar_fields. simpl. lia.
Qed.

Lemma update_bar_invariant_witness :
  let ti := mkTaskInfo (mkFreezeInfo 5 3 1) "http://localhost:80/" "index.html" None in
  let bar := run_hooks (mkBar 100 0 0) ([ti; ti] ++ [ti]) in
  (counter_count bar <= counter_total bar)%Z
  /\ success_counter_count bar = 2%Z
  /\ (0 <= success_counter_count bar)%Z.
Proof.
  intros ti bar.
  apply (update_bar_invariant (mkBar 100 0 0) [ti; ti] ti); simpl; lia.
Defined.

End ProgressBarFacts.

(** ** [LogPlugin._summary] *)

Section SummaryFacts.
Import LogPlugin.
Variable format_percent : Z * Z -> string.

Lemma true_div_ok (a b : Z) :
  (1 <= b)%Z -> (0 <= a <= b)%Z -> true_div a b = Ok (a, b).
Proof.
  intros Hb Ha. unfold true_div.
  destruct (Z.eqb_spec b 0) as [->|_]; [lia|].
  destruct (Z.leb_spec ((2 ^ 1024 - 2 ^ 970) * Z.abs b) (Z.abs a)) as [H|_]; [|done].
  exfalso. assert (2 <= 2 ^ 1024 - 2 ^ 970)%Z by (vm_compute; discriminate). nia.
Qed.

Lemma _summary_zero_division (fi : FreezeInfo) :
  _summary format_percent fi = Raise ZeroDivisionError <-> total_task_count fi = 0%Z.
Proof.
  unfold _summary, true_div.
  destruct (Z.eqb_spec (total_task_count fi) 0) as [E|E]; simpl; [done|].
  destruct (_ <=? _)%Z; simpl; split; intros; done.
Qed.

(** C7: with at least one task counted and [0 <= done <= total], the
    division in [_summary] is defined: the call returns its text and does
    not raise [ZeroDivisionError]. *)
Theorem _summary_division_defined (fi : FreezeInfo) :
  (1 <= total_task_count fi)%Z ->
  (0 <= done_task_count fi <= total_task_count fi)%Z ->
  true_div (done_task_count fi) (total_task_count fi)
    = Ok (done_task_count fi, total_task_count fi)
  /\ (exists s, _summary format_percent fi = Ok s)
  /\ _summary format_percent fi <> Raise ZeroDivisionError.
Proof.
  intros Ht Hd. pose proof (true_div_ok _ _ Ht Hd) as E.
  split; [done|]. unfold _summary. rewrite E. cbn [mbind result_bind].
  split; [eauto | discriminate].
Qed.

End SummaryFacts.

Example _summary_text :
  LogPlugin._summary LogPlugin.percent_exact (mkFreezeInfo 12 3 1)
  = Ok "[ 3/12, ~25%, 1 errors]".
Proof. reflexivity. Qed.

Lemma _summary_division_defined_witness :
  exists s, LogPlugin._summary LogPlugin.percent_exact (mkFreezeInfo 12 3 1) = Ok s.
Proof.
  apply (_summary_division_defined LogPlugin.percent_exact (mkFreezeInfo 12 3 1));
    simpl; lia.
Defined.

(** ** [cli.main] *)

Section CliFacts.
Import Cli.
Variable import_module : string -> result (option string).

Lemma extend_extra_pages_ok (params : gmap string pyobj) (pages : list pyobj)
    (more : pyobj) :
  params !! "extra_pages" = Some (PyList pages) ->
  not_none more = true ->
  extend_extra_pages params more
  = match py_iter more with
    | Ok _ => Ok (<["extra_pages" := PyList (pages ++ entries more)]> params)
    | Raise e => Raise e
    end.
Proof.
  intros Hp Hn. unfold extend_extra_pages, entries. rewrite Hp.
  destruct more; try done; simpl; done.
Qed.

(** The last three lines of [main]: the import, [module.app] and the call. *)
Lemma main_import_ok (module_name dest_path : string) (params : gmap string pyobj)
    (call : freeze_call) :
  (module ← import_module module_name;
   app ← module_app module;
   Ok (mkCall app dest_path params)) = Ok call
  <-> exists app, import_module module_name = Ok (Some app)
                  /\ call = mkCall app dest_path params.
Proof.
  destruct (import_module module_name) as [[app|]|e]; cbn [mbind result_bind module_app].
  - split.
    + intros [= <-]. by exists app.
    + by intros (app' & [= <-] & ->).
  - split; [done | by intros (app' & [=] & _)].
  - split; [done | by intros (app' & [=] & _)].
Qed.

Lemma main_no_file (module_name dest_path : string) (prefix : option string)
    (extra_page : list string) :
  exists base : gmap string pyobj,
    dom base ⊆ {[ "extra_pages"; "prefix" ]}
    /\ base !! "extra_pages" = Some (PyList (PyStr <$> extra_page))
    /\ base !! "prefix" = expected_prefix prefix None
    /\ main import_module module_name dest_path prefix extra_page None
       = (module ← import_module module_name;
          app ← module_app module;
          Ok (mkCall app dest_path base)).
Proof.
  unfold main, expected_prefix. cbn [mbind result_bind].
  destruct prefix as [p|]; eexists; (split; [|split; [|split; [|reflexivity]]]);
    rewrite ?dom_insert_L, ?dom_singleton_L; try set_solver; by simplify_map_eq.
Qed.

Lemma main_dict_form (module_name dest_path : string) (prefix : option string)
    (extra_page : list string) (name : string) (d : list (pyobj * pyobj)) :
  exists base : gmap string pyobj,
    dom base ⊆ {[ "extra_pages"; "prefix" ]}
    /\ base !! "prefix" = expected_prefix prefix (Some (name, Ok (PyDict d)))
    /\ main import_module module_name dest_path prefix extra_page
         (Some (name, Ok (PyDict d)))
       = match (if not_none (dict_get d "extra_pages")
                then py_iter (dict_get d "extra_pages") else Ok []) with
         | Ok _ =>
             module ← import_module module_name;
             app ← module_app module;
             Ok (mkCall app dest_path
                   (<["extra_files" := dict_get d "extra_files"]>
                      (<["extra_pages" :=
                           PyList ((PyStr <$> extra_page)
                                   ++ entries (dict_get d "extra_pages"))]> base)))
         | Raise e => Raise e
         end.
Proof.
  unfold main. cbn [mbind result_bind].
  set (p0 := match prefix with Some p => _ | None => _ end).
  set (p1 := if _ && _ then _ else p0).
  assert (p0 !! "extra_pages" = Some (PyList (PyStr <$> extra_page))) as Hp0.
  { subst p0. destruct prefix; by simplify_map_eq. }
  assert (p0 !! "prefix" = PyStr <$> prefix) as Hq0.
  { subst p0. destruct prefix; by simplify_map_eq. }
  assert (p1 !! "extra_pages" = Some (PyList (PyStr <$> extra_page))) as Hp1.
  { subst p1. destruct (_ && _); by simplify_map_eq. }
  exists p1. split; [|split].
  - subst p1 p0. destruct (_ && _), prefix;
      rewrite ?dom_insert_L, dom_singleton_L; set_solver.
  - subst p1. unfold expected_prefix.
    destruct prefix as [p|]; cbn [fmap option_fmap option_map] in Hq0.
    + rewrite bool_decide_eq_false_2, andb_false_r by done. done.
    + rewrite bool_decide_eq_true_2, andb_true_r by done.
      destruct (not_none (dict_get d "prefix")); by simplify_map_eq.
  - destruct (not_none (dict_get d "extra_pages")) eqn:Hn.
    + rewrite (extend_extra_pages_ok _ _ _ Hp1 Hn).
      by destruct (py_iter (dict_get d "extra_pages")) as [items|e].
    + cbn [mbind result_bind].
      destruct (dict_get d "extra_pages"); try discriminate Hn.
      cbn [entries]. rewrite app_nil_r.
      by rewrite (insert_id p1 "extra_pages" _ Hp1).
Qed.

(** C10: in the call that ends [main], the prefix is the command line's
    when [--prefix] is given and otherwise the file's, and the extra pages
    are the [--extra-page] options followed by the entries of the file's
    [extra_pages].  The call is reached on every usable configuration once
    the module name imports as a module that has an [app]. *)
Theorem main_prefix_and_extra_pages
    (module_name dest_path : string) (prefix : option string)
    (extra_page : list string) (config : option (string * result pyobj)) :
  (forall call,
     main import_module module_name dest_path prefix extra_page config = Ok call ->
     import_module module_name = Ok (Some (call_app call))
     /\ call_dest_path call = dest_path
     /\ call_params call !! "prefix" = expected_prefix prefix config
     /\ call_params call !! "extra_pages"
        = Some (PyList ((PyStr <$> extra_page) ++ entries (file_extra_pages config))))
  /\ (forall app,
        usable config ->
        import_module module_name = Ok (Some app) ->
        exists call,
          main import_module module_name dest_path prefix extra_page config = Ok call).
Proof.
  split.
  - intros call H.
    destruct config as [[name [doc|e]]|]; [|done|].
    + destruct doc as [| | | | | |d]; try discriminate H.
      destruct (main_dict_form module_name dest_path prefix extra_page name d)
        as (base & _ & Hq & E).
      rewrite E in H. destruct (if not_none _ then _ else _); [|done].
      apply main_import_ok in H as (app & Hi & ->). cbn.
      split; [done|]. split; [done|]. split; by simplify_map_eq.
    + destruct (main_no_file module_name dest_path prefix extra_page)
        as (base & _ & Hp & Hq & E).
      rewrite E in H. apply main_import_ok in H as (app & Hi & ->). cbn.
      rewrite app_nil_r. done.
  - intros app Hu Hi.
    destruct config as [[name [doc|e]]|]; [|done|].
    + destruct doc as [| | | | | |d]; try done.
      destruct (main_dict_form module_name dest_path prefix extra_page name d)
        as (base & _ & _ & ->).
      unfold usable in Hu.
      destruct (dict_get d "extra_pages"); try done; cbn;
        eexists; apply main_import_ok; by eexists.
    + destruct (main_no_file module_name dest_path prefix extra_page)
        as (base & _ & _ & _ & ->).
      eexists; apply main_import_ok; by eexists.
Qed.

End CliFacts.

(** A place to import from with the one module [app], which has an [app]. *)
Lemma main_prefix_and_extra_pages_witness :
  let import_module := fun name : string =>
    if String.eqb name "app" then Ok (Some "app.app")
    else Raise (OtherError "ModuleNotFoundError") in
  let config :=
    Some ("config.yaml",
          Ok (Cli.PyDict [(Cli.PyStr "prefix", Cli.PyStr "http://pyladies.cz/lessons/");
                          (Cli.PyStr "extra_pages", Cli.PyList [Cli.PyStr "/more/"])])) in
  exists call,
    Cli.main import_module "app" "build" (Some "http://freezeyt.test/foo/") ["/extra/"]
      config = Ok call
    /\ Cli.call_app call = "app.app"
    /\ Cli.call_params call !! "prefix" = Some (Cli.PyStr "http://freezeyt.test/foo/")
    /\ Cli.call_params call !! "extra_pages"
       = Some (Cli.PyList [Cli.PyStr "/extra/"; Cli.PyStr "/more/"]).
Proof.
  intros import_module config.
  destruct (main_prefix_and_extra_pages import_module "app" "build"
              (Some "http://freezeyt.test/foo/") ["/extra/"] config) as [Hcall Hreach].
  destruct (Hreach "app.app" I eq_refl) as [call Hc]. exists call.
  destruct (Hcall call Hc) as (Hi & _ & Hp & He).
  split; [exact Hc|]. split; [|split; [exact Hp | exact He]].
  injection Hi as Hi. symmetry. exact Hi.
Defined.

(** Without [--prefix] the file's prefix is passed on. *)
Example main_file_prefix :
  (Cli.call_params <$>
     match Cli.main (fun _ => Ok (Some "app.app")) "app" "build" None []
             (Some ("config.yaml",
                    Ok (Cli.PyDict [(Cli.PyStr "prefix", Cli.PyStr "http://pyladies.cz/")])))
     with Ok call => Some call | Raise _ => None end)
  ≫= (.!! "prefix")
  = Some (Cli.PyStr "http://pyladies.cz/").
Proof. vm_compute. reflexivity. Qed.

(** A module name that names no module: [main] raises before it calls
    [freeze]. *)
Example main_module_not_found :
  Cli.main (fun _ => Raise (OtherError "ModuleNotFoundError")) "nowhere" "build" None [] None
  = Raise (OtherError "ModuleNotFoundError").
Proof. reflexivity. Qed.

(** ** [Freezer.freeze]: errors and the returned set *)

Section FreezeFacts.
Import Fs FlaskFrozen.
Variable fnmatch : string -> string -> bool.

Lemma contains_str_app (a needle b : string) :
  PyStr.contains_str needle (a +:+ needle +:+ b) = true.
Proof.
  induction a as [|c a IH].
  - rewrite append_nil_l. destruct (needle +:+ b) eqn:E; simpl;
      rewrite <- ?E, startswith_app; done.
  - rewrite append_cons. simpl. rewrite IH. apply orb_true_r.
Qed.

Lemma freeze_unfold (config : app_config) (engine : dest -> engine_run) (root : dest) :
  freeze fnmatch config engine root
  = finally_suite config (kept_file_dir_of fnmatch config root)
      (try_suite engine root).1 (except_clauses (try_suite engine root).2).
Proof.
  unfold freeze, kept_file_dir_of. destruct (try_suite engine root) as [d b].
  by destruct (kept_file_patterns config).
Qed.

Lemma finally_suite_result (config : app_config) (kept : option tree) (root : dest)
    (pending : result (gset string)) :
  (finally_suite config kept root pending).2
  = match finally_error config kept root with
    | Some e => raise_over pending e
    | None => pending
    end.
Proof.
  unfold finally_suite, finally_error.
  destruct (mkdir_exist_ok root) as [t|e]; [|done].
  destruct kept as [temp|]; [|done].
  by destruct (restore_kept_files _ _ _) as [t' [e|]].
Qed.

Lemma freeze_result (config : app_config) (engine : dest -> engine_run) (root : dest) :
  (freeze fnmatch config engine root).2
  = match freeze_finally_error fnmatch config engine root with
    | Some e => raise_over (except_clauses (try_suite engine root).2) e
    | None => except_clauses (try_suite engine root).2
    end.
Proof. by rewrite freeze_unfold, finally_suite_result. Qed.

Lemma except_clauses_ok (body : result (gset string)) (urls : gset string) :
  except_clauses body = Ok urls <-> body = Ok urls.
Proof.
  split; [|by intros ->].
  destruct body as [s|e]; [done|]. simpl.
  destruct (without_context e); try done. by destruct (make_relative_url PREFIX url).
Qed.

Lemma raise_over_raises {A : Type} (pending : result A) (e : exn) (a : A) :
  raise_over pending e <> Ok a.
Proof. by destruct pending. Qed.

(** C2 (amended): when the engine's call raises [ExternalURLError] or
    [RelativeURLError], the [except] clauses raise
    [ValueError('External URLs not supported')]; when it raises
    [UnexpectedStatus] for a URL that [make_relative_url] maps to a relative
    URL, they raise a [ValueError] whose message holds the status and that
    relative URL.  Raised while the engine's error is being handled, the
    [ValueError] has the engine's error as its [__context__].  It is what
    [freeze] raises when its [finally] suite raises nothing. *)
Theorem freeze_translates_engine_errors
    (config : app_config) (engine : dest -> engine_run) (root : dest) (e : exn) :
  let body := (try_suite engine root).2 in
  let completes := freeze_finally_error fnmatch config engine root = None in
  body = Raise e ->
  (without_context e = ExternalURLError \/ without_context e = RelativeURLError ->
   exists raised,
     without_context raised = ValueError "External URLs not supported"
     /\ __context__ raised = Some e
     /\ except_clauses body = Raise raised
     /\ (completes -> (freeze fnmatch config engine root).2 = Raise raised))
  /\ (forall url status relative_url,
        without_context e = UnexpectedStatus url status ->
        make_relative_url PREFIX url = Ok relative_url ->
        exists raised msg,
          msg = "Unexpected status '" +:+ status +:+ "' on URL " +:+ relative_url
          /\ PyStr.contains_str status msg = true
          /\ PyStr.contains_str relative_url msg = true
          /\ without_context raised = ValueError msg
          /\ __context__ raised = Some e
          /\ except_clauses body = Raise raised
          /\ (completes -> (freeze fnmatch config engine root).2 = Raise raised)).
Proof.
  intros body completes Hb. subst completes. rewrite freeze_result. fold body.
  rewrite Hb. split.
  - intros H. exists (WithContext (ValueError "External URLs not supported") e).
    assert (except_clauses (Raise e)
            = Raise (WithContext (ValueError "External URLs not supported") e)) as E
      by (simpl; by destruct H as [-> | ->]).
    split; [done|]. split; [done|]. split; [done|]. by intros ->.
  - intros url status rel He Hrel.
    exists (WithContext
              (ValueError ("Unexpected status '" +:+ status +:+ "' on URL " +:+ rel)) e).
    eexists. split; [reflexivity|]. split; [apply contains_str_app|]. split.
    + replace ("Unexpected status '" +:+ status +:+ "' on URL " +:+ rel)
        with (("Unexpected status '" +:+ status +:+ "' on URL ") +:+ rel +:+ "")
        by (by rewrite append_nil_r, !append_assoc).
      apply contains_str_app.
    + assert (except_clauses (Raise e)
              = Raise (WithContext
                         (ValueError ("Unexpected status '" +:+ status +:+ "' on URL "
                                      +:+ rel)) e)) as E
        by (simpl; by rewrite He, Hrel).
      split; [done|]. split; [done|]. split; [done|]. by intros ->.
Qed.

(** When the [try] suite leaves the root's parent in place and leaves no
    non-directory at the root, the root is a directory when [freeze]
    finishes, whatever the engine returned or raised. *)
Lemma freeze_root_exists
    (config : app_config) (engine : dest -> engine_run) (root : dest) :
  (try_suite engine root).1 <> NoParent ->
  (try_suite engine root).1 <> NotDir ->
  is_directory (freeze fnmatch config engine root).1.
Proof.
  intros Hp Hn. rewrite freeze_unfold. unfold finally_suite.
  destruct ((try_suite engine root).1) as [| | |t]; try done; simpl.
  - destruct (kept_file_dir_of fnmatch config root); [|done].
    by destruct (restore_kept_files _ _ _).
  - destruct (kept_file_dir_of fnmatch config root); [|done].
    by destruct (restore_kept_files _ _ _).
Qed.

Lemma call_hooks_spec (evs : list hook_event) (recorded urls : gset string) :
  call_hooks evs recorded = Ok urls ->
  forall u, u ∈ urls <->
    u ∈ recorded
    \/ exists task_info, PageFrozen task_info ∈ evs
                         /\ make_relative_url PREFIX (a_url task_info) = Ok u.
Proof.
  revert recorded. induction evs as [|ev evs IH]; intros recorded H u.
  - injection H as <-. split; [by left|]. intros [?|(ti & Hin & _)]; [done|].
    by apply elem_of_nil in Hin.
  - destruct ev as [fi|ti|ti]; simpl in H.
    + rewrite (IH _ H u). split; intros [?|(ti & Hin & Hr)]; auto; right; exists ti.
      * split; [by right | done].
      * apply elem_of_cons in Hin as [?|?]; [done | by split].
    + unfold record_url in H.
      destruct (make_relative_url PREFIX (a_url ti)) as [r|e] eqn:Hr; [|done].
      cbn [mbind result_bind] in H. rewrite (IH _ H u). split.
      * intros [Hu|(ti' & Hin & Hr')].
        -- apply elem_of_union in Hu as [Hu|Hu]; [|by left].
           apply elem_of_singleton in Hu as ->. right. exists ti.
           split; [by left | done].
        -- right. exists ti'. split; [by right | done].
      * intros [Hu|(ti' & Hin & Hr')].
        -- left. apply elem_of_union. by right.
        -- apply elem_of_cons in Hin as [Heq|Hin].
           ++ injection Heq as <-. left. apply elem_of_union. left.
              apply elem_of_singleton. congruence.
           ++ right. exists ti'. by split.
    + rewrite (IH _ H u). split; intros [?|(ti' & Hin & Hr)]; auto; right; exists ti'.
      * split; [by right | done].
      * apply elem_of_cons in Hin as [?|?]; [done | by split].
Qed.

Lemma call_hooks_defined (evs : list hook_event) (recorded urls : gset string) :
  call_hooks evs recorded = Ok urls ->
  forall task_info, PageFrozen task_info ∈ evs ->
    exists u, make_relative_url PREFIX (a_url task_info) = Ok u.
Proof.
  revert recorded. induction evs as [|ev evs IH]; intros recorded H ti Hin.
  - by apply elem_of_nil in Hin.
  - apply elem_of_cons in Hin as [<-|Hin].
    + simpl in H. unfold record_url in H.
      destruct (make_relative_url PREFIX (a_url ti)) as [r|e]; [by exists r | done].
    + destruct ev as [fi|ti'|ti']; simpl in H; try by eapply IH.
      unfold record_url in H.
      destruct (make_relative_url PREFIX (a_url ti')) as [r|e]; [|done].
      cbn [mbind result_bind] in H. by eapply IH.
Qed.

Lemma try_suite_returns (engine : dest -> engine_run) (root : dest) (urls : gset string) :
  (try_suite engine root).2 = Ok urls ->
  (try_suite engine root).2 = engine_freeze (engine (cleared root))
  /\ outcome (engine (cleared root)) = None.
Proof.
  unfold try_suite. destruct root as [| | |t]; simpl; try done.
  all: unfold engine_freeze; intros H; split; [done|].
  all: destruct (call_hooks _ _); [|done]; cbn [mbind result_bind] in H.
  all: by destruct (outcome _).
Qed.

(** When [freeze] returns, the returned set holds exactly the URLs that
    [make_relative_url] gives for the tasks the [page_frozen] hook fired
    for, each once; the set is the one the same events without the
    [page_failed] ones give. *)
Lemma freeze_returns_frozen_urls
    (config : app_config) (engine : dest -> engine_run) (root : dest)
    (urls : gset string) :
  (freeze fnmatch config engine root).2 = Ok urls ->
  let run := engine (cleared root) in
  (forall u, u ∈ urls <->
     exists task_info, PageFrozen task_info ∈ events run
                       /\ make_relative_url PREFIX (a_url task_info) = Ok u)
  /\ (forall task_info, PageFrozen task_info ∈ events run ->
        exists u, make_relative_url PREFIX (a_url task_info) = Ok u /\ u ∈ urls)
  /\ (forall task_info, PageFrozen task_info ∈ events run ->
        PyStr.startswith (PyStr.drop (String.length PREFIX) (a_url task_info)) "/" = false ->
        relative_url_spec PREFIX (a_url task_info) ∈ urls)
  /\ call_hooks (without_failed (events run)) ∅ = Ok urls.
Proof.
  intros H run. rewrite freeze_result in H.
  destruct (freeze_finally_error _ _ _ _); [by apply raise_over_raises in H|].
  apply (proj1 (except_clauses_ok _ _)) in H. rename H into Hb.
  destruct (try_suite_returns _ _ _ Hb) as [Hf Ho]. rewrite Hb in Hf.
  unfold engine_freeze in Hf. fold run in Hf, Ho. rewrite Ho in Hf.
  destruct (call_hooks (events run) ∅) as [s|e] eqn:Hc; [|done].
  cbn [mbind result_bind] in Hf. injection Hf as <-.
  assert (forall u, u ∈ urls <->
     exists task_info, PageFrozen task_info ∈ events run
                       /\ make_relative_url PREFIX (a_url task_info) = Ok u) as Hiff.
  { intros u. rewrite (call_hooks_spec _ _ _ Hc u). split; [|by right].
    intros [Hu|?]; [|done]. by apply not_elem_of_empty in Hu. }
  split; [done|]. split; [|split].
  - intros ti Hin. destruct (call_hooks_defined _ _ _ Hc ti Hin) as [u Hu].
    exists u. split; [done|]. apply Hiff. by exists ti.
  - intros ti Hin Hrest. destruct (call_hooks_defined _ _ _ Hc ti Hin) as [u Hu].
    apply Hiff. exists ti. split; [done|].
    apply make_relative_url_inside; [|done].
    destruct (PyStr.startswith (a_url ti) PREFIX) eqn:Hs; [done|].
    by rewrite (make_relative_url_outside _ _ Hs) in Hu.
  - clear Hiff Hb Ho. revert Hc. generalize (∅ : gset string).
    induction (events run) as [|ev evs IH]; intros acc Hc; [done|].
    destruct ev as [fi|ti|ti]; simpl in *; try by apply IH.
    destruct (record_url acc ti) as [acc'|e]; [|done].
    cbn [mbind result_bind] in *. by apply IH.
Qed.

End FreezeFacts.

Section FreezeExamples.
Import Fs FlaskFrozen.

Lemma freeze_translates_engine_errors_witness :
  (freeze fnmatch_glob default_config (engine_raising ExternalURLError) Missing).2
  = Raise (WithContext (ValueError "External URLs not supported") ExternalURLError)
  /\ (freeze fnmatch_glob default_config
        (engine_raising (UnexpectedStatus "http://localhost:80/a%20b?x=1" "404 NOT FOUND"))
        Missing).2
     = Raise (WithContext (ValueError "Unexpected status '404 NOT FOUND' on URL /a b")
                (UnexpectedStatus "http://localhost:80/a%20b?x=1" "404 NOT FOUND")).
Proof.
  split.
  - destruct (proj1 (freeze_translates_engine_errors fnmatch_glob default_config
                       (engine_raising ExternalURLError) Missing ExternalURLError
                       eq_refl) (or_introl eq_refl))
      as (raised & _ & _ & Hraised & Hfreeze).
    rewrite (Hfreeze eq_refl), <- Hraised. reflexivity.
  - destruct (proj2 (freeze_translates_engine_errors fnmatch_glob default_config
                (engine_raising
                   (UnexpectedStatus "http://localhost:80/a%20b?x=1" "404 NOT FOUND"))
                Missing
                (UnexpectedStatus "http://localhost:80/a%20b?x=1" "404 NOT FOUND")
                eq_refl)
              "http://localhost:80/a%20b?x=1" "404 NOT FOUND" "/a b" eq_refl eq_refl)
      as (raised & msg & _ & _ & _ & _ & _ & Hraised & Hfreeze).
    rewrite (Hfreeze eq_refl), <- Hraised. reflexivity.
Defined.

(** C2 as stated fails on every translated error: the [ValueError] is
    raised inside the [except] block, so the engine's error comes out with
    it, as its [__context__]. *)
Lemma freeze_exposes_engine_error :
  ~ errors_translated_as_specified fnmatch_glob default_config
      (engine_raising ExternalURLError) Missing.
Proof.
  intros H. destruct (H ExternalURLError eq_refl) as [H1 _].
  destruct (H1 (or_introl eq_refl)) as (raised & Hr & _ & Hc).
  vm_compute in Hr. injection Hr as <-. discriminate Hc.
Qed.

Example freeze_exposes_engine_error_context :
  match (freeze fnmatch_glob default_config (engine_raising ExternalURLError) Missing).2 with
  | Raise raised => __context__ raised
  | Ok _ => None
  end = Some ExternalURLError.
Proof. reflexivity. Qed.

Lemma freeze_root_exists_witness :
  is_directory
    (freeze fnmatch_glob default_config (engine_raising ExternalURLError)
       (Dir {[ "index.html" := "<html>" ]})).1.
Proof.
  apply (freeze_root_exists fnmatch_glob default_config
           (engine_raising ExternalURLError) (Dir {[ "index.html" := "<html>" ]}));
    simpl; discriminate.
Defined.

(** C3: the directory that is to hold the root is missing and the engine
    raises before it writes.  [mkdir(exist_ok=True)], without
    [parents=True], raises [FileNotFoundError], and no root directory is
    there when [freeze] finishes. *)
Theorem freeze_root_missing_parent :
  let finished :=
    freeze fnmatch_glob default_config
      (engine_raising (UnexpectedStatus "http://localhost:80/" "500 INTERNAL SERVER ERROR"))
      NoParent in
  ~ is_directory finished.1
  /\ finished.1 = NoParent
  /\ exists context, finished.2 = Raise (WithContext FileNotFoundError context).
Proof.
  intros finished. split; [|split].
  - vm_compute. tauto.
  - reflexivity.
  - eexists. reflexivity.
Qed.

(** C4: the engine fires [page_frozen] for the one page
    ['http://localhost:80//'], whose prefix-relative URL is ['//'], and
    returns.  [freeze] returns the set that holds the empty string. *)
Theorem freeze_returns_empty_url :
  let task_info := sample_task "http://localhost:80//" None in
  PyStr.startswith (a_url task_info) PREFIX = true
  /\ PyStr.drop (String.length PREFIX) (a_url task_info) = "/"
  /\ (freeze fnmatch_glob default_config
        (engine_writing [PageFrozen task_info] {[ "index.html" := "<html>" ]}) Missing).2
     = Ok {[ "" ]}.
Proof. intros task_info. split; [|split]; [reflexivity | reflexivity |]. vm_compute. reflexivity. Qed.

Lemma freeze_returns_frozen_urls_witness :
  (exists task_info, PageFrozen task_info ∈ sample_events
                     /\ make_relative_url PREFIX (a_url task_info) = Ok "/a")
  /\ call_hooks (without_failed sample_events) ∅ = Ok {[ "/a" ]}.
Proof.
  assert ((freeze fnmatch_glob default_config
             (engine_writing sample_events {[ "a/index.html" := "<html>" ]}) Missing).2
          = Ok {[ "/a" ]}) as H by (vm_compute; reflexivity).
  destruct (freeze_returns_frozen_urls fnmatch_glob default_config
              (engine_writing sample_events {[ "a/index.html" := "<html>" ]})
              Missing {[ "/a" ]} H) as (Hiff & _ & _ & Hfrozen).
  split; [|exact Hfrozen].
  apply Hiff. by apply elem_of_singleton.
Defined.

End FreezeExamples.

(** ** The [url_for] handler *)

Section UrlForFacts.
Import UrlFor.
Variable build : string -> values -> result string.
Variable add_url_error : string -> option exn.
Variable add_url_calls : string -> list (string * values).

Abbreviation url_for := (UrlFor.url_for build add_url_error add_url_calls).

Lemma url_for_step (fuel : nat) (st : handler_state) (endpoint : string) (vals : values) :
  url_for (S fuel) st endpoint vals
  = match handle_url_for add_url_error add_url_calls (url_for fuel) st endpoint vals with
    | (st, Ok _) => (st, build endpoint vals)
    | (st, Raise e) => (st, Raise e)
    end.
Proof. reflexivity. Qed.

(** With the guard cleared the handler does nothing: the state is left as
    it is and the URL is built. *)
Lemma url_for_guard_cleared (fuel : nat) (st : handler_state) (endpoint : string)
    (vals : values) :
  handling_url_for st = false ->
  url_for (S fuel) st endpoint vals = (st, build endpoint vals).
Proof. intros H. simpl. unfold handle_url_for. by rewrite H. Qed.

Lemma nested_calls_guard_cleared (fuel : nat) (st : handler_state)
    (calls : list (string * values)) :
  handling_url_for st = false ->
  Forall (fun call => returns (build call.1 call.2)) calls ->
  nested_calls (url_for (S fuel)) st calls = (st, Ok ()).
Proof.
  intros Hg. induction 1 as [|[endpoint vals] calls Hb _ IH]; [done|].
  cbn [nested_calls]. rewrite (url_for_guard_cleared _ _ _ _ Hg).
  simpl in Hb. by destruct (build endpoint vals).
Qed.

(** With the guard cleared, as before [start] has fired, a [url_for] call
    adds no URL.  With the guard set, a [url_for] call whose external URL is
    built and accepted by [add_url] makes exactly one [add_url] call, with
    that URL; the [url_for] calls nested in it add nothing; the guard is set
    again afterwards; and two levels of calls are all it takes. *)
Lemma handle_url_for_adds_once (fuel : nat) (st : handler_state)
    (endpoint : string) (vals : values) :
  (handling_url_for st = false ->
   url_for (S fuel) st endpoint vals = (st, build endpoint vals))
  /\ (forall url,
        handling_url_for st = true ->
        freeze_info_set st = true ->
        build endpoint (<["_external" := Cli.PyBool true]> vals) = Ok url ->
        add_url_error url = None ->
        Forall (fun call => returns (build call.1 call.2)) (add_url_calls url) ->
        url_for (S (S fuel)) st endpoint vals
        = (mkState true true (add_url_log st ++ [url]), build endpoint vals)).
Proof.
  split; [apply url_for_guard_cleared|].
  intros url Hg Hfi Hb Herr Hcalls.
  rewrite (url_for_step (S fuel)). unfold handle_url_for. rewrite Hg.
  rewrite url_for_guard_cleared by done. rewrite Hb.
  unfold add_url. cbn [set_handling freeze_info_set handling_url_for add_url_log].
  rewrite Hfi. cbn [negb].
  rewrite nested_calls_guard_cleared by done.
  by rewrite Herr.
Qed.

End UrlForFacts.

Lemma handle_url_for_adds_once_witness :
  UrlFor.url_for UrlFor.sample_build (fun _ => None) (fun _ => []) 1
    UrlFor.initial "index" ∅ = (UrlFor.initial, Ok "/")
  /\ UrlFor.url_for UrlFor.sample_build (fun _ => None) (fun _ => []) 2
       (UrlFor.start_hook UrlFor.initial) "index" ∅
     = (UrlFor.mkState true true ["http://localhost/"], Ok "/").
Proof.
  split.
  - exact (proj1 (handle_url_for_adds_once UrlFor.sample_build (fun _ => None)
                    (fun _ => []) 0 UrlFor.initial "index" ∅) eq_refl).
  - exact (proj2 (handle_url_for_adds_once UrlFor.sample_build (fun _ => None)
                    (fun _ => []) 0 (UrlFor.start_hook UrlFor.initial) "index" ∅)
             "http://localhost/" eq_refl eq_refl eq_refl eq_refl (Forall_nil_2 _)).
Defined.

(** C5: the first [freeze] of an application with the one endpoint
    ['index']; [start] has fired.  A [url_for] call for an endpoint the
    application does not have raises [BuildError] inside the handler and
    leaves the guard cleared; the next call, [url_for('index')], returns its
    URL and reaches no [add_url]. *)
Theorem url_for_after_build_error :
  let url_for :=
    Handlers.url_for UrlFor.sample_build (fun _ _ => None) (fun _ _ => []) 2 in
  let started := [UrlFor.start_hook UrlFor.initial] in
  let stuck := [UrlFor.mkState true false []] in
  started = [UrlFor.mkState true true []]
  /\ url_for started "missing" ∅ = (stuck, Raise BuildError)
  /\ url_for stuck "index" ∅ = (stuck, Ok "/").
Proof. repeat split; reflexivity. Qed.

(** Without the call that raises, [url_for('index')] adds its URL. *)
Example url_for_index_adds :
  Handlers.url_for UrlFor.sample_build (fun _ _ => None) (fun _ _ => []) 2
    [UrlFor.start_hook UrlFor.initial] "index" ∅
  = ([UrlFor.mkState true true ["http://localhost/"]], Ok "/").
Proof. reflexivity. Qed.

(** ** The destination tree *)

Section FsFacts.
Import Fs.

Lemma is_ancestor_irrefl (p : string) : is_ancestor p p = false.
Proof.
  unfold is_ancestor. induction p as [|c p IH]; [done|].
  rewrite append_cons. simpl. by rewrite Ascii.eqb_refl.
Qed.

Lemma is_file_dom (t : tree) (p : string) : is_file t p = true <-> p ∈ dom t.
Proof.
  unfold is_file. rewrite elem_of_dom.
  destruct (t !! p); split; intros H; done.
Qed.

Lemma is_file_insert (t : tree) (p q c : string) :
  is_file (<[p := c]> t) q = true <-> q = p \/ is_file t q = true.
Proof. rewrite !is_file_dom, dom_insert. set_solver. Qed.

Lemma is_dir_spec (t : tree) (p : string) :
  is_dir t p = true <-> exists q, q ∈ dom t /\ is_ancestor p q = true.
Proof.
  unfold is_dir. rewrite existsb_exists. split.
  - intros ([q c] & Hin & Ha). exists q. split; [|done].
    apply list_elem_of_In, elem_of_map_to_list in Hin.
    apply elem_of_dom. by eexists.
  - intros (q & Hq & Ha). apply elem_of_dom in Hq as [c Hc].
    exists (q, c). split; [|done].
    by apply list_elem_of_In, elem_of_map_to_list.
Qed.

Lemma blocked_spec (t : tree) (p : string) :
  blocked t p = true <-> exists q, q ∈ dom t /\ is_ancestor q p = true.
Proof.
  unfold blocked. rewrite existsb_exists. split.
  - intros ([q c] & Hin & Ha). exists q. split; [|done].
    apply list_elem_of_In, elem_of_map_to_list in Hin.
    apply elem_of_dom. by eexists.
  - intros (q & Hq & Ha). apply elem_of_dom in Hq as [c Hc].
    exists (q, c). split; [|done].
    by apply list_elem_of_In, elem_of_map_to_list.
Qed.

Lemma is_dir_false (t : tree) (p : string) :
  is_dir t p = false <-> forall q, q ∈ dom t -> is_ancestor p q = false.
Proof.
  rewrite <- not_true_iff_false, is_dir_spec. split.
  - intros H q Hq. destruct (is_ancestor p q) eqn:E; [|done].
    exfalso. apply H. by exists q.
  - intros H (q & Hq & Ha). by rewrite (H q Hq) in Ha.
Qed.

Lemma blocked_false (t : tree) (p : string) :
  blocked t p = false <-> forall q, q ∈ dom t -> is_ancestor q p = false.
Proof.
  rewrite <- not_true_iff_false, blocked_spec. split.
  - intros H q Hq. destruct (is_ancestor q p) eqn:E; [|done].
    exfalso. apply H. by exists q.
  - intros H (q & Hq & Ha). by rewrite (H q Hq) in Ha.
Qed.

Lemma well_formed_dom (t : tree) :
  well_formed t <-> forall p q, p ∈ dom t -> q ∈ dom t -> is_ancestor p q = false.
Proof.
  unfold well_formed. split; intros H p q Hp Hq; apply H; by apply is_file_dom.
Qed.

Lemma well_formed_empty : well_formed ∅.
Proof. intros p q Hp. by apply is_file_dom, not_elem_of_empty in Hp. Qed.

(** What [copy_into] does when it succeeds. *)
Lemma copy_into_ok (t t' : tree) (p c : string) :
  copy_into t p c = Ok t' ->
  t' = <[p := c]> t /\ blocked t p = false /\ is_dir t p = false.
Proof.
  unfold copy_into. destruct (blocked t p); [done|].
  destruct (is_dir t p); [done|]. by intros [= <-].
Qed.

Lemma copy_into_free (t : tree) (p c : string) :
  blocked t p = false -> is_dir t p = false ->
  copy_into t p c = Ok (<[p := c]> t).
Proof. unfold copy_into. by intros -> ->. Qed.

Lemma insert_well_formed (t : tree) (p c : string) :
  well_formed t -> blocked t p = false -> is_dir t p = false ->
  well_formed (<[p := c]> t).
Proof.
  rewrite !well_formed_dom, blocked_false, is_dir_false.
  intros Hwf Hb Hd a b Ha Hb'.
  rewrite dom_insert in Ha, Hb'.
  apply elem_of_union in Ha as [Ha|Ha], Hb' as [Hb'|Hb'].
  - apply elem_of_singleton in Ha as ->, Hb' as ->. apply is_ancestor_irrefl.
  - apply elem_of_singleton in Ha as ->. by apply Hd.
  - apply elem_of_singleton in Hb' as ->. by apply Hb.
  - by apply Hwf.
Qed.

End FsFacts.

(** ** Saving and restoring the kept files *)

Section RestoreFacts.
Import Fs FlaskFrozen.

Lemma restore_one_ok (restore_all : bool) (t t' : tree) (f : string * string) :
  restore_one restore_all t f = Ok t' ->
  (t' = t /\ restore_all = false /\ path_exists t f.1 = true)
  \/ (t' = <[f.1 := f.2]> t /\ blocked t f.1 = false /\ is_dir t f.1 = false
      /\ (restore_all = true \/ path_exists t f.1 = false)).
Proof.
  unfold restore_one. destruct restore_all; simpl.
  - intros H. right. destruct (copy_into_ok _ _ _ _ H) as (-> & ? & ?). auto.
  - destruct (path_exists t f.1); simpl.
    + intros [= <-]. by left.
    + intros H. right. destruct (copy_into_ok _ _ _ _ H) as (-> & ? & ?). auto.
Qed.

Lemma restore_loop_well_formed (restore_all : bool) (saved : list (string * string))
    (t t' : tree) (err : option exn) :
  well_formed t -> restore_loop restore_all saved t = (t', err) -> well_formed t'.
Proof.
  revert t. induction saved as [|f saved IH]; intros t Hwf H; simpl in H.
  - by injection H as <- _.
  - destruct (restore_one restore_all t f) as [t1|e] eqn:E.
    + apply (IH t1); [|done].
      destruct (restore_one_ok _ _ _ _ E) as [(-> & _)|(-> & Hb & Hd & _)]; [done|].
      by apply insert_well_formed.
    + by injection H as <- _.
Qed.

Lemma restore_loop_dom (restore_all : bool) (saved : list (string * string))
    (t t' : tree) (err : option exn) :
  restore_loop restore_all saved t = (t', err) ->
  dom t ⊆ dom t' /\ dom t' ⊆ dom t ∪ list_to_set saved.*1.
Proof.
  revert t. induction saved as [|f saved IH]; intros t H; simpl in H.
  - injection H as <- _. set_solver.
  - destruct (restore_one restore_all t f) as [t1|e] eqn:E.
    + destruct (IH t1 H) as [H1 H2].
      destruct (restore_one_ok _ _ _ _ E) as [(-> & _)|(-> & _)].
      * set_solver.
      * rewrite dom_insert_L in H1, H2. set_solver.
    + injection H as <- _. set_solver.
Qed.

Lemma restore_loop_lookup_other (restore_all : bool) (saved : list (string * string))
    (t t' : tree) (err : option exn) (p : string) :
  restore_loop restore_all saved t = (t', err) ->
  p ∉ saved.*1 -> t' !! p = t !! p.
Proof.
  revert t. induction saved as [|f saved IH]; intros t H Hp; simpl in H.
  - by injection H as <- _.
  - rewrite fmap_cons, not_elem_of_cons in Hp. destruct Hp as [Hne Hp].
    destruct (restore_one restore_all t f) as [t1|e] eqn:E.
    + rewrite (IH t1 H Hp).
      destruct (restore_one_ok _ _ _ _ E) as [(-> & _)|(-> & _)]; [done|].
      by rewrite lookup_insert_ne.
    + by injection H as <- _.
Qed.

(** Restoring files that all lie in one well-formed tree, into a part of
    that tree, meets no obstacle and leaves every one of them in place. *)
Lemma restore_loop_within (restore_all : bool) (T : tree)
    (saved : list (string * string)) (t : tree) :
  well_formed T -> dom t ⊆ dom T -> (forall f, f ∈ saved -> f.1 ∈ dom T) ->
  exists t', restore_loop restore_all saved t = (t', None)
             /\ dom t' = dom t ∪ list_to_set saved.*1.
Proof.
  intros HT. pose proof (proj1 (well_formed_dom T) HT) as HT'. clear HT.
  rename HT' into HT.
  revert t. induction saved as [|f saved IH]; intros t Ht Hs; simpl.
  - exists t. split; [done|]. set_solver.
  - assert (f.1 ∈ dom T) as Hf by (apply Hs; by left).
    assert (blocked t f.1 = false) as Hb.
    { apply blocked_false. intros q Hq. apply HT; [set_solver | done]. }
    assert (is_dir t f.1 = false) as Hd.
    { apply is_dir_false. intros q Hq. apply HT; [done | set_solver]. }
    assert (exists t1, restore_one restore_all t f = Ok t1
                       /\ dom t1 = dom t ∪ {[f.1]}) as (t1 & -> & Ht1).
    { unfold restore_one, path_exists. rewrite Hd, orb_false_r.
      destruct restore_all; simpl.
      - rewrite copy_into_free by done. eexists. split; [done|].
        rewrite dom_insert_L. set_solver.
      - destruct (is_file t f.1) eqn:Ef; simpl.
        + exists t. split; [done|]. apply is_file_dom in Ef. set_solver.
        + rewrite copy_into_free by done. eexists. split; [done|].
          rewrite dom_insert_L. set_solver. }
    destruct (IH t1) as (t' & -> & Ht').
    + rewrite Ht1. set_solver.
    + intros g Hg. apply Hs. by right.
    + exists t'. split; [done|]. rewrite Ht', Ht1. set_solver.
Qed.

Section SaveFacts.
Variable fnmatch : string -> string -> bool.

Lemma save_loop_lookup (patterns : list string) (l : list (string * string))
    (acc : tree) (p : string) :
  NoDup l.*1 ->
  foldl (fun temp f => if keeps fnmatch patterns f.1 then <[f.1 := f.2]> temp else temp)
        acc l !! p
  = if keeps fnmatch patterns p
    then match (list_to_map l : tree) !! p with Some c => Some c | None => acc !! p end
    else acc !! p.
Proof.
  revert acc. induction l as [|[q c] l IH]; intros acc Hnd.
  - simpl. rewrite lookup_empty. by destruct (keeps _ _ _).
  - rewrite fmap_cons, NoDup_cons in Hnd. destruct Hnd as [Hq Hnd].
    cbn [foldl]. rewrite (IH _ Hnd). cbn [fst snd list_to_map foldr uncurry].
    destruct (decide (q = p)) as [->|Hne].
    + rewrite lookup_insert_eq, (not_elem_of_list_to_map_1 _ _ Hq).
      destruct (keeps fnmatch patterns p); [|done]. by rewrite lookup_insert_eq.
    + rewrite (lookup_insert_ne (list_to_map l)) by done.
      destruct (keeps fnmatch patterns p); destruct (keeps fnmatch patterns q);
        by rewrite ?lookup_insert_ne.
Qed.

(** What [save_kept_files] leaves in the temporary directory. *)
Lemma save_kept_files_lookup (patterns : list string) (t : tree) (p : string) :
  save_kept_files fnmatch (Dir t) patterns !! p
  = if keeps fnmatch patterns p then t !! p else None.
Proof.
  unfold save_kept_files, walk_directory.
  rewrite save_loop_lookup by apply NoDup_fst_map_to_list.
  rewrite list_to_map_to_list, lookup_empty.
  destruct (keeps _ _ _); [|done]. by destruct (t !! p).
Qed.

Lemma save_kept_files_no_directory (patterns : list string) (root : dest) :
  ~ is_directory root -> save_kept_files fnmatch root patterns = ∅.
Proof. by destruct root. Qed.

End SaveFacts.

End RestoreFacts.

(** ** Two freezes in a row *)

Section FreezeTwice.
Import Fs FlaskFrozen.
Variable fnmatch : string -> string -> bool.

Lemma try_suite_dest (engine : dest -> engine_run) (root : dest) :
  root <> NotDir -> (try_suite engine root).1 = out (engine (cleared root)).
Proof. by destruct root. Qed.

Lemma freeze_dest (config : app_config) (engine : dest -> engine_run) (root : dest) :
  (freeze fnmatch config engine root).1
  = match mkdir_exist_ok (try_suite engine root).1 with
    | Raise _ => (try_suite engine root).1
    | Ok t =>
        Dir match kept_file_dir_of fnmatch config root with
            | Some temp =>
                (restore_kept_files temp t
                   (default false (FREEZER_SKIP_EXISTING config))).1
            | None => t
            end
    end.
Proof.
  rewrite freeze_unfold. unfold finally_suite.
  destruct (mkdir_exist_ok _) as [t|e]; [|done].
  destruct (kept_file_dir_of _ _ _) as [temp|]; [|done].
  by destruct (restore_kept_files _ _ _).
Qed.

Lemma mkdir_exist_ok_files (d : dest) (t : tree) :
  mkdir_exist_ok d = Ok t -> dom t = files d /\ (dest_well_formed d -> well_formed t).
Proof.
  destruct d as [| | |t0]; simpl; intros [= <-]; split; try done.
Qed.

Lemma kept_file_dir_keeps (config : app_config) (t temp : tree) (p : string) :
  kept_file_dir_of fnmatch config (Dir t) = Some temp ->
  temp !! p = if keeps fnmatch (kept_file_patterns config) p then t !! p else None.
Proof.
  unfold kept_file_dir_of.
  destruct (kept_file_patterns config) eqn:E; [done|].
  intros [= <-]. apply save_kept_files_lookup.
Qed.

Lemma kept_file_dir_kept (config : app_config) (root : dest) (temp : tree) (p : string) :
  kept_file_dir_of fnmatch config root = Some temp ->
  p ∈ dom temp -> keeps fnmatch (kept_file_patterns config) p = true.
Proof.
  intros Hk Hp. destruct root as [| | |t].
  1-3: unfold kept_file_dir_of in Hk; destruct (kept_file_patterns config); [done|];
       injection Hk as <-; rewrite save_kept_files_no_directory in Hp by tauto;
       by apply not_elem_of_empty in Hp.
  apply elem_of_dom in Hp as [c Hc].
  rewrite (kept_file_dir_keeps _ _ _ _ Hk) in Hc.
  by destruct (keeps _ _ _).
Qed.

Lemma kept_file_dir_same (config : app_config) (root root' : dest) :
  is_Some (kept_file_dir_of fnmatch config root)
  <-> is_Some (kept_file_dir_of fnmatch config root').
Proof. unfold kept_file_dir_of. by destruct (kept_file_patterns config). Qed.

Lemma keys_map_to_list (m : tree) (p : string) :
  p ∈ (list_to_set (map_to_list m).*1 : gset string) <-> p ∈ dom m.
Proof.
  rewrite elem_of_list_to_set, list_elem_of_fmap, elem_of_dom. split.
  - intros ([q c] & -> & Hin). apply elem_of_map_to_list in Hin. by eexists.
  - intros [c Hc]. exists (p, c). split; [done|]. by apply elem_of_map_to_list.
Qed.

(** C8: when a freeze has left the root a directory, a second freeze of the
    same application with the same configuration, whose engine writes the
    same set of paths, leaves the same set of destination-relative paths,
    kept files included, and its [finally] suite raises nothing. *)
Theorem freeze_twice_same_files
    (config : app_config) (engine1 engine2 : dest -> engine_run) (root : dest)
    (T : tree) :
  (freeze fnmatch config engine1 root).1 = Dir T ->
  dest_well_formed (out (engine1 (cleared root))) ->
  out (engine2 Missing) <> NoParent ->
  out (engine2 Missing) <> NotDir ->
  files (out (engine2 Missing)) = files (out (engine1 (cleared root))) ->
  files (freeze fnmatch config engine2 (Dir T)).1
  = files (freeze fnmatch config engine1 root).1
  /\ freeze_finally_error fnmatch config engine2 (Dir T) = None.
Proof.
  intros H1 Hwf Hp Hn Hf. rewrite H1. rewrite freeze_dest in H1.
  assert (root <> NotDir) as Hroot by (by intros ->).
  rewrite try_suite_dest in H1 by done.
  destruct (mkdir_exist_ok (out (engine1 (cleared root)))) as [t1|e] eqn:Em1.
  2:{ rewrite H1 in Em1. done. }
  injection H1 as H1.
  destruct (mkdir_exist_ok_files _ _ Em1) as [Hd1 Hw1]. specialize (Hw1 Hwf).
  unfold freeze_finally_error, finally_error. rewrite freeze_dest.
  change ((try_suite engine2 (Dir T)).1) with (out (engine2 Missing)).
  destruct (mkdir_exist_ok (out (engine2 Missing))) as [t2|e] eqn:Em2.
  2:{ by destruct (out (engine2 Missing)). }
  destruct (mkdir_exist_ok_files _ _ Em2) as [Hd2 _].
  assert (dom t2 = dom t1) as Hdom by (by rewrite Hd2, Hf, Hd1).
  destruct (kept_file_dir_of fnmatch config (Dir T)) as [temp2|] eqn:Ek2.
  - destruct (kept_file_dir_of fnmatch config root) as [temp1|] eqn:Ek1.
    2:{ destruct (proj1 (kept_file_dir_same config (Dir T) root)) as [? Hx];
          [by eexists | by rewrite Ek1 in Hx]. }
    unfold restore_kept_files in *.
    destruct (restore_loop _ (map_to_list temp1) t1) as [T' err] eqn:Er1.
    simpl in H1. subst T'.
    pose proof (restore_loop_well_formed _ _ _ _ _ Hw1 Er1) as HwT.
    destruct (restore_loop_dom _ _ _ _ _ Er1) as [Hsub1 Hsub2].
    destruct (restore_loop_within (default false (FREEZER_SKIP_EXISTING config))
                T (map_to_list temp2) t2 HwT) as (t' & Er2 & Hd').
    + by rewrite Hdom.
    + intros [q c] Hin. apply elem_of_map_to_list in Hin.
      rewrite (kept_file_dir_keeps _ _ _ _ Ek2) in Hin. simpl.
      apply elem_of_dom. destruct (keeps _ _ _); [by eexists | done].
    + rewrite Er2. simpl. split; [|done].
      rewrite Hd'. apply set_eq. intros p.
      rewrite elem_of_union, keys_map_to_list. split.
      * intros [Hp2|Hp2]; [apply Hsub1; by rewrite <- Hdom|].
        apply elem_of_dom in Hp2 as [c Hc].
        rewrite (kept_file_dir_keeps _ _ _ _ Ek2) in Hc.
        apply elem_of_dom. destruct (keeps _ _ _); [by eexists | done].
      * intros HpT. apply Hsub2 in HpT as HpT'.
        apply elem_of_union in HpT' as [Hp1|Hp1]; [left; by rewrite Hdom|].
        right. apply keys_map_to_list in Hp1.
        pose proof (kept_file_dir_kept _ _ _ _ Ek1 Hp1) as Hk.
        apply elem_of_dom in HpT as [c Hc]. apply elem_of_dom. exists c.
        by rewrite (kept_file_dir_keeps _ _ _ _ Ek2), Hk.
  - destruct (kept_file_dir_of fnmatch config root) as [temp1|] eqn:Ek1.
    { destruct (proj2 (kept_file_dir_same config (Dir T) root)) as [? Hx];
        [by eexists | by rewrite Ek2 in Hx]. }
    subst T. simpl. by rewrite Hdom.
Qed.

End FreezeTwice.

Section KeptFiles.
Import Fs FlaskFrozen.

Lemma well_formedb_correct (t : tree) : well_formedb t = true -> well_formed t.
Proof.
  unfold well_formedb. rewrite forallb_forall. intros H.
  apply well_formed_dom. intros p q Hp Hq.
  apply elem_of_dom in Hq as [c Hc].
  specialize (H (q, c)). simpl in H.
  assert (blocked t q = false) as Hb.
  { apply negb_true_iff, H. by apply list_elem_of_In, elem_of_map_to_list. }
  by apply (proj1 (blocked_false t q) Hb).
Qed.

Lemma is_dir_insert_false (t : tree) (p q c : string) :
  is_dir t p = false -> is_ancestor p q = false -> is_dir (<[q := c]> t) p = false.
Proof.
  rewrite !is_dir_false. intros Hd Ha x Hx.
  rewrite dom_insert in Hx. apply elem_of_union in Hx as [Hx|Hx]; [|by apply Hd].
  by apply elem_of_singleton in Hx as ->.
Qed.

(** The file a completed restore leaves at the path of a saved file. *)
Lemma restore_loop_file (restore_all : bool) (saved : list (string * string))
    (t t' : tree) (p c : string) :
  NoDup saved.*1 -> (p, c) ∈ saved ->
  (forall q, q ∈ saved.*1 -> is_ancestor p q = false) ->
  restore_loop restore_all saved t = (t', None) ->
  (restore_all = false -> is_dir t p = false) ->
  t' !! p = Some (if restore_all then c else default c (t !! p)).
Proof.
  revert t. induction saved as [|f saved IH]; intros t Hnd Hin Hanti H Hd.
  - by apply elem_of_nil in Hin.
  - rewrite fmap_cons, NoDup_cons in Hnd. destruct Hnd as [Hf Hnd].
    simpl in H. destruct (restore_one restore_all t f) as [t1|e] eqn:E; [|done].
    apply elem_of_cons in Hin as [<-|Hin].
    + simpl in Hf. rewrite (restore_loop_lookup_other _ _ _ _ _ _ H Hf).
      destruct (restore_one_ok _ _ _ _ E) as [(-> & -> & Hex)|(-> & _ & _ & Hcase)];
        simpl in *.
      * unfold path_exists in Hex. rewrite (Hd eq_refl), orb_false_r in Hex.
        unfold is_file in Hex. by destruct (t !! p).
      * rewrite lookup_insert_eq. destruct restore_all; [done|].
        destruct Hcase as [?|Hex]; [done|].
        unfold path_exists in Hex. apply orb_false_iff in Hex as [Hex _].
        unfold is_file in Hex. by destruct (t !! p).
    + assert (p <> f.1) as Hne.
      { intros ->. apply Hf. apply list_elem_of_fmap. by exists (f.1, c). }
      assert (t1 !! p = t !! p) as Hsame.
      { destruct (restore_one_ok _ _ _ _ E) as [(-> & _)|(-> & _)]; [done|].
        by rewrite lookup_insert_ne. }
      rewrite <- Hsame. apply IH; try done.
      * intros q Hq. apply Hanti. rewrite fmap_cons. by right.
      * intros Hra. specialize (Hd Hra).
        destruct (restore_one_ok _ _ _ _ E) as [(-> & _)|(-> & _)]; [done|].
        apply is_dir_insert_false; [done|]. apply Hanti. rewrite fmap_cons. by left.
Qed.

Lemma is_dir_insert_true (t : tree) (p q c : string) :
  is_dir t p = true -> is_dir (<[q := c]> t) p = true.
Proof.
  rewrite !is_dir_spec. intros (x & Hx & Ha). exists x. split; [|done].
  rewrite dom_insert. apply elem_of_union. by right.
Qed.

Lemma restore_loop_skipped (saved : list (string * string)) (t t' : tree)
    (err : option exn) (p : string) :
  is_dir t p = true -> restore_loop false saved t = (t', err) -> t' !! p = t !! p.
Proof.
  revert t. induction saved as [|f saved IH]; intros t Hd H; simpl in H.
  - by injection H as <- _.
  - destruct (restore_one false t f) as [t1|e] eqn:E; [|by injection H as <- _].
    destruct (restore_one_ok _ _ _ _ E) as [(-> & _)|(-> & _ & Hnd & _)].
    + by apply IH.
    + rewrite (IH _ (is_dir_insert_true _ _ _ _ Hd) H).
      apply lookup_insert_ne. intros Heq. rewrite Heq in Hnd. congruence.
Qed.

Section WithFnmatch.
Variable fnmatch : string -> string -> bool.
Hypothesis fnmatch_star : forall name, fnmatch name "*" = true.

Lemma keeps_nil (p : string) : keeps fnmatch [] p = false.
Proof. reflexivity. Qed.

(** With [FREEZER_REMOVE_EXTRA_FILES] false or [FREEZER_SKIP_EXISTING] true
    every file is kept. *)
Lemma keeps_everything (config : app_config) (p : string) :
  FREEZER_REMOVE_EXTRA_FILES config = Some false
  \/ FREEZER_SKIP_EXISTING config = Some true ->
  keeps fnmatch (kept_file_patterns config) p = true.
Proof.
  unfold kept_file_patterns. intros [H|H]; rewrite H; simpl.
  - destruct (default false (FREEZER_SKIP_EXISTING config));
      unfold keeps; simpl; by rewrite fnmatch_star.
  - unfold keeps; simpl; by rewrite fnmatch_star.
Qed.

End WithFnmatch.

End KeptFiles.

Section KeptFilesRestored.
Import Fs FlaskFrozen.
Variable fnmatch : string -> string -> bool.
Hypothesis fnmatch_star : forall name, fnmatch name "*" = true.

Lemma mkdir_exist_ok_tree (d : dest) (t : tree) :
  mkdir_exist_ok d = Ok t -> t = tree_of d.
Proof. destruct d; simpl; by intros [= <-]. Qed.

(** C9 (amended): a file under the root that a kept-file pattern names
    (every file when [FREEZER_REMOVE_EXTRA_FILES] is false or
    [FREEZER_SKIP_EXISTING] is true) is saved with its content before the
    tree is removed.  When the [finally] suite completes: under
    [FREEZER_SKIP_EXISTING] the file is back with the saved content;
    otherwise it is copied back, with the saved content, only where nothing
    exists at its path after the crawl, neither a file, whose content then
    stays, nor a directory, which the kept file is then dropped for. *)
Theorem kept_files_saved_and_restored
    (config : app_config) (engine : dest -> engine_run) (t0 : tree) (p c : string) :
  well_formed t0 ->
  t0 !! p = Some c ->
  keeps fnmatch (kept_file_patterns config) p = true
  \/ FREEZER_REMOVE_EXTRA_FILES config = Some false
  \/ FREEZER_SKIP_EXISTING config = Some true ->
  freeze_finally_error fnmatch config engine (Dir t0) = None ->
  let crawl := crawl_tree engine (Dir t0) in
  let final := tree_of (freeze fnmatch config engine (Dir t0)).1 in
  (exists temp, kept_file_dir_of fnmatch config (Dir t0) = Some temp
                /\ temp !! p = Some c)
  /\ final !! p
     = if default false (FREEZER_SKIP_EXISTING config) then Some c
       else if path_exists crawl p then crawl !! p
       else Some c.
Proof.
  intros Hwf Hp Hkept Hfin crawl final. subst crawl final.
  assert (keeps fnmatch (kept_file_patterns config) p = true) as Hk.
  { destruct Hkept as [?|?]; [done | by apply keeps_everything]. }
  clear Hkept.
  destruct (kept_file_dir_of fnmatch config (Dir t0)) as [temp|] eqn:Ek.
  2:{ unfold kept_file_dir_of in Ek.
      destruct (kept_file_patterns config); [by rewrite keeps_nil in Hk | done]. }
  pose proof (kept_file_dir_keeps fnmatch _ _ _ p Ek) as Htemp.
  rewrite Hk, Hp in Htemp.
  split; [by exists temp|].
  unfold freeze_finally_error, finally_error in Hfin.
  rewrite freeze_dest, Ek. rewrite Ek in Hfin. unfold crawl_tree in *.
  destruct (mkdir_exist_ok (try_suite engine (Dir t0)).1) as [t1|e] eqn:Em; [|done].
  rewrite <- (mkdir_exist_ok_tree _ _ Em) in *.
  unfold restore_kept_files in *.
  destruct (restore_loop _ (map_to_list temp) t1) as [t' err] eqn:Er.
  simpl in Hfin. subst err. simpl.
  assert (forall q, q ∈ (map_to_list temp).*1 -> is_ancestor p q = false) as Hanti.
  { intros q Hq. apply (proj1 (well_formed_dom t0) Hwf).
    - apply elem_of_dom. by eexists.
    - apply list_elem_of_fmap in Hq as ([q' c'] & -> & Hin).
      apply elem_of_map_to_list in Hin.
      rewrite (kept_file_dir_keeps fnmatch _ _ _ q' Ek) in Hin. simpl.
      apply elem_of_dom.
      destruct (keeps fnmatch (kept_file_patterns config) q'); [by eexists | done]. }
  destruct (default false (FREEZER_SKIP_EXISTING config)) eqn:Hra.
  - by apply (restore_loop_file true (map_to_list temp) t1 t' p c
                (NoDup_fst_map_to_list _) (proj2 (elem_of_map_to_list _ _ _) Htemp)
                Hanti Er).
  - unfold path_exists. destruct (is_dir t1 p) eqn:Hd.
    + rewrite orb_true_r. apply (restore_loop_skipped _ _ _ _ _ Hd Er).
    + rewrite orb_false_r.
      rewrite (restore_loop_file false (map_to_list temp) t1 t' p c
                 (NoDup_fst_map_to_list _) (proj2 (elem_of_map_to_list _ _ _) Htemp)
                 Hanti Er (fun _ => Hd)).
      unfold is_file. by destruct (t1 !! p).
Qed.

End KeptFilesRestored.

Lemma glob_star (name : string) : FlaskFrozen.fnmatch_glob name "*" = true.
Proof.
  unfold FlaskFrozen.fnmatch_glob. induction name as [|c name IH]; [done|].
  simpl in *. exact IH.
Qed.

Section KeptFilesExamples.
Import Fs FlaskFrozen.

Lemma kept_files_saved_and_restored_witness :
  (exists temp, kept_file_dir_of fnmatch_glob sample_ignore (Dir sample_root) = Some temp
                /\ temp !! "CNAME" = Some "example.org")
  /\ tree_of (freeze fnmatch_glob sample_ignore
                (engine_writing [] {[ "index.html" := "<html>" ]})
                (Dir sample_root)).1 !! "CNAME"
     = Some "example.org".
Proof.
  assert (well_formed sample_root) as Hwf
    by (apply well_formedb_correct; vm_compute; reflexivity).
  pose proof (kept_files_saved_and_restored fnmatch_glob glob_star sample_ignore
                (engine_writing [] {[ "index.html" := "<html>" ]}) sample_root
                "CNAME" "example.org" Hwf) as H.
  specialize (H eq_refl). specialize (H (or_introl eq_refl)).
  specialize (H eq_refl).
  destruct H as [Hsaved Hrestored].
  split; [exact Hsaved|].
  etransitivity; [exact Hrestored|]. vm_compute. reflexivity.
Defined.

(** C9 as stated fails where the crawl makes a directory of the path of a
    kept file: [dest.exists()] holds of the directory, the file is passed
    over, nothing is raised and the kept file is gone. *)
Lemma kept_file_at_new_directory :
  ~ kept_files_as_specified fnmatch_glob keep_everything
      (engine_writing [] {[ "a/index.html" := "new" ]}) {[ "a" := "old" ]}.
Proof.
  intros H. specialize (H "a" "old" eq_refl eq_refl).
  vm_compute in H. discriminate H.
Qed.

Example kept_file_at_new_directory_returns :
  freeze fnmatch_glob keep_everything
    (engine_writing [] {[ "a/index.html" := "new" ]}) (Dir {[ "a" := "old" ]})
  = (Dir {[ "a/index.html" := "new" ]}, Ok ∅).
Proof. vm_compute. reflexivity. Qed.

(** Where the crawl writes a regular file at a directory of a kept file,
    restoring raises. *)
Example kept_file_under_new_file_raises :
  (freeze fnmatch_glob keep_everything
     (engine_writing [] {[ "a" := "new" ]}) (Dir {[ "a/b" := "old" ]})).2
  = Raise FileExistsError.
Proof. vm_compute. reflexivity. Qed.

Lemma freeze_twice_same_files_witness :
  let engine := engine_writing [] {[ "index.html" := "<html>" ]} in
  let T : tree := <["CNAME" := "example.org"]> {[ "index.html" := "<html>" ]} in
  files (freeze fnmatch_glob sample_ignore engine (Dir T)).1
  = files (freeze fnmatch_glob sample_ignore engine (Dir sample_root)).1
  /\ freeze_finally_error fnmatch_glob sample_ignore engine (Dir T) = None.
Proof.
  intros engine T.
  apply (freeze_twice_same_files fnmatch_glob sample_ignore engine engine
           (Dir sample_root) T).
  - vm_compute. reflexivity.
  - apply well_formedb_correct. vm_compute. reflexivity.
  - discriminate.
  - discriminate.
  - reflexivity.
Defined.

End KeptFilesExamples.

(** * Further properties *)

(** ** [make_relative_url]: errors and normal forms *)

Section RelativeUrlFacts.
Import PyStr.

Lemma split_netloc_cases (url : string) :
  (exists nl rest, Werkzeug.split_netloc url = Ok (nl, rest))
  \/ (Werkzeug.split_netloc url = Raise (ValueError "Invalid IPv6 URL")
      /\ startswith url "//" = true).
Proof.
  unfold Werkzeug.split_netloc.
  destruct (String.eqb_spec (take 2 url) "//") as [E|E]; [|left; by eexists _, _].
  destruct (_ || _); [|left; by eexists _, _].
  right. split; [done|].
  destruct url as [|a [|b url]]; try done.
  simpl in E. injection E as -> ->. done.
Qed.

(** Under the prefix [make_relative_url] fails in one way only: with the
    [ValueError] of [url_parse], and only where the remainder begins with
    ['/']; the assertion does not fail there. *)
Theorem make_relative_url_only_error (prefix url : string) :
  startswith url prefix = true ->
  (exists relative, make_relative_url prefix url = Ok relative)
  \/ (make_relative_url prefix url = Raise (ValueError "Invalid IPv6 URL")
      /\ startswith (drop (String.length prefix) url) "/" = true).
Proof.
  intros Hp. unfold make_relative_url. rewrite Hp. cbn [negb].
  rewrite append_cons, append_nil_l.
  unfold Werkzeug.url_parse. rewrite split_scheme_slash.
  destruct (split_netloc_cases (String "/" (drop (String.length prefix) url)))
    as [(nl & rest & ->)|[-> Hs]].
  - left. cbn [mbind result_bind].
    destruct (Werkzeug.split_fragment rest) as [u frag].
    destruct (Werkzeug.split_query u) as [u' q]. by eexists.
  - right. split; [done|].
    destruct (drop (String.length prefix) url) as [|c r]; [done|].
    cbn [startswith] in *. by rewrite Ascii.eqb_refl in Hs.
Qed.

Lemma make_relative_url_only_error_witness :
  (exists relative,
     make_relative_url PREFIX "http://localhost:80/a/b?x#y" = Ok relative)
  \/ (make_relative_url PREFIX "http://localhost:80/a/b?x#y"
      = Raise (ValueError "Invalid IPv6 URL")
      /\ startswith (drop (String.length PREFIX) "http://localhost:80/a/b?x#y") "/" = true).
Proof.
  exact (make_relative_url_only_error PREFIX "http://localhost:80/a/b?x#y" eq_refl).
Defined.

(** Two URLs under the prefix whose remainders agree up to the first ['?']
    or ['#'] have the same relative URL. *)
Theorem make_relative_url_ignores_query_fragment (prefix rest1 rest2 : string) :
  startswith rest1 "/" = false ->
  startswith rest2 "/" = false ->
  strip_query_fragment rest1 = strip_query_fragment rest2 ->
  make_relative_url prefix (prefix +:+ rest1) = make_relative_url prefix (prefix +:+ rest2).
Proof.
  intros H1 H2 E.
  rewrite !make_relative_url_inside;
    rewrite ?startswith_app, ?drop_length_app; try done.
  unfold relative_url_spec. by rewrite !drop_length_app, E.
Qed.

Lemma make_relative_url_ignores_query_fragment_witness :
  make_relative_url PREFIX (PREFIX +:+ "a%20b/?page=2")
  = make_relative_url PREFIX (PREFIX +:+ "a%20b/#top").
Proof.
  exact (make_relative_url_ignores_query_fragment PREFIX "a%20b/?page=2" "a%20b/#top"
           eq_refl eq_refl eq_refl).
Defined.

Lemma unquoted_parts_slash (s run : string) :
  exists r, Urllib.unquoted_parts (String "/" run) s = String "/" r.
Proof.
  revert run. induction s as [|c s IH]; intros run.
  - by eexists.
  - cbn [Urllib.unquoted_parts]. destruct (Urllib.is_ascii c).
    + rewrite append_cons. apply IH.
    + unfold Urllib.unquote_run. cbn [Urllib.unquote_to_bytes].
      change (Ascii.eqb "/" "%") with false. cbv iota.
      cbn [Urllib.decode_utf8_replace]. by eexists.
Qed.

Lemma unquote_slash (s : string) :
  exists r, Urllib.unquote (String "/" s) = String "/" r.
Proof.
  unfold Urllib.unquote. destruct (negb _); [by eexists|].
  cbn [Urllib.unquoted_parts]. change (Urllib.is_ascii "/") with true. cbv iota.
  rewrite append_nil_l. apply unquoted_parts_slash.
Qed.

(** Under the prefix, with a remainder that does not begin with ['/'], the
    result is root-relative: it begins with ['/']. *)
Theorem make_relative_url_root_relative (prefix url : string) :
  startswith url prefix = true ->
  startswith (drop (String.length prefix) url) "/" = false ->
  exists r, make_relative_url prefix url = Ok (String "/" r).
Proof.
  intros Hp Hs. rewrite (make_relative_url_inside _ _ Hp Hs).
  unfold relative_url_spec. rewrite append_cons, append_nil_l.
  destruct (unquote_slash (strip_query_fragment (drop (String.length prefix) url)))
    as [r ->].
  by exists r.
Qed.

Lemma make_relative_url_root_relative_witness :
  exists r, make_relative_url PREFIX "http://localhost:80/%C3%A9t%C3%A9/" = Ok (String "/" r).
Proof.
  exact (make_relative_url_root_relative PREFIX "http://localhost:80/%C3%A9t%C3%A9/"
           eq_refl eq_refl).
Defined.

Lemma strip_query_fragment_plain (s : string) :
  contains "?" s = false -> contains "#" s = false -> strip_query_fragment s = s.
Proof.
  unfold contains. induction s as [|c s IH]; [done|].
  cbn [find strip_query_fragment]. intros Hq Hh.
  destruct (Ascii.eqb c "?"); [done|]. destruct (Ascii.eqb c "#"); [done|].
  cbn [orb]. f_equal. apply IH.
  - by destruct (find "?" s).
  - by destruct (find "#" s).
Qed.

(** A remainder that holds no ['%'], ['?'] or ['#'] and does not begin with
    ['/'] comes back unchanged behind one ['/']. *)
Theorem make_relative_url_plain (prefix rest : string) :
  startswith rest "/" = false ->
  contains "%" rest = false -> contains "?" rest = false -> contains "#" rest = false ->
  make_relative_url prefix (prefix +:+ rest) = Ok ("/" +:+ rest).
Proof.
  intros Hs Hp Hq Hh.
  rewrite make_relative_url_inside;
    rewrite ?startswith_app, ?drop_length_app; try done.
  unfold relative_url_spec. rewrite drop_length_app, strip_query_fragment_plain by done.
  rewrite append_cons, append_nil_l. unfold Urllib.unquote.
  assert (contains "%" (String "/" rest) = false) as ->; [|done].
  unfold contains in *. cbn [find]. change (Ascii.eqb "/" "%") with false. cbv iota.
  by destruct (find "%" rest).
Qed.

Lemma make_relative_url_plain_witness :
  make_relative_url PREFIX (PREFIX +:+ "static/style.css") = Ok ("/" +:+ "static/style.css").
Proof.
  exact (make_relative_url_plain PREFIX "static/style.css" eq_refl eq_refl eq_refl eq_refl).
Defined.

End RelativeUrlFacts.

(** ** Kept files: what is saved and what a restore leaves *)

Section KeptFilesMore.
Import Fs FlaskFrozen.
Variable fnmatch : string -> string -> bool.

(** Patterns add up: a file is kept under two lists of patterns together
    exactly when one of the lists keeps it. *)
Theorem keeps_app (patterns1 patterns2 : list string) (filename : string) :
  keeps fnmatch (patterns1 ++ patterns2) filename
  = keeps fnmatch patterns1 filename || keeps fnmatch patterns2 filename.
Proof.
  unfold keeps. rewrite !List.filter_app, fmap_app, !existsb_app.
  repeat match goal with |- context [existsb ?f ?l] => destruct (existsb f l) end; done.
Qed.

(** The temporary directory holds exactly the files of the root that a
    pattern keeps, with their content; nothing when the root is no
    directory. *)
Theorem save_kept_files_exactly (root : dest) (patterns : list string) (p c : string) :
  save_kept_files fnmatch root patterns !! p = Some c
  <-> tree_of root !! p = Some c /\ keeps fnmatch patterns p = true.
Proof.
  destruct root as [| | |t].
  1-3: rewrite save_kept_files_no_directory by (simpl; tauto); simpl;
       rewrite lookup_empty; split; [done | by intros [? _]].
  rewrite save_kept_files_lookup. simpl.
  destruct (keeps fnmatch patterns p); split; try done; [by intros [? _] | by intros [_ ?]].
Qed.

End KeptFilesMore.

Section RestoreMore.
Import Fs FlaskFrozen.

Lemma restore_loop_all_file (saved : list (string * string)) (t t' : tree) (p c : string) :
  NoDup saved.*1 -> (p, c) ∈ saved ->
  restore_loop true saved t = (t', None) -> t' !! p = Some c.
Proof.
  revert t. induction saved as [|f saved IH]; intros t Hnd Hin H.
  - by apply elem_of_nil in Hin.
  - rewrite fmap_cons, NoDup_cons in Hnd. destruct Hnd as [Hf Hnd].
    simpl in H. destruct (restore_one true t f) as [t1|e] eqn:E; [|done].
    apply elem_of_cons in Hin as [<-|Hin]; [|by eapply IH].
    simpl in Hf. rewrite (restore_loop_lookup_other _ _ _ _ _ _ H Hf).
    destruct (restore_one_ok _ _ _ _ E) as [(_ & ? & _)|(-> & _)]; [done|].
    apply lookup_insert_eq.
Qed.

(** Under [restore_all] a restore that completes leaves the saved files over
    the files of the root: the saved content wins at every saved path and
    every other file is as it was. *)
Theorem restore_all_is_union (kept_file_dir root t' : tree) :
  restore_kept_files kept_file_dir root true = (t', None) ->
  t' = kept_file_dir ∪ root.
Proof.
  unfold restore_kept_files. intros H. apply map_eq. intros p.
  destruct (kept_file_dir !! p) as [c|] eqn:E.
  - rewrite (lookup_union_Some_l _ _ _ _ E).
    apply (restore_loop_all_file _ _ _ _ _ (NoDup_fst_map_to_list _)
             (proj2 (elem_of_map_to_list _ _ _) E) H).
  - rewrite (lookup_union_r _ _ _ E).
    apply (restore_loop_lookup_other _ _ _ _ _ _ H).
    intros Hin. apply list_elem_of_fmap in Hin as ([q c] & -> & Hin).
    apply elem_of_map_to_list in Hin. simpl in E. congruence.
Qed.

Lemma restore_all_is_union_witness :
  (restore_kept_files {[ "CNAME" := "example.org"; "index.html" := "<html>old" ]}
     {[ "index.html" := "<html>new" ]} true).1
  = {[ "CNAME" := "example.org"; "index.html" := "<html>old" ]}
    ∪ {[ "index.html" := "<html>new" ]}.
Proof.
  apply (restore_all_is_union
           {[ "CNAME" := "example.org"; "index.html" := "<html>old" ]}
           {[ "index.html" := "<html>new" ]}).
  vm_compute. reflexivity.
Defined.

(** Without [restore_all] a restore changes no file that is there: whatever
    it adds and whether or not it completes, every file of the root keeps
    its content. *)
Theorem restore_keeps_existing (kept_file_dir root t' : tree) (err : option exn)
    (p c : string) :
  restore_kept_files kept_file_dir root false = (t', err) ->
  root !! p = Some c -> t' !! p = Some c.
Proof.
  unfold restore_kept_files. generalize (map_to_list kept_file_dir). intros saved.
  revert root. induction saved as [|f saved IH]; intros root H Hp; simpl in H.
  - by injection H as <- _.
  - destruct (restore_one false root f) as [t1|e] eqn:E.
    + apply (IH t1 H).
      destruct (restore_one_ok _ _ _ _ E) as [(-> & _)|(-> & _ & _ & [?|Hex])];
        [done | done |].
      rewrite lookup_insert_ne; [done|]. intros <-.
      unfold path_exists, is_file in Hex. by rewrite Hp in Hex.
    + by injection H as <- _.
Qed.

Lemma restore_keeps_existing_witness :
  (restore_kept_files {[ "index.html" := "<html>old" ]}
     {[ "index.html" := "<html>new" ]} false).1 !! "index.html" = Some "<html>new".
Proof.
  apply (restore_keeps_existing {[ "index.html" := "<html>old" ]}
           {[ "index.html" := "<html>new" ]} _ None "index.html" "<html>new").
  - vm_compute. reflexivity.
  - vm_compute. reflexivity.
Defined.

(** A restore removes no path, adds saved paths only, and leaves a tree in
    which no file lies below another, whether or not it completes. *)
Theorem restore_adds_saved_paths_only (kept_file_dir root t' : tree)
    (restore_all : bool) (err : option exn) :
  restore_kept_files kept_file_dir root restore_all = (t', err) ->
  dom root ⊆ dom t'
  /\ dom t' ⊆ dom root ∪ dom kept_file_dir
  /\ (well_formed root -> well_formed t').
Proof.
  unfold restore_kept_files. intros H.
  destruct (restore_loop_dom _ _ _ _ _ H) as [H1 H2].
  split; [done|]. split.
  - intros p Hp. apply H2 in Hp. apply elem_of_union in Hp as [Hp|Hp].
    + apply elem_of_union. by left.
    + apply elem_of_union. right. by apply keys_map_to_list.
  - intros Hwf. by eapply restore_loop_well_formed.
Qed.

Lemma restore_adds_saved_paths_only_witness :
  dom ({[ "a" := "new" ]} : tree)
    ⊆ dom (restore_kept_files {[ "a/b" := "old" ]} {[ "a" := "new" ]} true).1
  /\ dom (restore_kept_files {[ "a/b" := "old" ]} {[ "a" := "new" ]} true).1
     ⊆ dom ({[ "a" := "new" ]} : tree) ∪ dom ({[ "a/b" := "old" ]} : tree)
  /\ (well_formed {[ "a" := "new" ]} ->
      well_formed (restore_kept_files {[ "a/b" := "old" ]} {[ "a" := "new" ]} true).1).
Proof.
  apply (restore_adds_saved_paths_only {[ "a/b" := "old" ]} {[ "a" := "new" ]}
           _ true (Some FileExistsError)).
  vm_compute. reflexivity.
Defined.

Lemma well_formed_keys (t : tree) (p : string) :
  well_formed t -> is_Some (t !! p) ->
  forall q, q ∈ (map_to_list t).*1 -> is_ancestor p q = false.
Proof.
  intros Hwf Hp q Hq. apply (proj1 (well_formed_dom t) Hwf).
  - by apply elem_of_dom.
  - apply list_elem_of_fmap in Hq as ([q' c'] & -> & Hin).
    apply elem_of_map_to_list in Hin. apply elem_of_dom. by eexists.
Qed.

(** Without [restore_all] a restore that completes leaves the root's tree
    and, beside it, the saved files at the paths where the root has no
    directory: a saved file goes back where nothing is in its way and is
    dropped where the root already has a file or a directory. *)
Theorem restore_fills_free_paths (kept_file_dir root t' : tree) :
  well_formed kept_file_dir ->
  restore_kept_files kept_file_dir root false = (t', None) ->
  t' = root ∪ filter (fun f : string * string => is_dir root f.1 = false) kept_file_dir.
Proof.
  unfold restore_kept_files. intros Hwf H. apply map_eq. intros p.
  destruct (kept_file_dir !! p) as [c|] eqn:E.
  - destruct (is_dir root p) eqn:Hd.
    + rewrite (restore_loop_skipped _ _ _ _ _ Hd H), lookup_union_l; [done|].
      apply map_lookup_filter_None. right. intros x _. simpl. congruence.
    + rewrite (restore_loop_file false _ root t' p c (NoDup_fst_map_to_list _)
                 (proj2 (elem_of_map_to_list _ _ _) E)
                 (well_formed_keys _ _ Hwf (mk_is_Some _ _ E)) H (fun _ => Hd)).
      destruct (root !! p) as [x|] eqn:Er; simpl.
      * symmetry. by apply lookup_union_Some_l.
      * rewrite lookup_union_r by done. symmetry.
        by apply map_lookup_filter_Some.
  - rewrite lookup_union_l.
    + apply (restore_loop_lookup_other _ _ _ _ _ _ H).
      intros Hin. apply list_elem_of_fmap in Hin as ([q c] & -> & Hin).
      apply elem_of_map_to_list in Hin. simpl in E. congruence.
    + apply map_lookup_filter_None. by left.
Qed.

Lemma restore_fills_free_paths_witness :
  (restore_kept_files {[ "CNAME" := "example.org"; "index.html" := "<html>old" ]}
     {[ "index.html" := "<html>new" ]} false).1
  = {[ "index.html" := "<html>new" ]}
    ∪ filter (fun f : string * string =>
                is_dir {[ "index.html" := "<html>new" ]} f.1 = false)
        ({[ "CNAME" := "example.org"; "index.html" := "<html>old" ]} : tree).
Proof.
  apply (restore_fills_free_paths
           {[ "CNAME" := "example.org"; "index.html" := "<html>old" ]}
           {[ "index.html" := "<html>new" ]}).
  - apply well_formedb_correct. vm_compute. reflexivity.
  - vm_compute. reflexivity.
Defined.

Section RoundTrip.
Variable fnmatch : string -> string -> bool.

Lemma restore_into_empty (t : tree) (restore_all : bool) :
  well_formed t -> restore_kept_files t ∅ restore_all = (t, None).
Proof.
  intros Hwf. unfold restore_kept_files.
  destruct (restore_loop_within restore_all t (map_to_list t) ∅ Hwf) as (t' & H & _).
  - intros p Hp. by apply not_elem_of_empty in Hp.
  - intros [q c] Hin. apply elem_of_map_to_list in Hin. simpl.
    apply elem_of_dom. by eexists.
  - rewrite H. f_equal. apply map_eq. intros p.
    destruct (t !! p) as [c|] eqn:E.
    + rewrite (restore_loop_file restore_all _ ∅ t' p c (NoDup_fst_map_to_list _)
                 (proj2 (elem_of_map_to_list _ _ _) E)
                 (well_formed_keys _ _ Hwf (mk_is_Some _ _ E)) H (fun _ => eq_refl)).
      rewrite lookup_empty. by destruct restore_all.
    + rewrite (restore_loop_lookup_other _ _ _ _ _ p H), lookup_empty; [done|].
      intros Hin. apply list_elem_of_fmap in Hin as ([q c] & -> & Hin).
      apply elem_of_map_to_list in Hin. simpl in E. congruence.
Qed.

(** Saving and restoring is a round trip: when every file of a root is
    kept, restoring what was saved into the emptied root gives the tree back
    as it was and raises nothing. *)
Theorem save_restore_round_trip (patterns : list string) (t : tree)
    (restore_all : bool) :
  well_formed t ->
  (forall p, p ∈ dom t -> keeps fnmatch patterns p = true) ->
  restore_kept_files (save_kept_files fnmatch (Dir t) patterns) ∅ restore_all
  = (t, None).
Proof.
  intros Hwf Hall.
  assert (save_kept_files fnmatch (Dir t) patterns = t) as ->.
  { apply map_eq. intros p. rewrite save_kept_files_lookup.
    destruct (t !! p) as [c|] eqn:E; [|by destruct (keeps _ _ _)].
    rewrite Hall; [done|]. apply elem_of_dom. by eexists. }
  by apply restore_into_empty.
Qed.

End RoundTrip.

Lemma save_restore_round_trip_witness :
  restore_kept_files (save_kept_files fnmatch_glob (Dir sample_root) ["*.html"; "CNAME"])
    ∅ false
  = (sample_root, None).
Proof.
  apply (save_restore_round_trip fnmatch_glob ["*.html"; "CNAME"] sample_root false).
  - apply well_formedb_correct. vm_compute. reflexivity.
  - intros p Hp. apply elem_of_dom in Hp as [c Hc].
    unfold sample_root in Hc.
    apply lookup_insert_Some in Hc as [[<- _]|[_ Hc]]; [vm_compute; reflexivity|].
    apply lookup_singleton_Some in Hc as [<- _]. vm_compute. reflexivity.
Defined.

End RestoreMore.

(** ** [Freezer.freeze]: what decides its result *)

Section FreezeMore.
Import Fs FlaskFrozen.
Variable fnmatch : string -> string -> bool.

(** With no kept-file pattern the old content of the destination has no
    part in a freeze: two destinations that are directories give the same
    tree and the same result. *)
Theorem freeze_forgets_old_files
    (config : app_config) (engine : dest -> engine_run) (t0 t0' : tree) :
  kept_file_patterns config = [] ->
  freeze fnmatch config engine (Dir t0) = freeze fnmatch config engine (Dir t0').
Proof.
  intros H. apply injective_projections.
  - rewrite !freeze_dest. unfold kept_file_dir_of. by rewrite H.
  - rewrite !freeze_result. unfold freeze_finally_error, kept_file_dir_of. by rewrite H.
Qed.

(** [freeze] returns a set exactly when its [try] suite returned that set
    and its [finally] suite raised nothing: no error of the engine, of a
    hook or of the file system is swallowed.  The root is then a
    directory. *)
Theorem freeze_returns_iff
    (config : app_config) (engine : dest -> engine_run) (root : dest)
    (urls : gset string) :
  ((freeze fnmatch config engine root).2 = Ok urls
   <-> (try_suite engine root).2 = Ok urls
       /\ freeze_finally_error fnmatch config engine root = None)
  /\ ((freeze fnmatch config engine root).2 = Ok urls ->
      is_directory (freeze fnmatch config engine root).1).
Proof.
  assert ((freeze fnmatch config engine root).2 = Ok urls
          <-> (try_suite engine root).2 = Ok urls
              /\ freeze_finally_error fnmatch config engine root = None) as Hiff.
  { rewrite freeze_result.
    destruct (freeze_finally_error fnmatch config engine root) as [e|].
    - split; [by intros H%raise_over_raises | by intros [_ ?]].
    - rewrite except_clauses_ok. split; [done | by intros [? _]]. }
  split; [done|]. intros H. apply Hiff in H as [_ Hfin].
  rewrite freeze_dest. unfold freeze_finally_error, finally_error in Hfin.
  by destruct (mkdir_exist_ok _).
Qed.

(** An error of the [try] suite that the [except] clauses do not name comes
    out of [freeze] as it is, once the [finally] suite has completed. *)
Theorem freeze_passes_other_errors
    (config : app_config) (engine : dest -> engine_run) (root : dest) (e : exn) :
  (try_suite engine root).2 = Raise e ->
  translated e = false ->
  freeze_finally_error fnmatch config engine root = None ->
  (freeze fnmatch config engine root).2 = Raise e.
Proof.
  intros Hb He Hfin. rewrite freeze_result, Hfin, Hb.
  unfold translated in He. simpl. by destruct (without_context e).
Qed.

End FreezeMore.

Lemma freeze_forgets_old_files_witness :
  FlaskFrozen.freeze FlaskFrozen.fnmatch_glob FlaskFrozen.default_config (FlaskFrozen.engine_writing [] {[ "index.html" := "<html>" ]})
    (Fs.Dir FlaskFrozen.sample_root)
  = FlaskFrozen.freeze FlaskFrozen.fnmatch_glob FlaskFrozen.default_config (FlaskFrozen.engine_writing [] {[ "index.html" := "<html>" ]})
      (Fs.Dir ∅).
Proof.
  exact (freeze_forgets_old_files FlaskFrozen.fnmatch_glob FlaskFrozen.default_config
           (FlaskFrozen.engine_writing [] {[ "index.html" := "<html>" ]}) FlaskFrozen.sample_root ∅ eq_refl).
Defined.

Lemma freeze_passes_other_errors_witness :
  (FlaskFrozen.freeze FlaskFrozen.fnmatch_glob FlaskFrozen.default_config
     (FlaskFrozen.engine_raising (OtherError "RuntimeError")) Fs.Missing).2
  = Raise (OtherError "RuntimeError").
Proof.
  exact (freeze_passes_other_errors FlaskFrozen.fnmatch_glob FlaskFrozen.default_config
           (FlaskFrozen.engine_raising (OtherError "RuntimeError")) Fs.Missing
           (OtherError "RuntimeError") eq_refl eq_refl eq_refl).
Defined.

(** ** The [url_for] handler: bounds that hold with or without errors *)

Section UrlForMore.
Import UrlFor.
Variable build : string -> values -> result string.
Variable add_url_error : string -> option exn.
Variable add_url_calls : string -> list (string * values).

Abbreviation url_for' := (UrlFor.url_for build add_url_error add_url_calls).

Lemma url_for_cleared_state (fuel : nat) (st : handler_state) (endpoint : string)
    (vals : values) :
  handling_url_for st = false -> (url_for' fuel st endpoint vals).1 = st.
Proof.
  intros H. destruct fuel; [done|].
  by rewrite (url_for_guard_cleared build add_url_error add_url_calls _ _ _ _ H).
Qed.

Lemma nested_calls_cleared_state (fuel : nat) (st : handler_state)
    (calls : list (string * values)) :
  handling_url_for st = false ->
  (nested_calls (url_for' fuel) st calls).1 = st.
Proof.
  intros H. induction calls as [|[endpoint vals] calls IH]; [done|].
  cbn [nested_calls].
  pose proof (url_for_cleared_state fuel st endpoint vals H) as E.
  destruct (url_for' fuel st endpoint vals) as [st' [u|e]]; simpl in E; subst st'; done.
Qed.

(** With the guard cleared, before [start] or after a call that raised
    inside the handler, no sequence of [url_for] calls adds a URL or sets the
    guard again. *)
Theorem serve_guard_cleared (fuel : nat) (st : handler_state)
    (calls : list (string * values)) :
  handling_url_for st = false ->
  serve build add_url_error add_url_calls fuel st calls = st.
Proof.
  intros H. unfold serve. induction calls as [|call calls IH]; [done|].
  cbn [foldl]. by rewrite url_for_cleared_state.
Qed.

Lemma url_for_alone_adds_at_most_once (fuel : nat) (st : handler_state)
    (endpoint : string) (vals : values) :
  let st' := (url_for' fuel st endpoint vals).1 in
  add_url_log st' = add_url_log st
  \/ exists url, add_url_log st' = (add_url_log st ++ [url])%list.
Proof.
  destruct fuel as [|fuel]; [by left|].
  destruct (handling_url_for st) eqn:Hg.
  2:{ left. by rewrite url_for_cleared_state. }
  rewrite url_for_step. unfold handle_url_for. rewrite Hg.
  set (st1 := set_handling false st).
  pose proof (url_for_cleared_state fuel st1 endpoint
                (<["_external" := Cli.PyBool true]> vals) eq_refl) as E1.
  destruct (url_for' fuel st1 endpoint _) as [st1' [url|e]]; simpl in E1; subst st1';
    [|by left].
  unfold add_url. destruct (freeze_info_set st1) eqn:Hfi; cbn [negb]; [|by left].
  set (st2 := mkState _ _ _).
  pose proof (nested_calls_cleared_state fuel st2 (add_url_calls url) eq_refl) as E2.
  destruct (nested_calls _ st2 _) as [st2' [[]|e]]; simpl in E2; subst st2'.
  - destruct (add_url_error url); right; by exists url.
  - right. by exists url.
Qed.

Lemma nested_calls_fuel (fuel : nat) (st : handler_state)
    (calls : list (string * values)) :
  handling_url_for st = false ->
  nested_calls (url_for' (S fuel)) st calls = nested_calls (url_for' 1) st calls.
Proof.
  intros H. induction calls as [|[endpoint vals] calls IH]; [done|].
  cbn [nested_calls].
  rewrite !(url_for_guard_cleared build add_url_error add_url_calls _ _ _ _ H).
  by destruct (build endpoint vals).
Qed.

Lemma url_for_alone_depth_two (fuel : nat) (st : handler_state) (endpoint : string)
    (vals : values) :
  url_for' (S (S fuel)) st endpoint vals = url_for' 2 st endpoint vals.
Proof.
  rewrite !(url_for_step build add_url_error add_url_calls (S _)).
  unfold handle_url_for. destruct (handling_url_for st) eqn:Hg; [|done].
  rewrite !(url_for_guard_cleared build add_url_error add_url_calls) by done.
  destruct (build endpoint _) as [url|e]; [|done].
  unfold add_url. destruct (negb _); [done|].
  by rewrite nested_calls_fuel.
Qed.

End UrlForMore.

Lemma serve_guard_cleared_witness :
  UrlFor.serve UrlFor.sample_build (fun _ => None) (fun _ => []) 2 UrlFor.initial
    [("index", ∅); ("index", ∅)] = UrlFor.initial.
Proof.
  exact (serve_guard_cleared UrlFor.sample_build (fun _ => None) (fun _ => []) 2
           UrlFor.initial [("index", ∅); ("index", ∅)] eq_refl).
Defined.

(** ** The handlers of several calls of [freeze] *)

Section HandlersFacts.
Import UrlFor.
Variable build : string -> values -> result string.
Variable add_url_error : nat -> string -> option exn.
Variable add_url_calls : nat -> string -> list (string * values).

Abbreviation url_for_all := (Handlers.url_for build add_url_error add_url_calls).
Abbreviation url_for_alone :=
  (UrlFor.url_for build (add_url_error 0%nat) (add_url_calls 0%nat)).

Lemma nested_calls_alone (url_for : Handlers.url_for_type) (url_for1 : url_for_type)
    (calls : list (string * values)) (st : handler_state) :
  (forall st endpoint vals,
     url_for [st] endpoint vals
     = ([(url_for1 st endpoint vals).1], (url_for1 st endpoint vals).2)) ->
  Handlers.nested_calls url_for [st] calls
  = ([(nested_calls url_for1 st calls).1], (nested_calls url_for1 st calls).2).
Proof.
  intros H. revert st. induction calls as [|[endpoint vals] calls IH]; intros st; [done|].
  cbn [Handlers.nested_calls nested_calls]. rewrite H.
  destruct (url_for1 st endpoint vals) as [st1 [url|e]]; cbn [fst snd]; [apply IH | done].
Qed.

(** On an application that [freeze] is called on for the first time, the
    handlers are the one handler of [UrlFor]. *)
Lemma url_for_all_alone (fuel : nat) (st : handler_state) (endpoint : string)
    (vals : values) :
  url_for_all fuel [st] endpoint vals
  = ([(url_for_alone fuel st endpoint vals).1], (url_for_alone fuel st endpoint vals).2).
Proof.
  revert st endpoint vals. induction fuel as [|fuel IH]; intros st endpoint vals; [done|].
  cbn [Handlers.url_for UrlFor.url_for length seq Handlers.inject_url_defaults].
  unfold Handlers.handle_url_for, handle_url_for. cbn [lookup list_lookup].
  destruct (handling_url_for st); [|done].
  cbn [insert list_insert]. rewrite IH.
  destruct (url_for_alone fuel (set_handling false st) endpoint _) as [st1 [url|e]];
    cbn [fst snd]; [|done].
  unfold Handlers.add_url, add_url. cbn [lookup list_lookup].
  destruct (negb (freeze_info_set st1)); [done|].
  cbn [insert list_insert]. rewrite (nested_calls_alone _ (url_for_alone fuel)) by apply IH.
  destruct (nested_calls _ _ _) as [st2 [[]|e]]; cbn [fst snd]; [|done].
  by destruct (add_url_error 0%nat url).
Qed.

(** While the handler of the running [freeze] is the only one the
    application has, on the first [freeze] of an application, one [url_for]
    call makes at most one [add_url] call, whatever is raised on the way:
    the log is left as it is or grows by one URL. *)
Theorem url_for_adds_at_most_once (fuel : nat) (st : handler_state)
    (endpoint : string) (vals : values) :
  exists st',
    (url_for_all fuel [st] endpoint vals).1 = [st']
    /\ (add_url_log st' = add_url_log st
        \/ exists url, add_url_log st' = (add_url_log st ++ [url])%list).
Proof.
  rewrite url_for_all_alone. eexists. split; [reflexivity|].
  apply url_for_alone_adds_at_most_once.
Qed.

(** With that one handler two levels of calls are all a [url_for] call ever
    needs: more fuel gives the same state and the same result, errors
    included. *)
Theorem url_for_depth_two (fuel : nat) (st : handler_state) (endpoint : string)
    (vals : values) :
  url_for_all (S (S fuel)) [st] endpoint vals = url_for_all 2 [st] endpoint vals.
Proof. by rewrite !url_for_all_alone, url_for_alone_depth_two. Qed.

End HandlersFacts.

Section TwoHandlers.
Import UrlFor.
Variable build : string -> values -> result string.

Abbreviation url_for_quiet :=
  (Handlers.url_for build (fun _ _ => None) (fun _ _ => [])).
Abbreviation handle_quiet :=
  (Handlers.handle_url_for (fun _ _ => None) (fun _ _ => [])).

Lemma url_for_all_step (fuel : nat) (hs : Handlers.handlers) (endpoint : string)
    (vals : values) :
  url_for_quiet (S fuel) hs endpoint vals
  = match Handlers.inject_url_defaults (fun _ _ => None) (fun _ _ => [])
            (url_for_quiet fuel) (seq 0 (length hs)) hs endpoint vals with
    | (hs, Ok _) => (hs, build endpoint vals)
    | (hs, Raise e) => (hs, Raise e)
    end.
Proof. reflexivity. Qed.

Lemma handle_first (url_for : Handlers.url_for_type) (log1 log1' : list string)
    (st2 st2' : handler_state) (endpoint : string) (vals : values) (url : string) :
  url_for [mkState true false log1; st2] endpoint
    (<["_external" := Cli.PyBool true]> vals)
  = ([mkState true false log1'; st2'], Ok url) ->
  handle_quiet url_for 0 [mkState true true log1; st2] endpoint vals
  = ([mkState true true (log1' ++ [url]); st2'], Ok ()).
Proof.
  intros H. unfold Handlers.handle_url_for, set_handling.
  cbn [lookup list_lookup handling_url_for insert list_insert
         freeze_info_set add_url_log].
  rewrite H. reflexivity.
Qed.

Lemma handle_second (url_for : Handlers.url_for_type) (log2 log2' : list string)
    (st1 st1' : handler_state) (endpoint : string) (vals : values) (url : string) :
  url_for [st1; mkState true false log2] endpoint
    (<["_external" := Cli.PyBool true]> vals)
  = ([st1'; mkState true false log2'], Ok url) ->
  handle_quiet url_for 1 [st1; mkState true true log2] endpoint vals
  = ([st1'; mkState true true (log2' ++ [url])], Ok ()).
Proof.
  intros H. unfold Handlers.handle_url_for, set_handling.
  cbn [lookup list_lookup handling_url_for insert list_insert
         freeze_info_set add_url_log].
  rewrite H. reflexivity.
Qed.

Lemma handle_cleared (url_for : Handlers.url_for_type) (i : nat)
    (hs : Handlers.handlers) (st : handler_state) (endpoint : string) (vals : values) :
  hs !! i = Some st -> handling_url_for st = false ->
  handle_quiet url_for i hs endpoint vals = (hs, Ok ()).
Proof. intros Hi Hg. unfold Handlers.handle_url_for. by rewrite Hi, Hg. Qed.

Lemma url_for_both_cleared (fuel : nat) (log1 log2 : list string) (endpoint : string)
    (vals : values) :
  url_for_quiet (S fuel) [mkState true false log1; mkState true false log2] endpoint vals
  = ([mkState true false log1; mkState true false log2], build endpoint vals).
Proof.
  rewrite url_for_all_step. cbn [length seq Handlers.inject_url_defaults].
  rewrite (handle_cleared _ 0 _ (mkState true false log1)) by done.
  by rewrite (handle_cleared _ 1 _ (mkState true false log2)) by done.
Qed.

Lemma url_for_first_set (fuel : nat) (log1 log2 : list string) (endpoint : string)
    (vals : values) (url : string) :
  build endpoint (<["_external" := Cli.PyBool true]> vals) = Ok url ->
  url_for_quiet (S (S fuel)) [mkState true true log1; mkState true false log2]
    endpoint vals
  = ([mkState true true (log1 ++ [url]); mkState true false log2], build endpoint vals).
Proof.
  intros Hb. rewrite url_for_all_step. cbn [length seq Handlers.inject_url_defaults].
  rewrite (handle_first _ log1 log1 _ (mkState true false log2) _ _ url)
    by (by rewrite url_for_both_cleared, Hb).
  by rewrite (handle_cleared _ 1 _ (mkState true false log2)) by done.
Qed.

Lemma url_for_second_set (fuel : nat) (log1 log2 : list string) (endpoint : string)
    (vals : values) (url : string) :
  build endpoint (<["_external" := Cli.PyBool true]> vals) = Ok url ->
  url_for_quiet (S (S fuel)) [mkState true false log1; mkState true true log2]
    endpoint vals
  = ([mkState true false log1; mkState true true (log2 ++ [url])], build endpoint vals).
Proof.
  intros Hb. rewrite url_for_all_step. cbn [length seq Handlers.inject_url_defaults].
  rewrite (handle_cleared _ 0 _ (mkState true false log1)) by done.
  by rewrite (handle_second _ log2 log2 (mkState true false log1) _ _ _ url)
    by (by rewrite url_for_both_cleared, Hb).
Qed.

(** On the second [freeze] of an application the handler of the first is
    still there, with its guard set.  A [url_for] call whose external URL
    builds then reaches the [add_url] of the running [freeze] twice, and
    that of the finished one twice, and takes three levels of calls: each
    handler clears its own guard only, so the call the second one nests
    runs the first one once more. *)
Theorem url_for_second_freeze_adds_twice (fuel : nat) (new old : handler_state)
    (endpoint : string) (vals : values) (url : string) :
  handling_url_for new = true -> freeze_info_set new = true ->
  handling_url_for old = true -> freeze_info_set old = true ->
  build endpoint (<["_external" := Cli.PyBool true]> vals) = Ok url ->
  url_for_quiet (S (S (S fuel))) [new; old] endpoint vals
  = ([mkState true true (add_url_log new ++ [url; url]);
      mkState true true (add_url_log old ++ [url; url])],
     build endpoint vals)
  /\ (url_for_quiet 2 [new; old] endpoint vals).2 = Raise (OtherError "RecursionError").
Proof.
  destruct new as [fi1 g1 log1], old as [fi2 g2 log2].
  cbn [handling_url_for freeze_info_set add_url_log].
  intros -> -> -> -> Hb.
  assert (build endpoint (<["_external" := Cli.PyBool true]>
                            (<["_external" := Cli.PyBool true]> vals)) = Ok url) as Hb2
    by (by rewrite insert_insert_eq).
  split.
  - rewrite url_for_all_step. cbn [length seq Handlers.inject_url_defaults].
    rewrite (handle_first _ log1 log1 _ (mkState true true (log2 ++ [url])) _ _ url)
      by (by rewrite (url_for_second_set _ _ _ _ _ url Hb2), Hb).
    rewrite (handle_second _ (log2 ++ [url]) (log2 ++ [url])
               _ (mkState true true ((log1 ++ [url]) ++ [url])) _ _ url)
      by (by rewrite (url_for_first_set _ _ _ _ _ url Hb2), Hb).
    by rewrite <- !app_assoc.
  - rewrite url_for_all_step. cbn [length seq Handlers.inject_url_defaults].
    unfold Handlers.handle_url_for at 1. unfold set_handling.
    cbn [lookup list_lookup handling_url_for insert list_insert
           freeze_info_set add_url_log].
    rewrite url_for_all_step. cbn [length seq Handlers.inject_url_defaults].
    rewrite (handle_cleared _ 0 _ (mkState true false log1)) by done.
    unfold Handlers.handle_url_for at 1. unfold set_handling.
    cbn [lookup list_lookup handling_url_for insert list_insert
           freeze_info_set add_url_log Handlers.url_for].
    reflexivity.
Qed.

End TwoHandlers.

Lemma url_for_adds_at_most_once_witness :
  exists st',
    (Handlers.url_for UrlFor.sample_build (fun _ _ => None) (fun _ _ => []) 2
       [UrlFor.start_hook UrlFor.initial] "missing" ∅).1 = [st']
    /\ (UrlFor.add_url_log st' = []
        \/ exists url, UrlFor.add_url_log st' = [url]).
Proof.
  exact (url_for_adds_at_most_once UrlFor.sample_build (fun _ _ => None) (fun _ _ => [])
           2 (UrlFor.start_hook UrlFor.initial) "missing" ∅).
Defined.

Lemma url_for_second_freeze_adds_twice_witness :
  Handlers.url_for UrlFor.sample_build (fun _ _ => None) (fun _ _ => []) 3
    [UrlFor.start_hook UrlFor.initial; UrlFor.mkState true true ["http://localhost/"]]
    "index" ∅
  = ([UrlFor.mkState true true ["http://localhost/"; "http://localhost/"];
      UrlFor.mkState true true
        ["http://localhost/"; "http://localhost/"; "http://localhost/"]],
     Ok "/").
Proof.
  exact (proj1 (url_for_second_freeze_adds_twice UrlFor.sample_build 0
                  (UrlFor.start_hook UrlFor.initial)
                  (UrlFor.mkState true true ["http://localhost/"])
                  "index" ∅ "http://localhost/" eq_refl eq_refl eq_refl eq_refl eq_refl)).
Defined.

(** ** The plugins *)

Section PluginsMore.
Import ProgressBar LogPlugin.

(** The bar shows the counters of the last event only: what was there
    before, the initial total of 100 included, and the events before the
    last have no part in it. *)
Theorem run_hooks_last_event (self self' : ProgressBarPlugin)
    (events : list TaskInfo) (task_info : TaskInfo) :
  run_hooks self (events ++ [task_info]) = run_hooks self' [task_info].
Proof.
  rewrite run_hooks_snoc. unfold run_hooks. cbn [foldl].
  by rewrite !update_bar_fields.
Qed.

End PluginsMore.

(** ** [cli.main]: errors and the keys it passes on *)

Section CliMore.
Import Cli.
Variable import_module : string -> result (option string).

(** [main] reaches its call of [freeze] exactly when the configuration is
    usable and the module name imports as a module that has an [app].
    Otherwise it raises, in this order: what [yaml.safe_load] raised; for a
    document that is no dictionary the [SyntaxError] that names the file;
    for a dictionary whose [extra_pages] cannot be iterated [TypeError];
    what the import raised; [AttributeError] for a module without [app]. *)
Theorem main_returns_iff_usable (module_name dest_path : string)
    (prefix : option string) (extra_page : list string)
    (config : option (string * result pyobj)) :
  let result := main import_module module_name dest_path prefix extra_page config in
  (returns result
   <-> usable config /\ exists app, import_module module_name = Ok (Some app))
  /\ (forall name e, config = Some (name, Raise e) -> result = Raise e)
  /\ (forall name doc,
        config = Some (name, Ok doc) ->
        (forall d, doc <> PyDict d) ->
        result
        = Raise (SyntaxError ("File " +:+ name +:+ " is not prepared as YAML dictionary.")))
  /\ (forall name d,
        config = Some (name, Ok (PyDict d)) ->
        ~ usable config ->
        result = Raise TypeError)
  /\ (usable config ->
      forall e, import_module module_name = Raise e -> result = Raise e)
  /\ (usable config ->
      import_module module_name = Ok None ->
      result = Raise (OtherError "AttributeError")).
Proof.
  intros result. subst result.
  assert (usable config ->
          exists params,
            main import_module module_name dest_path prefix extra_page config
            = (module ← import_module module_name;
               app ← module_app module;
               Ok (mkCall app dest_path params))) as Hform.
  { intros Hu. destruct config as [[name [doc|e]]|]; [|done|].
    - destruct doc as [| | | | | |d]; try done.
      destruct (main_dict_form import_module module_name dest_path prefix extra_page
                  name d) as (base & _ & _ & ->).
      unfold usable in Hu. destruct (dict_get d "extra_pages"); try done; by eexists.
    - destruct (main_no_file import_module module_name dest_path prefix extra_page)
        as (base & _ & _ & _ & ->). by eexists. }
  split; [|split; [|split; [|split; [|split]]]].
  - split.
    + intros Hr.
      assert (usable config) as Hu.
      { destruct config as [[name [doc|e]]|]; [|done|done].
        destruct doc as [| | | | | |d]; try done.
        destruct (main_dict_form import_module module_name dest_path prefix extra_page
                    name d) as (base & _ & _ & E).
        rewrite E in Hr. unfold usable.
        by destruct (dict_get d "extra_pages"). }
      split; [done|]. destruct (Hform Hu) as [params E]. rewrite E in Hr.
      destruct (import_module module_name) as [[app|]|e]; try done. by exists app.
    + intros [Hu [app Hi]]. destruct (Hform Hu) as [params ->]. by rewrite Hi.
  - by intros name e ->.
  - intros name doc -> Hd. destruct doc; try done. by destruct (Hd items).
  - intros name d -> Hu.
    destruct (main_dict_form import_module module_name dest_path prefix extra_page name d)
      as (base & _ & _ & ->).
    unfold usable in Hu. by destruct (dict_get d "extra_pages").
  - intros Hu e Hi. destruct (Hform Hu) as [params ->]. by rewrite Hi.
  - intros Hu Hi. destruct (Hform Hu) as [params ->]. by rewrite Hi.
Qed.

(** The parameters [main] passes on hold [extra_pages] always, [prefix]
    perhaps, [extra_files] exactly when a file is given, and no other key:
    whatever else the file sets is dropped.  [extra_files] is the file's
    entry, [None] when the file has none. *)
Theorem main_params_keys (module_name dest_path : string)
    (prefix : option string) (extra_page : list string)
    (config : option (string * result pyobj)) (call : freeze_call) :
  main import_module module_name dest_path prefix extra_page config = Ok call ->
  "extra_pages" ∈ dom (call_params call)
  /\ dom (call_params call) ⊆ {[ "extra_pages"; "prefix"; "extra_files" ]}
  /\ call_params call !! "extra_files"
     = match config with
       | Some (_, Ok (PyDict d)) => Some (dict_get d "extra_files")
       | _ => None
       end.
Proof.
  destruct config as [[name [doc|e]]|]; [|done|].
  - destruct doc as [| | | | | |d]; try done.
    destruct (main_dict_form import_module module_name dest_path prefix extra_page name d)
      as (base & Hbase & _ & ->).
    destruct (if not_none _ then _ else _) as [items|e]; [|done].
    intros (app & _ & ->)%main_import_ok. cbn [call_params]. rewrite !dom_insert_L.
    split; [set_solver|]. split; [set_solver|]. by simplify_map_eq.
  - destruct (main_no_file import_module module_name dest_path prefix extra_page)
      as (base & Hbase & Hp & _ & ->).
    intros (app & _ & ->)%main_import_ok. cbn [call_params].
    split; [by apply elem_of_dom|]. split; [set_solver|].
    apply not_elem_of_dom. set_solver.
Qed.

End CliMore.

Lemma main_params_keys_witness :
  let params : gmap string Cli.pyobj :=
    <["extra_files" := Cli.PyNone]> {[ "extra_pages" := Cli.PyList [Cli.PyStr "/extra/"] ]} in
  "extra_pages" ∈ dom params
  /\ dom params ⊆ ({[ "extra_pages"; "prefix"; "extra_files" ]} : gset string)
  /\ params !! "extra_files" = Some Cli.PyNone.
Proof.
  intros params.
  apply (main_params_keys (fun _ => Ok (Some "app.app")) "app" "build" None ["/extra/"]
           (Some ("config.yaml",
                  Ok (Cli.PyDict [(Cli.PyStr "output", Cli.PyStr "elsewhere")])))
           (Cli.mkCall "app.app" "build" params)).
  vm_compute. reflexivity.
Defined.

Lemma main_returns_iff_usable_witness :
  Cli.main (fun _ => Ok None) "app" "build" None []
    (Some ("config.yaml", Ok (Cli.PyList [])))
  = Raise (SyntaxError "File config.yaml is not prepared as YAML dictionary.")
  /\ Cli.main (fun _ => Ok None) "app" "build" None [] None
     = Raise (OtherError "AttributeError").
Proof.
  split.
  - apply (proj1 (proj2 (proj2 (main_returns_iff_usable (fun _ => Ok None) "app" "build"
                                  None [] (Some ("config.yaml", Ok (Cli.PyList []))))))
             "config.yaml" (Cli.PyList []) eq_refl).
    intros d. discriminate.
  - exact (proj2 (proj2 (proj2 (proj2 (proj2
             (main_returns_iff_usable (fun _ => Ok None) "app" "build" None [] None)))))
             I eq_refl).
Defined.

(** ** The URL generators *)

Section GeneratorFacts.
Import Generators GeneratorsSpec.

Lemma then_run_app {A} (a b : list A) (r : run A) :
  then_run (a ++ b) r = then_run a (then_run b r).
Proof. unfold then_run. simpl. by rewrite app_assoc. Qed.

Lemma then_run_nil {A} (r : run A) : then_run [] r = r.
Proof. by destruct r. Qed.

Lemma static_rules_endpoints_spec (vf : gmap string view) (rules : list rule) :
  (forall r, r ∈ rules -> is_Some (vf !! rule_endpoint r)) ->
  (_static_rules_endpoints_of vf rules).2 = None
  /\ forall e, e ∈ (_static_rules_endpoints_of vf rules).1
               <-> exists r folder, r ∈ rules /\ rule_endpoint r = e
                                    /\ vf !! e = Some (SendStaticFile folder).
Proof.
  induction rules as [|r rules IH]; intros Hall.
  - split; [done|]. intros e. split; [by intros ?%elem_of_nil|].
    by intros (r & _ & ?%elem_of_nil & _).
  - destruct IH as [IH1 IH2]; [intros r' Hr'; apply Hall; by right|].
    destruct (Hall r (list_elem_of_here _ _)) as [v Hv].
    cbn [_static_rules_endpoints_of]. rewrite Hv. destruct v as [folder|].
    + split; [done|]. intros e. unfold then_run. cbn [fst snd app].
      rewrite elem_of_cons, IH2. split.
      * intros [->|(r' & f' & Hin & He & Hf)].
        -- exists r, folder. split; [by left | done].
        -- exists r', f'. split; [by right | done].
      * intros (r' & f' & Hin & He & Hf). apply elem_of_cons in Hin as [->|Hin].
        -- by left.
        -- right. by exists r', f'.
    + split; [done|]. intros e. rewrite IH2. split.
      * intros (r' & f' & Hin & He & Hf). exists r', f'. split; [by right | done].
      * intros (r' & f' & Hin & He & Hf). apply elem_of_cons in Hin as [->|Hin].
        -- congruence.
        -- by exists r', f'.
Qed.

(** After [init_app], on an application whose rules all have a view,
    [static_files_urls] completes, and it yields the pair of an endpoint and
    a [filename] exactly for the files in the static folder of a rule served
    by [send_static_file]; [FREEZER_STATIC_IGNORE] takes nothing away. *)
Theorem static_files_urls_items (app : flask_app) (static_ignore : option (list string)) :
  (forall r, r ∈ url_map app -> is_Some (view_functions app !! rule_endpoint r)) ->
  (static_files_urls app (init_app static_ignore)).2 = None
  /\ forall e filename,
       GenSeq e {[ "filename" := Cli.PyStr filename ]} []
         ∈ (static_files_urls app (init_app static_ignore)).1
       <-> exists r t, r ∈ url_map app /\ rule_endpoint r = e
                       /\ view_functions app !! e = Some (SendStaticFile (Some (Fs.Dir t)))
                       /\ filename ∈ dom t.
Proof.
  intros Hall. unfold static_files_urls, init_app, _static_rules_endpoints.
  destruct (static_rules_endpoints_spec _ _ Hall) as [Hnone Hin].
  split; [done|]. intros e filename. cbn [fst]. rewrite list_elem_of_bind. split.
  - intros (e' & Hitem & He'). apply Hin in He' as (r & folder & Hr & <- & Hv).
    unfold static_files_of in Hitem. rewrite Hv in Hitem.
    destruct folder as [[| | |t]|]; try by apply elem_of_nil in Hitem.
    apply list_elem_of_fmap in Hitem as (f & Heq & Hf).
    assert (e = rule_endpoint r) as ->.
    { by apply (f_equal (fun g => match g with GenSeq x _ _ => x | _ => "" end)) in Heq. }
    assert (filename = f) as <-.
    { apply (f_equal (fun g => match g with
                               | GenSeq _ m _ => m !! "filename"
                               | _ => None
                               end)) in Heq.
      rewrite !lookup_singleton_eq in Heq. congruence. }
    exists r, t. repeat split; try done.
    unfold walk_directory in Hf. simpl in Hf.
    apply list_elem_of_fmap in Hf as ([q c] & -> & Hq).
    apply elem_of_map_to_list in Hq. apply elem_of_dom. by eexists.
  - intros (r & t & Hr & <- & Hv & Hf). exists (rule_endpoint r). split.
    + unfold static_files_of. rewrite Hv. apply list_elem_of_fmap.
      exists filename. split; [done|].
      apply elem_of_dom in Hf as [c Hc]. unfold walk_directory. simpl.
      apply list_elem_of_fmap. exists (filename, c). split; [done|].
      by apply elem_of_map_to_list.
    + apply Hin. by exists r, (Some (Fs.Dir t)).
Qed.

Section AllUrlsFacts.
Variable S : Type.
Variable url_for : S -> string -> values -> S * result string.

Abbreviation all_urls' := (all_urls S url_for).
Abbreviation urls_of_items' := (urls_of_items S url_for).

Lemma all_urls_app (app : flask_app) (static_ignore : option (list string))
    (gens1 gens2 : list generator) (st : S) :
  all_urls' app static_ignore (gens1 ++ gens2) st
  = match all_urls' app static_ignore gens1 st with
    | (st1, (urls, Some e)) => (st1, (urls, Some e))
    | (st1, (urls, None)) =>
        let '(st2, r) := all_urls' app static_ignore gens2 st1 in (st2, then_run urls r)
    end.
Proof.
  revert st. induction gens1 as [|g gens1 IH]; intros st.
  - cbn [List.app all_urls]. destruct (all_urls' _ _ gens2 st) as [st2 r].
    by rewrite then_run_nil.
  - cbn [List.app all_urls].
    destruct (urls_of_items' _ _ st) as [st1 [urls [e|]]]; [done|].
    destruct ((call app static_ignore g).2); [done|].
    rewrite IH.
    destruct (all_urls' _ _ gens1 st1) as [st2 [urls2 [e|]]]; [done|].
    destruct (all_urls' _ _ gens2 st2) as [st3 r].
    unfold then_run at 3. cbn [fst snd]. by rewrite then_run_app.
Qed.

(** Registering a generator leaves what the earlier generators give as it
    is and puts the URLs of the new one behind theirs; when an earlier one
    ends in an error the new one is not called. *)
Theorem all_urls_register_generator (app : flask_app)
    (static_ignore : option (list string)) (generators : list generator)
    (function : generator) (st : S) :
  all_urls' app static_ignore (register_generator generators function) st
  = match all_urls' app static_ignore generators st with
    | (st1, (urls, Some e)) => (st1, (urls, Some e))
    | (st1, (urls, None)) =>
        let '(st2, r) := all_urls' app static_ignore [function] st1 in
        (st2, then_run urls r)
    end.
Proof. apply all_urls_app. Qed.

Lemma urls_of_items_strings (name : string) (items : list generated) (st : S) :
  Forall (fun item => is_Some (string_of item)) items ->
  urls_of_items' name items st = (st, (omap string_of items, None)).
Proof.
  induction 1 as [|item items [url Hu] _ IH]; [done|].
  cbn [urls_of_items omap list_omap]. rewrite Hu.
  destruct item; try done. injection Hu as ->.
  cbn [url_of_item]. by rewrite IH.
Qed.

(** Generators that yield strings only: [all_urls] yields those strings, in
    order, and makes no [url_for] call. *)
Theorem all_urls_strings (app : flask_app) (static_ignore : option (list string))
    (generators : list generator) (st : S) :
  Forall only_strings generators ->
  all_urls' app static_ignore generators st
  = (st, (omap string_of (items_of app static_ignore generators).*2, None)).
Proof.
  induction 1 as [|g generators Hg _ IH]; [done|].
  destruct g as [| |name yields]; try done.
  cbn [all_urls call fst snd __name__]. rewrite (urls_of_items_strings _ _ _ Hg), IH.
  unfold then_run, items_of. cbn [fst snd mbind list_bind call].
  rewrite fmap_app, omap_app. repeat f_equal.
  rewrite <- list_fmap_compose. by rewrite list_fmap_id.
Qed.

Lemma urls_of_items_length (name : string) (items : list generated) (st st' : S)
    (urls : list string) (err : option exn) :
  urls_of_items' name items st = (st', (urls, err)) ->
  length urls <= length items /\ (err = None -> length urls = length items).
Proof.
  revert st urls. induction items as [|item items IH]; intros st urls H.
  - injection H as <- <- <-. done.
  - cbn [urls_of_items] in H.
    destruct (url_of_item S url_for name item st) as [st1 [url|e]].
    + destruct (urls_of_items' name items st1) as [st2 [urls2 err2]] eqn:E.
      injection H as <- <- <-. destruct (IH _ _ E) as [H1 H2].
      cbn [then_run fst snd List.app length]. split; [lia|]. intros Hn. by rewrite H2.
    + injection H as <- <- <-. simpl. split; [lia | done].
Qed.

(** [all_urls] yields one URL for each item its generators yield and no
    other: never more URLs than items, and as many when it ends without an
    error. *)
Theorem all_urls_one_per_item (app : flask_app) (static_ignore : option (list string))
    (generators : list generator) (st st' : S) (urls : list string) (err : option exn) :
  all_urls' app static_ignore generators st = (st', (urls, err)) ->
  length urls <= length (items_of app static_ignore generators)
  /\ (err = None -> length urls = length (items_of app static_ignore generators)).
Proof.
  revert st urls. induction generators as [|g generators IH]; intros st urls H.
  - injection H as <- <- <-. done.
  - cbn [all_urls] in H. unfold items_of. cbn [mbind list_bind].
    rewrite length_app, length_fmap. fold (items_of app static_ignore generators).
    destruct (urls_of_items' _ _ st) as [st1 [urls1 err1]] eqn:E.
    destruct (urls_of_items_length _ _ _ _ _ _ E) as [H1 H2].
    destruct err1 as [e|]; [injection H as <- <- <-; split; [lia | done]|].
    specialize (H2 eq_refl).
    destruct ((call app static_ignore g).2) as [e|];
      [injection H as <- <- <-; split; [lia | done]|].
    destruct (all_urls' _ _ generators st1) as [st2 [urls2 err2]] eqn:E2.
    injection H as <- <- <-. destruct (IH _ _ E2) as [H3 H4].
    cbn [then_run fst snd]. rewrite length_app. split; [lia|].
    intros Hn. rewrite (H4 Hn). lia.
Qed.

End AllUrlsFacts.

End GeneratorFacts.

(** ** The generators during a freeze *)

Section GeneratorsDuringFreeze.
Import Generators GeneratorsSpec UrlFor.
Variable build : string -> Generators.values -> result string.
Variable add_url_error : string -> option exn.
Variable add_url_calls : string -> list (string * Generators.values).

Abbreviation flask_url_for := (UrlFor.url_for build add_url_error add_url_calls 2).

Lemma url_for_armed (st st' : handler_state) (endpoint : string)
    (vals : Generators.values) (url : string) :
  armed st ->
  flask_url_for st endpoint vals = (st', Ok url) ->
  armed st'
  /\ add_url_log st' = (add_url_log st ++ [external_url build (endpoint, vals)])%list.
Proof.
  intros [Hg Hfi]. rewrite (url_for_step build add_url_error add_url_calls 1).
  unfold handle_url_for. rewrite Hg.
  rewrite (url_for_guard_cleared build add_url_error add_url_calls) by done.
  unfold external_url. cbn [fst snd].
  destruct (build endpoint (<["_external" := Cli.PyBool true]> vals)) as [ext|e]; [|done].
  unfold add_url. cbn [set_handling freeze_info_set handling_url_for add_url_log].
  rewrite Hfi. cbn [negb].
  set (st2 := mkState _ _ _).
  pose proof (nested_calls_cleared_state build add_url_error add_url_calls 1 st2
                (add_url_calls ext) eq_refl) as E.
  destruct (nested_calls _ st2 _) as [st3 [[]|e]]; simpl in E; subst st3; [|done].
  destruct (add_url_error ext); [done|].
  intros [= <- _]. by split.
Qed.

Lemma urls_of_items_armed (name : string) (items : list generated)
    (st st' : handler_state) (urls : list string) :
  armed st ->
  urls_of_items handler_state flask_url_for name items st = (st', (urls, None)) ->
  armed st'
  /\ add_url_log st'
     = (add_url_log st
          ++ (external_url build <$> omap call_of ((fun item => (name, item)) <$> items)))%list.
Proof.
  revert st urls. induction items as [|item items IH]; intros st urls Ha H.
  - injection H as <- _. cbn. by rewrite app_nil_r.
  - cbn [urls_of_items] in H.
    destruct (url_of_item _ _ name item st) as [st1 [url|e]] eqn:E; [|done].
    destruct (urls_of_items _ _ name items st1) as [st2 [urls2 err2]] eqn:E2.
    unfold then_run in H. cbn [fst snd] in H. injection H as <- _ ->.
    assert (armed st1
            /\ add_url_log st1
               = (add_url_log st
                    ++ (external_url build <$> omap call_of [(name, item)]))%list)
      as [Ha1 Hlog1].
    { destruct item as [u|vals|endpoint vals more]; cbn [url_of_item] in E.
      - injection E as <- _. cbn. by rewrite app_nil_r.
      - exact (url_for_armed _ _ _ _ _ Ha E).
      - destruct more as [|last_mod [|]]; [| |done]; exact (url_for_armed _ _ _ _ _ Ha E). }
    destruct (IH _ _ Ha1 E2) as [Ha2 Hlog2]. split; [done|].
    rewrite Hlog2, Hlog1, <- app_assoc. f_equal.
    rewrite fmap_cons. cbn [omap list_omap].
    by destruct (call_of (name, item)).
Qed.

Lemma all_urls_alone_during_freeze (app : flask_app)
    (static_ignore : option (list string))
    (generators : list generator) (st st' : handler_state) (urls : list string) :
  armed st ->
  all_urls handler_state flask_url_for app static_ignore generators st
  = (st', (urls, None)) ->
  armed st'
  /\ add_url_log st'
     = (add_url_log st
          ++ (external_url build <$> omap call_of (items_of app static_ignore generators)))%list.
Proof.
  revert st urls. induction generators as [|g generators IH]; intros st urls Ha H.
  - injection H as <- _. cbn. by rewrite app_nil_r.
  - cbn [all_urls] in H.
    destruct (urls_of_items _ _ _ _ st) as [st1 [urls1 [e|]]] eqn:E; [done|].
    destruct ((call app static_ignore g).2); [done|].
    destruct (all_urls _ _ _ _ generators st1) as [st2 [urls2 err2]] eqn:E2.
    unfold then_run in H. cbn [fst snd] in H. injection H as <- _ ->.
    destruct (urls_of_items_armed _ _ _ _ _ Ha E) as [Ha1 Hlog1].
    destruct (IH _ _ Ha1 E2) as [Ha2 Hlog2]. split; [done|].
    rewrite Hlog2, Hlog1, <- app_assoc. f_equal.
    unfold items_of. cbn [mbind list_bind]. by rewrite omap_app, fmap_app.
Qed.

End GeneratorsDuringFreeze.

Section AllUrlsLift.
Import Generators.
Variables (S S' : Type).
Variable url_for : S -> string -> Generators.values -> S * result string.
Variable url_for' : S' -> string -> Generators.values -> S' * result string.
Variable lift : S -> S'.
Hypothesis url_for_lift : forall st endpoint vals,
  url_for' (lift st) endpoint vals
  = (lift (url_for st endpoint vals).1, (url_for st endpoint vals).2).

Lemma url_of_item_lift (name : string) (item : generated) (st : S) :
  url_of_item S' url_for' name item (lift st)
  = (lift (url_of_item S url_for name item st).1, (url_of_item S url_for name item st).2).
Proof.
  destruct item as [url|vals|endpoint vals more]; cbn [url_of_item]; [done|done|].
  by destruct more as [|last_mod [|]].
Qed.

Lemma urls_of_items_lift (name : string) (items : list generated) (st : S) :
  urls_of_items S' url_for' name items (lift st)
  = (lift (urls_of_items S url_for name items st).1,
     (urls_of_items S url_for name items st).2).
Proof.
  revert st. induction items as [|item items IH]; intros st; [done|].
  cbn [urls_of_items]. rewrite url_of_item_lift.
  destruct (url_of_item S url_for name item st) as [st1 [url|e]]; cbn [fst snd]; [|done].
  rewrite IH. by destruct (urls_of_items S url_for name items st1).
Qed.

Lemma all_urls_lift (app : flask_app) (static_ignore : option (list string))
    (generators : list generator) (st : S) :
  all_urls S' url_for' app static_ignore generators (lift st)
  = (lift (all_urls S url_for app static_ignore generators st).1,
     (all_urls S url_for app static_ignore generators st).2).
Proof.
  revert st. induction generators as [|g generators IH]; intros st; [done|].
  cbn [all_urls]. rewrite urls_of_items_lift.
  destruct (urls_of_items S url_for _ _ st) as [st1 [urls [e|]]]; cbn [fst snd]; [done|].
  destruct ((call app static_ignore g).2); [done|].
  rewrite IH. by destruct (all_urls S url_for app static_ignore generators st1).
Qed.

End AllUrlsLift.

Section GeneratorsFirstFreeze.
Import Generators GeneratorsSpec UrlFor.
Variable build : string -> Generators.values -> result string.
Variable add_url_error : nat -> string -> option exn.
Variable add_url_calls : nat -> string -> list (string * Generators.values).

(** During the first freeze of an application, while the handler of
    [freeze] is the only one it has, the generators feed the engine twice:
    when [all_urls] runs with the handler armed and ends without an error, it
    leaves the handler armed, and [add_url] has been called once for each
    item that is no string, in order, with the external URL of its endpoint
    and values; strings reach the engine only as yielded. *)
Theorem all_urls_during_freeze (app : flask_app) (static_ignore : option (list string))
    (generators : list generator) (st : handler_state) (hs' : Handlers.handlers)
    (urls : list string) :
  armed st ->
  all_urls Handlers.handlers (Handlers.url_for build add_url_error add_url_calls 2)
    app static_ignore generators [st]
  = (hs', (urls, None)) ->
  exists st',
    hs' = [st']
    /\ armed st'
    /\ add_url_log st'
       = (add_url_log st
            ++ (external_url build
                  <$> omap call_of (items_of app static_ignore generators)))%list.
Proof.
  intros Ha H.
  rewrite (all_urls_lift handler_state Handlers.handlers
             (UrlFor.url_for build (add_url_error 0%nat) (add_url_calls 0%nat) 2)
             (Handlers.url_for build add_url_error add_url_calls 2)
             (fun st => [st])) in H
    by (intros; apply url_for_all_alone).
  destruct (all_urls handler_state _ app static_ignore generators st)
    as [st' [urls' err]] eqn:E.
  cbn [fst snd] in H. injection H as <- -> ->.
  exists st'. split; [done|].
  exact (all_urls_alone_during_freeze build (add_url_error 0%nat) (add_url_calls 0%nat)
           app static_ignore generators st st' urls Ha E).
Qed.

End GeneratorsFirstFreeze.

Section GeneratorExamples.
Import Generators GeneratorsSpec.

Lemma static_files_urls_items_witness :
  (static_files_urls sample_app (init_app None)).2 = None
  /\ GenSeq "static" {[ "filename" := Cli.PyStr "js/app.js" ]} []
       ∈ (static_files_urls sample_app (init_app None)).1.
Proof.
  assert (forall r, r ∈ url_map sample_app ->
                    is_Some (view_functions sample_app !! rule_endpoint r)) as Hall.
  { intros r Hr. unfold sample_app in Hr. cbn [url_map] in Hr.
    repeat (apply elem_of_cons in Hr as [->|Hr]; [vm_compute; eauto|]).
    by apply elem_of_nil in Hr. }
  destruct (static_files_urls_items sample_app None Hall) as [Hnone Hitems].
  split; [exact Hnone|]. apply Hitems.
  exists (mkRule "static" ["filename"] ["GET"]),
         (<["style.css" := "body{}"]> {[ "js/app.js" := "" ]}).
  split; [by left|]. split; [reflexivity|]. split; [vm_compute; reflexivity|].
  apply elem_of_dom. exists "". vm_compute. reflexivity.
Defined.

Lemma all_urls_strings_witness :
  all_urls unit (plain_url_for UrlFor.sample_build) sample_app None
    [UserGenerator "pages" [GenStr "/about/"; GenStr "/contact/"]] tt
  = (tt, (["/about/"; "/contact/"], None)).
Proof.
  apply (all_urls_strings unit (plain_url_for UrlFor.sample_build) sample_app None
           [UserGenerator "pages" [GenStr "/about/"; GenStr "/contact/"]] tt).
  repeat constructor; by eexists.
Defined.

Lemma all_urls_one_per_item_witness :
  length ["/"; "/about/"]
  <= length (items_of sample_app None
               [no_argument_rules_urls_method; UserGenerator "pages" [GenStr "/about/"]])
  /\ ((None : option exn) = None ->
      length ["/"; "/about/"]
      = length (items_of sample_app None
                  [no_argument_rules_urls_method; UserGenerator "pages" [GenStr "/about/"]])).
Proof.
  apply (all_urls_one_per_item unit (plain_url_for UrlFor.sample_build) sample_app None
           [no_argument_rules_urls_method; UserGenerator "pages" [GenStr "/about/"]]
           tt tt ["/"; "/about/"] None).
  vm_compute. reflexivity.
Defined.

Lemma all_urls_during_freeze_witness :
  exists st',
    [UrlFor.mkState true true ["http://localhost/"]] = [st']
    /\ armed st'
    /\ UrlFor.add_url_log st'
       = (UrlFor.add_url_log (UrlFor.start_hook UrlFor.initial)
            ++ (external_url UrlFor.sample_build
                  <$> omap call_of
                        (items_of sample_app None
                           [no_argument_rules_urls_method;
                            UserGenerator "pages" [GenStr "/about/"]])))%list.
Proof.
  apply (all_urls_during_freeze UrlFor.sample_build (fun _ _ => None) (fun _ _ => [])
           sample_app None
           [no_argument_rules_urls_method; UserGenerator "pages" [GenStr "/about/"]]
           (UrlFor.start_hook UrlFor.initial)
           [UrlFor.mkState true true ["http://localhost/"]] ["/"; "/about/"]).
  - split; reflexivity.
  - vm_compute. reflexivity.
Defined.

End GeneratorExamples.

(** ** The recorded URLs do not depend on the order of the events *)

Section RecordedOrder.
Import FlaskFrozen.

Lemma call_hooks_returns (evs : list hook_event) (recorded : gset string) :
  (forall task_info, PageFrozen task_info ∈ evs ->
     exists u, make_relative_url PREFIX (a_url task_info) = Ok u) ->
  exists urls, call_hooks evs recorded = Ok urls.
Proof.
  revert recorded. induction evs as [|ev evs IH]; intros recorded Hall; [by eexists|].
  assert (forall task_info, PageFrozen task_info ∈ evs ->
            exists u, make_relative_url PREFIX (a_url task_info) = Ok u) as Hall'
    by (intros ti Hin; apply Hall; by right).
  destruct ev as [fi|ti|ti]; cbn [call_hooks]; try by apply IH.
  destruct (Hall ti (list_elem_of_here _ _)) as [u Hu].
  unfold record_url. rewrite Hu. cbn [mbind result_bind]. by apply IH.
Qed.

(** The hooks give the same set of URLs in whatever order the engine fires
    the events of a run: when the run in one order records [urls], it
    records [urls] in every other order. *)
Theorem recorded_urls_any_order (evs evs' : list hook_event) (urls : gset string) :
  evs ≡ₚ evs' ->
  call_hooks evs ∅ = Ok urls -> call_hooks evs' ∅ = Ok urls.
Proof.
  intros Hperm H.
  destruct (call_hooks_returns evs' ∅) as [urls' H'].
  { intros ti Hin. rewrite <- Hperm in Hin. by eapply call_hooks_defined. }
  rewrite H'. f_equal. apply set_eq. intros u.
  rewrite (call_hooks_spec _ _ _ H u), (call_hooks_spec _ _ _ H' u).
  by setoid_rewrite Hperm.
Qed.

Lemma recorded_urls_any_order_witness :
  call_hooks (reverse sample_events) ∅ = Ok {[ "/a" ]}.
Proof.
  apply (recorded_urls_any_order sample_events (reverse sample_events) {[ "/a" ]}).
  - symmetry. apply reverse_Permutation.
  - vm_compute. reflexivity.
Defined.

End RecordedOrder.

(** ** [LogPlugin._summary]: when it divides by zero *)

(** [_summary] raises [ZeroDivisionError] exactly when [total_task_count]
    is 0, whatever the other two counters are, and then returns no text. *)
Theorem _summary_raises_iff_no_task (format_percent : Z * Z -> string)
    (fi : FreezeInfo) :
  (LogPlugin._summary format_percent fi = Raise ZeroDivisionError
   <-> total_task_count fi = 0%Z)
  /\ (forall done failed,
        LogPlugin._summary format_percent (mkFreezeInfo 0 done failed)
        = Raise ZeroDivisionError).
Proof.
  split; [apply _summary_zero_division|].
  intros done failed. by apply _summary_zero_division.
Qed.
